(** * update_gen: the fullsync topology reconciler of a SCIONLab attachment point

    A shallow embedding of [update_gen.py].  Python dictionaries are finite
    maps ([gmap]) keyed by strings, a dictionary whose keys may be absent is a
    record of optional fields, Python integers are [Z], exceptions are values
    of [exn] threaded through a small error monad, and the file system and the
    HTTP peers are an explicit world that the orchestration passes along. *)

From Stdlib Require Import ZArith Lia Ascii String DecimalString DecimalZ DecimalPos.
From stdpp Require Import base strings gmap list sorting.

(** ** Python integers rendered as text: [str(n)] *)

Definition str (n : Z) : string := NilZero.string_of_int (Z.to_int n).

(** ** Exceptions and the error monad *)

Inductive exn :=
  | KeyError (key : string)
  | StopIteration
  | UnboundLocalError (name : string)
  | ConnectionError (msg : string)
  | Exception (msg : string)
  | FileNotFoundError (path : string)
  | SystemExit (code : Z).

(** [except Exception] catches everything the program raises except the
    [SystemExit] of [exit(1)]. *)
Definition is_Exception (e : exn) : bool :=
  match e with SystemExit _ => false | _ => true end.

Inductive result (A : Type) :=
  | Ok (a : A)
  | Raise (e : exn).
Arguments Ok {A} a.
Arguments Raise {A} e.

#[global] Instance result_ret : MRet result := λ A a, Ok a.
#[global] Instance result_bind : MBind result := λ A B k r,
  match r with Ok a => k a | Raise e => Raise e end.

(** [d[key]] on a dictionary position that may be absent. *)
Definition getitem {A} (key : string) (o : option A) : result A :=
  match o with Some a => Ok a | None => Raise (KeyError key) end.

(** [d.setdefault(k, v)] on a finite map: the map after the call. *)
Definition setdefault {A} (k : string) (v : A) (d : gmap string A) : gmap string A :=
  match d !! k with Some _ => d | None => <[k := v]> d end.

(** ** The topology document *)

Record OverlayAddr := { Addr : string; OverlayPort : Z }.
Record L4Addr := { ctrl_Addr : string; L4Port : Z }.

(** An entry of [InternalAddrs], e.g. under ["IPv4"]. *)
Record InternalAddr := { ia_PublicOverlay : OverlayAddr }.
(** An entry of [CtrlAddr], e.g. under ["IPv4"]. *)
Record CtrlAddrEntry := { Public : L4Addr }.

Record Interface := {
  Overlay : string;
  ISD_AS : string;
  LinkTo : string;
  Bandwidth : Z;
  if_MTU : Z;
  RemoteOverlay : OverlayAddr;
  PublicOverlay : OverlayAddr;
}.

(** A border-router dictionary; each of its three keys may be missing
    (the dictionary [{}] is the record of three [None]). *)
Record BorderRouter := {
  InternalAddrs : option (gmap string InternalAddr);
  CtrlAddr : option (gmap string CtrlAddrEntry);
  Interfaces : option (gmap string Interface);
}.

(** The topology dictionary: its ["BorderRouters"] section and the other
    sections, which this program carries along untouched. *)
Record Topology := {
  BorderRouters : gmap string BorderRouter;
  OtherSections : gmap string string;
}.

#[global] Instance exn_eq_dec : EqDecision exn.
Proof. solve_decision. Defined.
#[global] Instance OverlayAddr_eq_dec : EqDecision OverlayAddr.
Proof. solve_decision. Defined.
#[global] Instance L4Addr_eq_dec : EqDecision L4Addr.
Proof. solve_decision. Defined.
#[global] Instance InternalAddr_eq_dec : EqDecision InternalAddr.
Proof. solve_decision. Defined.
#[global] Instance CtrlAddrEntry_eq_dec : EqDecision CtrlAddrEntry.
Proof. solve_decision. Defined.
#[global] Instance Interface_eq_dec : EqDecision Interface.
Proof. solve_decision. Defined.
#[global] Instance BorderRouter_eq_dec : EqDecision BorderRouter.
Proof. solve_decision. Defined.
#[global] Instance Topology_eq_dec : EqDecision Topology.
Proof. solve_decision. Defined.

(** The dictionary [{}]. *)
Definition empty_dict : BorderRouter :=
  {| InternalAddrs := None; CtrlAddr := None; Interfaces := None |}.

(** Truth value of a border-router dictionary: false exactly for [{}]. *)
Definition dict_truthy (br : BorderRouter) : bool :=
  bool_decide (br ≠ empty_dict).

(** ** Module constants *)

Definition VPN_ADDR : string := "10.0.8.1".
Definition VPN_NETMASK : string := "255.255.255.0".
Definition MTU : Z := 1472.
Definition BANDWIDTH : Z := 1000.
Definition BR_INTERNAL_START_PORT : Z := 30050.
Definition MAX_IFACES_IN_BR : nat := 12.
Definition ENDPOINT2SMS_REMAP_IN_PROGRESS_FILE : string :=
  ".2sms_endpoint_remap_in_progress.tmp".

(** ** [asid_is_infrastructure] *)

Definition asid_is_infrastructure (asid : Z) : bool :=
  (0xffaa00000000 <? asid)%Z && (asid <? 0xffaa00010000)%Z.

(** ** Connections and the coordinator's per-AS status *)

Record Connection := {
  ASID : string;
  UserIP : string;
  UserPort : Z;
  APPort : Z;
  APBRID : Z;
  IsVPN : bool;
  VPNUserID : string;
}.

#[global] Instance Connection_eq_dec : EqDecision Connection.
Proof. solve_decision. Defined.

(** [status['connections']] is a JSON list or [null]. *)
Record SyncStatus := { connections : option (list Connection) }.

#[global] Instance SyncStatus_eq_dec : EqDecision SyncStatus.
Proof. solve_decision. Defined.

(** ** [_create_border_router] and [_insert_interface] *)

Definition _create_border_router : BorderRouter :=
  {| InternalAddrs := Some ∅; CtrlAddr := Some ∅; Interfaces := Some ∅ |}.

Definition _insert_interface (br : BorderRouter) (if_id : Z) (as_id as_ip : string)
    (as_port : Z) (ap_ip : string) (ap_port : Z) (internal_ip : string) : BorderRouter :=
  let mtu := MTU in
  let bandwidth := BANDWIDTH in
  let controlAddrs := default ∅ (CtrlAddr br) in
  let internalAddrs := default ∅ (InternalAddrs br) in
  let interfaces := default ∅ (Interfaces br) in
  let controlAddrs :=
    setdefault "IPv4"
      {| Public := {| ctrl_Addr := internal_ip;
                      L4Port := BR_INTERNAL_START_PORT - 1 + if_id |} |}
      controlAddrs in
  let internalAddrs :=
    setdefault "IPv4"
      {| ia_PublicOverlay := {| Addr := internal_ip;
                                OverlayPort := BR_INTERNAL_START_PORT + 1000 - 1 + if_id |} |}
      internalAddrs in
  let interfaces :=
    <[ str if_id :=
       {| Overlay := "UDP/IPv4";
          ISD_AS := as_id;
          LinkTo := "CHILD";
          Bandwidth := bandwidth;
          if_MTU := mtu;
          RemoteOverlay := {| Addr := as_ip; OverlayPort := as_port |};
          PublicOverlay := {| Addr := ap_ip; OverlayPort := ap_port |} |} ]>
    interfaces in
  {| InternalAddrs := Some internalAddrs;
     CtrlAddr := Some controlAddrs;
     Interfaces := Some interfaces |}.

(** ** The reconciler *)

Record LocalConfig := {
  interface_ip : string;
  internal_ip : string;
  gen_path : string;
  openvpn_ccd_path : string;
}.

(** Python's [sorted] on strings: code-point order, which on the byte strings
    used here is [String.leb]. *)
Definition str_le (a b : string) : Prop := String.leb a b = true.

#[global] Instance str_le_dec : RelDecision str_le.
Proof. intros a b. unfold str_le. apply _. Defined.

Definition sorted (l : list string) : list string := merge_sort str_le l.

Section Reconciler.

(** [lib.packet.scion_addr.ISD_AS], a class of the SCION library: the text of
    an ISD-AS address parsed to the pair (ISD number, AS number), so that
    [ia[1]] is the second component. *)
Variable parse_ISD_AS : string → Z * Z.

(** The test of line 222: the interface is deleted by the pruning. *)
Definition is_prunable_child (iface : Interface) : bool :=
  let ia := parse_ISD_AS (ISD_AS iface) in
  negb (asid_is_infrastructure (ia.2)) && bool_decide (LinkTo iface = "CHILD").

(** The inner loop of [_remove_child_interfaces]: over a snapshot of the
    keys, deleting from the live dictionary. *)
Definition remove_child_interfaces_of (ifaces : gmap string Interface)
    : result (gmap string Interface) :=
  map_fold (λ ifnum _ acc,
      live ← acc;
      iface ← getitem ifnum (live !! ifnum);
      if is_prunable_child iface then Ok (delete ifnum live) else Ok live)
    (Ok ifaces) ifaces.

(** [_remove_child_interfaces], on the ["BorderRouters"] dictionary. *)
Definition remove_child_interfaces_brs (brs : gmap string BorderRouter)
    : result (gmap string BorderRouter) :=
  map_fold (λ brname _ acc,
      live ← acc;
      br ← getitem brname (live !! brname);
      ifaces ← getitem "Interfaces" (Interfaces br);
      ifaces' ← remove_child_interfaces_of ifaces;
      let br' := {| InternalAddrs := InternalAddrs br;
                    CtrlAddr := CtrlAddr br;
                    Interfaces := Some ifaces' |} in
      if decide (ifaces' = ∅)
      then Ok (delete brname live)
      else Ok (<[brname := br']> live))
    (Ok brs) brs.

Definition _remove_child_interfaces (topo : Topology) : result Topology :=
  brs ← remove_child_interfaces_brs (BorderRouters topo);
  Ok {| BorderRouters := brs; OtherSections := OtherSections topo |}.

(** The pruning read as one pass over the values: the interfaces that
    survive, and what becomes of a router that has its ['Interfaces'] key
    ([None]: the router is deleted). *)
Definition surviving_interfaces (ifaces : gmap string Interface)
    : gmap string Interface :=
  filter (λ kv, is_prunable_child kv.2 = false) ifaces.

Definition pruned_router (br : BorderRouter) : option BorderRouter :=
  ifaces ← Interfaces br;
  let ifaces' := surviving_interfaces ifaces in
  if decide (ifaces' = ∅) then None
  else Some {| InternalAddrs := InternalAddrs br; CtrlAddr := CtrlAddr br;
               Interfaces := Some ifaces' |}.

(** Every router has its ['Interfaces'] key. *)
Definition has_Interfaces (brs : gmap string BorderRouter) : Prop :=
  map_Forall (λ _ br, is_Some (Interfaces br)) brs.

(** The state of the merge loop of [_combine_border_routers]: the three
    dictionaries of the target router and the live ["BorderRouters"]. *)
Record MergeState := {
  internalAddrs : gmap string InternalAddr;
  ctrlAddrs : gmap string CtrlAddrEntry;
  interfaces : gmap string Interface;
  live_brs : gmap string BorderRouter;
}.

(** [for k, v in src.items(): dst.setdefault(k, v)] *)
Definition setdefault_all {A} (src dst : gmap string A) : gmap string A :=
  map_fold (λ k v acc, setdefault k v acc) dst src.

Definition merge_router (st : MergeState) (currBrName : string) : result MergeState :=
  currBr ← getitem currBrName (live_brs st !! currBrName);
  src_internal ← getitem "InternalAddrs" (InternalAddrs currBr);
  src_ctrl ← getitem "CtrlAddr" (CtrlAddr currBr);
  src_ifaces ← getitem "Interfaces" (Interfaces currBr);
  Ok {| internalAddrs := setdefault_all src_internal (internalAddrs st);
        ctrlAddrs := setdefault_all src_ctrl (ctrlAddrs st);
        interfaces := setdefault_all src_ifaces (interfaces st);
        live_brs := delete currBrName (live_brs st) |}.

Fixpoint merge_routers (st : MergeState) (names : list string) : result MergeState :=
  match names with
  | [] => Ok st
  | currBrName :: rest => st' ← merge_router st currBrName; merge_routers st' rest
  end.

(** [_combine_border_routers]: the ["BorderRouters"] dictionary after the
    call, and the router the call returns (which is the entry under
    [brname] of that dictionary). *)
Definition combine_border_routers_brs (brs : gmap string BorderRouter) (brname : string)
    : result (gmap string BorderRouter * BorderRouter) :=
  if decide (size brs = 1) then
    match map_to_list brs with
    | (first, br) :: _ => Ok (<[brname := br]> (delete first brs), br)
    | [] => Raise StopIteration
    end
  else
    let br := default empty_dict (brs !! brname) in
    let st := {| internalAddrs := default ∅ (InternalAddrs br);
                 ctrlAddrs := default ∅ (CtrlAddr br);
                 interfaces := default ∅ (Interfaces br);
                 live_brs := setdefault brname empty_dict brs |} in
    st' ← merge_routers st (sorted (elements (dom brs ∖ {[brname]})));
    let br' := {| InternalAddrs := Some (internalAddrs st');
                  CtrlAddr := Some (ctrlAddrs st');
                  Interfaces := Some (interfaces st') |} in
    Ok (<[brname := br']> (live_brs st'), br').

Definition _combine_border_routers (topo : Topology) (brname : string)
    : result (Topology * BorderRouter) :=
  '(brs, br) ← combine_border_routers_brs (BorderRouters topo) brname;
  Ok ({| BorderRouters := brs; OtherSections := OtherSections topo |}, br).

(** First-wins over a sequence of dictionaries: the value under [k] in the
    first dictionary that has the key. *)
Fixpoint first_wins {A} (k : string) (dicts : list (gmap string A)) : option A :=
  match dicts with
  | [] => None
  | d :: rest => match d !! k with Some v => Some v | None => first_wins k rest end
  end.

(** The routers merged into the target, in the order of the merge. *)
Definition merge_order (brs : gmap string BorderRouter) (brname : string) : list string :=
  sorted (elements (dom brs ∖ {[brname]})).

Definition router_of (brs : gmap string BorderRouter) (name : string) : BorderRouter :=
  default empty_dict (brs !! name).

(** The dictionaries that the merge folds into one, the one of the target
    first: [field] picks ['InternalAddrs'], ['CtrlAddr'] or ['Interfaces']. *)
Definition merged_dicts {A} (field : BorderRouter → option (gmap string A))
    (brs : gmap string BorderRouter) (brname : string) : list (gmap string A) :=
  default ∅ (field (router_of brs brname))
  :: ((λ n, default ∅ (field (router_of brs n))) <$> merge_order brs brname).

(** Every router carries its three keys. *)
Definition well_formed_router (br : BorderRouter) : Prop :=
  is_Some (InternalAddrs br) ∧ is_Some (CtrlAddr br) ∧ is_Some (Interfaces br).

(** A router with its three keys present and each dictionary empty. *)
Definition empty_router : BorderRouter :=
  {| InternalAddrs := Some ∅; CtrlAddr := Some ∅; Interfaces := Some ∅ |}.

(** *** The allocation loop of [fullsync_local_gen] (lines 127-147)

    [br] is the open user router.  In the program it is the object appended
    last to [userBRs], mutated through either name; here it is held once,
    [userBRs_closed] are the elements of [userBRs] before it, and
    [userBRs] is read off as their concatenation.  [fs] is the part of the
    file system that [configure_vpn_ip] writes. *)
Record AllocState := {
  existing_ifids : list string;
  br : option BorderRouter;
  userBRs_closed : list BorderRouter;
  skipped : list nat;
  fs : gmap string string;
}.

Definition userBRs (st : AllocState) : list BorderRouter :=
  userBRs_closed st ++ option_list (br st).

(** [os.path.join], of the Python library. *)
Variable os_path_join : string → string → string.

Definition _ccd_user (config : LocalConfig) (user : string) : string :=
  os_path_join (openvpn_ccd_path config) user.

(** [LocalConfig.configure_vpn_ip]: the file system after the call (the
    directory is created along with the file).  A file is identified by
    the text of its path, and the call is taken on the path on which
    [os.makedirs] and [open] return. *)
Definition configure_vpn_ip (config : LocalConfig) (user vpn_ip : string)
    (files : gmap string string) : gmap string string :=
  <[_ccd_user config user := "ifconfig-push " +:+ vpn_ip +:+ " " +:+ VPN_NETMASK]> files.

(** [not br or len(br['Interfaces']) >= MAX_IFACES_IN_BR] *)
Definition needs_new_router (open : option BorderRouter) : result bool :=
  match open with
  | None => Ok true
  | Some b =>
      if negb (dict_truthy b) then Ok true
      else ifaces ← getitem "Interfaces" (Interfaces b);
           Ok (bool_decide (MAX_IFACES_IN_BR ≤ size ifaces))
  end.

Definition alloc_step (config : LocalConfig) (st : AllocState) (i : nat)
    (conn : Connection) : result AllocState :=
  let as_id := ASID conn in
  let as_ip := UserIP conn in
  let as_port := UserPort conn in
  let ap_port := APPort conn in
  let if_id := APBRID conn in
  let is_vpn := IsVPN conn in
  let user := VPNUserID conn in
  if (if_id <=? 10)%Z || bool_decide (str if_id ∈ existing_ifids st) then
    Ok {| existing_ifids := existing_ifids st; br := br st;
          userBRs_closed := userBRs_closed st;
          skipped := skipped st ++ [i]; fs := fs st |}
  else
    fresh ← needs_new_router (br st);
    let '(closed, open) :=
      if fresh : bool then (userBRs st, _create_border_router)
      else (userBRs_closed st, default empty_dict (br st)) in
    let ap_ip := if is_vpn then VPN_ADDR else interface_ip config in
    let open := _insert_interface open if_id as_id as_ip as_port ap_ip ap_port
                  (internal_ip config) in
    Ok {| existing_ifids := existing_ifids st ++ [str if_id];
          br := Some open;
          userBRs_closed := closed;
          skipped := skipped st;
          fs := if is_vpn then configure_vpn_ip config user as_ip (fs st) else fs st |}.

(** The interface ids of a router and of a list of routers. *)
Definition ids_of (b : BorderRouter) : list string :=
  (map_to_list (default ∅ (Interfaces b))).*1.

Definition keys_list (routers : list BorderRouter) : list string :=
  routers ≫= ids_of.

Definition has_interface (b : BorderRouter) (k : string) : Prop :=
  k ∈ ids_of b.

(** A user router as the loop leaves it: the three keys present, at least
    one interface and at most [MAX_IFACES_IN_BR]. *)
Definition user_router_ok (b : BorderRouter) : Prop :=
  ∃ ia ca ifs,
    b = {| InternalAddrs := Some ia; CtrlAddr := Some ca; Interfaces := Some ifs |} ∧
    0 < size ifs ≤ MAX_IFACES_IN_BR.

(** The interfaces of a router are child links towards ASes that satisfy
    [Q]. *)
Definition child_links_to (Q : string → Prop) (b : BorderRouter) : Prop :=
  map_Forall (λ _ iface, LinkTo iface = "CHILD" ∧ Q (ISD_AS iface))
    (default ∅ (Interfaces b)).

(** The invariant of the allocation loop. *)
Definition alloc_inv (st : AllocState) : Prop :=
  Forall user_router_ok (userBRs st) ∧
  NoDup (keys_list (userBRs st)) ∧
  (∀ k, k ∈ keys_list (userBRs st) → k ∈ existing_ifids st).

(** [for i, conn in enumerate(connections)], from index [i]. *)
Fixpoint alloc_loop (config : LocalConfig) (st : AllocState) (i : nat)
    (conns : list Connection) : result AllocState :=
  match conns with
  | [] => Ok st
  | conn :: rest => st' ← alloc_step config st i conn; alloc_loop config st' (S i) rest
  end.

(** ['br{}-1'.format(my_asid)] and ['br{}-{}'.format(my_asid, i + 11)] *)
Definition infra_brname (my_asid : string) : string := "br" +:+ my_asid +:+ "-1".
Definition user_brname (my_asid : string) (i : nat) : string :=
  "br" +:+ my_asid +:+ "-" +:+ str (Z.of_nat i + 11).

(** [for i, br in enumerate(userBRs): new_tp['BorderRouters'][brname] = br],
    from index [i]. *)
Fixpoint install_user_brs (my_asid : string) (i : nat) (routers : list BorderRouter)
    (brs : gmap string BorderRouter) : gmap string BorderRouter :=
  match routers with
  | [] => brs
  | b :: rest => install_user_brs my_asid (S i) rest (<[user_brname my_asid i := b]> brs)
  end.

(** [[connections[i] for i in range(len(connections)) if i not in skipped]],
    from index [i]. *)
Fixpoint keep_unskipped (skip : gset nat) (i : nat) (conns : list Connection)
    : list Connection :=
  match conns with
  | [] => []
  | c :: rest =>
      if decide (i ∈ skip) then keep_unskipped skip (S i) rest
      else c :: keep_unskipped skip (S i) rest
  end.

(** When the loop rejects the connection [c] at position [j] of a batch
    that starts at index [i]: its id is reserved, or present before the
    batch, or requested by an earlier connection of the batch that was
    not skipped. *)
Definition rejected (existing : list string) (conns : list Connection)
    (skp : list nat) (i j : nat) (c : Connection) : Prop :=
  (APBRID c ≤ 10)%Z ∨ str (APBRID c) ∈ existing ∨
  (∃ j' c', j' < j ∧ conns !! j' = Some c' ∧ ((i + j') ∉ skp) ∧ APBRID c' = APBRID c).

(** The state in which the allocation loop starts: the ids of the merged
    infrastructure router, no user router, nothing skipped. *)
Definition initial_alloc (infra : BorderRouter) (files : gmap string string) : AllocState :=
  {| existing_ifids := ids_of infra; br := None; userBRs_closed := [];
     skipped := []; fs := files |}.

(** Two loop states that agree on everything but the file system. *)
Definition same_alloc (st1 st2 : AllocState) : Prop :=
  existing_ifids st1 = existing_ifids st2 ∧ br st1 = br st2 ∧
  userBRs_closed st1 = userBRs_closed st2 ∧ skipped st1 = skipped st2.

(** The AS named by an ISD-AS text is outside the infrastructure range. *)
Definition names_user_as (isd_as : string) : Prop :=
  asid_is_infrastructure ((parse_ISD_AS isd_as).2) = false.

(** What one pass of the body of the per-AS loop (lines 113-159) computes:
    the new topology, the status object after the in-place update of its
    connection list, the skip set, the verdict and the file system. *)
Record Reconciled := {
  new_tp : Topology;
  status_after : SyncStatus;
  skipped_set : gset nat;
  topo_changed_now : bool;
  fs_after : gmap string string;
}.

(** [status['connections'] or []]: the list itself when it is non-empty,
    a new empty list when it is empty or [None]. *)
Definition or_empty (l : option (list Connection)) : list Connection :=
  match l with
  | Some (c :: rest) => c :: rest
  | _ => []
  end.

Definition reconcile (config : LocalConfig) (my_asid : string) (tp : Topology)
    (status : SyncStatus) (files : gmap string string) : result Reconciled :=
  let conns := or_empty (connections status) in
  (* copy.deepcopy(tp): [tp] itself stays as it is *)
  let new_tp := tp in
  new_tp ← _remove_child_interfaces new_tp;
  '(new_tp, infra) ← _combine_border_routers new_tp (infra_brname my_asid);
  let existing := (map_to_list (default ∅ (Interfaces infra))).*1 in
  st ← alloc_loop config
         {| existing_ifids := existing; br := None; userBRs_closed := [];
            skipped := []; fs := files |} 0 conns;
  let new_tp := {| BorderRouters :=
                     install_user_brs my_asid 0 (userBRs st) (BorderRouters new_tp);
                   OtherSections := OtherSections new_tp |} in
  let skip : gset nat := list_to_set (skipped st) in
  let kept := keep_unskipped skip 0 conns in
  let status := match connections status with
                | Some (_ :: _) => {| connections := Some kept |}
                | _ => status
                end in
  Ok {| new_tp := new_tp;
        status_after := status;
        skipped_set := skip;
        topo_changed_now := bool_decide (BorderRouters tp ≠ BorderRouters new_tp);
        fs_after := fs st |}.

End Reconciler.

(** ** The world: files, the gen directory, the console and the HTTP peers *)

(** [local_config_util.ASCredential(certificate, trc, key_dict)] *)
Record ASCredential := {
  certificate : string;
  trc : string;
  keys : gmap string string;
}.

(** The body of the PUT to the 2SMS endpoint. *)
Record Mapping := { Path : string; Port : string }.
Record MappingsContent := { removeRegex : list string; add : list Mapping }.

(** What the program reads of a [requests] response. *)
Record Response := { ok : bool; status_code : Z }.

(** What the program prints, one constructor per message. *)
Inductive diagnostic :=
  | DebugFullsyncReceived (fullsynced : gmap string SyncStatus)
  | ErrorRefusedBRs (skipped_connections : list Connection)
  | InfoProcessed (acknowledge : bool) (content : gmap string SyncStatus)
  | ErrorFailedAck (ex : exn)
  | ErrorCoordinatorDiffers
  | DebugResponse (response : gmap string SyncStatus)
  | Sms2Responded (code : Z)
  | Sms2Exception (ex : exn).

#[global] Instance diagnostic_eq_dec : EqDecision diagnostic.
Proof. solve_decision. Defined.

Record World := {
  files : gmap string string;
  gen_dir : gmap string (ASCredential * Topology);
  stdout : list diagnostic;
}.

(** The peers as the program sees them: what each call returns or raises.
    [request_fullsync] and [reply_fullsync] are the two methods of
    [CoordinatorServer]; [requests_put] is the PUT to
    [http://localhost:9999/mappings]. *)
Record CoordinatorServer := {
  request_fullsync : string → Z → result (gmap string SyncStatus);
  reply_fullsync : gmap string SyncStatus → Z → result (gmap string SyncStatus);
}.

(** Computations on the world that may raise; the world survives a raise. *)
Definition M (A : Type) : Type := World → result A * World.

#[global] Instance M_ret : MRet M := λ A a w, (Ok a, w).
#[global] Instance M_bind : MBind M := λ A B k m w,
  match m w with
  | (Ok a, w') => k a w'
  | (Raise e, w') => (Raise e, w')
  end.

Definition lift {A} (r : result A) : M A := λ w, (r, w).

Definition print (d : diagnostic) : M unit := λ w,
  (Ok (), {| files := files w; gen_dir := gen_dir w; stdout := stdout w ++ [d] |}).

(** [try: m  except Exception as ex: ...]: the exception reaches the handler
    as a value; [SystemExit] is not an [Exception] and passes through. *)
Definition try_ {A} (m : M A) : M (A + exn) := λ w,
  match m w with
  | (Ok a, w') => (Ok (inl a), w')
  | (Raise e, w') => if is_Exception e then (Ok (inr e), w') else (Raise e, w')
  end.

(** Reading a local variable that may not have been assigned. *)
Definition read_local {A} (name : string) (v : option A) : M A :=
  match v with
  | Some a => mret a
  | None => lift (Raise (UnboundLocalError name))
  end.

Definition os_path_exists (path : string) : M bool := λ w,
  (Ok (bool_decide (is_Some (files w !! path))), w).

(** [open(path, 'w').close()] *)
Definition open_w_close (path : string) : M unit := λ w,
  (Ok (), {| files := <[path := ""]> (files w); gen_dir := gen_dir w; stdout := stdout w |}).

Definition os_remove (path : string) : M unit := λ w,
  match files w !! path with
  | Some _ => (Ok (), {| files := delete path (files w); gen_dir := gen_dir w;
                         stdout := stdout w |})
  | None => (Raise (FileNotFoundError path), w)
  end.

(** [LocalConfig.load_topology]: the credentials and the topology of the AS
    as found under the gen directory, or [exit(1)]. *)
Definition load_topology (asid : string) : M (ASCredential * Topology) := λ w,
  match gen_dir w !! asid with
  | Some found => (Ok found, w)
  | None => (Raise (SystemExit 1), w)
  end.

(** [LocalConfig.write_topology]: the gen directory of the AS is rebuilt from
    the credentials and the topology. *)
Definition write_topology (asid : string) (as_obj : ASCredential) (tp : Topology)
    : M unit := λ w,
  (Ok (), {| files := files w; gen_dir := <[asid := (as_obj, tp)]> (gen_dir w);
             stdout := stdout w |}).

(** [s.split('-')[-1]] *)
Fixpoint last_segment (s : string) : string :=
  match s with
  | EmptyString => EmptyString
  | String c rest =>
      if bool_decide ("-"%char ∈ list_ascii_of_string rest) then last_segment rest
      else if Ascii.eqb c "-" then rest else String c (last_segment rest)
  end.

Section Orchestration.

Variable parse_ISD_AS : string → Z * Z.
Variable os_path_join : string → string → string.
(** [local_config_util.PROM_PORT_OFFSET] *)
Variable PROM_PORT_OFFSET : Z.
(** ["http://localhost:9999/mappings"] as the program sees it. *)
Variable requests_put : MappingsContent → result Response.

(** The loop of [_reset_monitoring] that collects one mapping per router.
    The mappings are collected in the order of [map_to_list]; the program
    walks the dictionary in the order in which the routers were put in. *)
Definition monitoring_mapping (br_name : string) (br : BorderRouter)
    : result (string * Z) :=
  let name := last_segment br_name in
  let name := "/br-" +:+ name in
  internal ← getitem "InternalAddrs" (InternalAddrs br);
  ipv4 ← getitem "IPv4" (internal !! "IPv4");
  let port := (OverlayPort (ia_PublicOverlay ipv4) + PROM_PORT_OFFSET)%Z in
  Ok (name, port).

Fixpoint monitoring_mappings (items : list (string * BorderRouter))
    : result (list (string * Z)) :=
  match items with
  | [] => Ok []
  | (br_name, br) :: rest =>
      m ← monitoring_mapping br_name br;
      ms ← monitoring_mappings rest;
      Ok (m :: ms)
  end.

(** The marker file of a gen directory, and the body of the PUT for a list
    of mappings. *)
Definition marker_path (config : LocalConfig) : string :=
  os_path_join (gen_path config) ENDPOINT2SMS_REMAP_IN_PROGRESS_FILE.

Definition mappings_content (ms : list (string * Z)) : MappingsContent :=
  {| removeRegex := ["/br.*"];
     add := (λ m, {| Path := m.1; Port := str m.2 |}) <$> ms |}.

Definition _reset_monitoring (tp : Topology) (config : LocalConfig) : M bool :=
  let tempfilepath := os_path_join (gen_path config) ENDPOINT2SMS_REMAP_IN_PROGRESS_FILE in
  open_w_close tempfilepath;;
  mappings ← lift (monitoring_mappings (map_to_list (BorderRouters tp)));
  let content :=
    {| removeRegex := ["/br.*"];
       add := (λ m, {| Path := m.1; Port := str m.2 |}) <$> mappings |} in
  let updated := false in
  let handler (updated : bool) (ex : exn) : M bool :=
    print (Sms2Exception ex);; mret updated in
  sent ← try_ (lift (requests_put content));
  match sent with
  | inr ex => handler updated ex
  | inl resp =>
      let updated := ok resp in
      print (Sms2Responded (status_code resp));;
      removed ← try_ (os_remove tempfilepath);
      match removed with
      | inr ex => handler updated ex
      | inl _ => mret updated
      end
  end.

(** The body of the loop over [fullsynced.items()], for one AS that is in
    [isdas_list]: the acknowledgment message and the verdict after it.
    The report of line 154 lists the refused connections in the order of
    [elements]; the program walks a set, in an order of its own. *)
Definition fullsync_one (config : LocalConfig) (monitoring_remap_in_progress : bool)
    (my_asid : string) (status : SyncStatus)
    (acc : gmap string SyncStatus * bool) : M (gmap string SyncStatus * bool) :=
  let '(ack_to_coordinator_message, topo_has_changed) := acc in
  '(as_obj, tp) ← load_topology my_asid;
  r ← (λ w, match reconcile parse_ISD_AS os_path_join config my_asid tp status (files w) with
            | Ok r => (Ok r, {| files := fs_after r; gen_dir := gen_dir w;
                                stdout := stdout w |})
            | Raise e => (Raise e, w)
            end) : M Reconciled;
  (if decide (skipped_set r = ∅) then mret ()
   else
     let conns := default [] (connections status) in
     print (ErrorRefusedBRs (omap (λ i, conns !! i) (elements (skipped_set r)))));;
  let ack_to_coordinator_message := <[my_asid := status_after r]> ack_to_coordinator_message in
  (if topo_changed_now r then write_topology my_asid as_obj (new_tp r) else mret ());;
  (if topo_changed_now r || monitoring_remap_in_progress
   then _reset_monitoring (new_tp r) config ≫= λ _, mret ()
   else mret ());;
  mret (ack_to_coordinator_message, topo_has_changed || topo_changed_now r).

Fixpoint fullsync_items (config : LocalConfig) (isdas_list : list string)
    (monitoring_remap_in_progress : bool) (items : list (string * SyncStatus))
    (acc : gmap string SyncStatus * bool) : M (gmap string SyncStatus * bool) :=
  match items with
  | [] => mret acc
  | (my_asid, status) :: rest =>
      acc ← (if decide (my_asid ∈ isdas_list)
             then fullsync_one config monitoring_remap_in_progress my_asid status acc
             else mret acc);
      fullsync_items config isdas_list monitoring_remap_in_progress rest acc
  end.

(** The acknowledgment (lines 168-179).  [response] is assigned only when
    [reply_fullsync] returns. *)
Definition acknowledge (coordinator : CoordinatorServer)
    (ack_to_coordinator_message : gmap string SyncStatus) (timestamp : Z) : M unit :=
  print (InfoProcessed (bool_decide (ack_to_coordinator_message ≠ ∅))
           ack_to_coordinator_message);;
  if decide (ack_to_coordinator_message ≠ ∅) then
    replied ← try_ (lift (reply_fullsync coordinator ack_to_coordinator_message timestamp));
    response ← match replied with
               | inl r => mret (Some r)
               | inr ex => print (ErrorFailedAck ex);; mret None
               end;
    r ← read_local "response" response;
    (if bool_decide (r ≠ ∅) && bool_decide (r ≠ ack_to_coordinator_message)
     then print ErrorCoordinatorDiffers else mret ());;
    r ← read_local "response" response;
    print (DebugResponse r)
  else mret ().

Definition fullsync_local_gen (config : LocalConfig) (coordinator : CoordinatorServer)
    (asid : string) (timestamp : Z) : M bool :=
  let topo_has_changed := false in
  let ack_to_coordinator_message : gmap string SyncStatus := ∅ in
  fullsynced ← lift (request_fullsync coordinator asid timestamp);
  print (DebugFullsyncReceived fullsynced);;
  let isdas_list := [asid] in
  monitoring_remap_in_progress ←
    os_path_exists (os_path_join (gen_path config) ENDPOINT2SMS_REMAP_IN_PROGRESS_FILE);
  '(ack_to_coordinator_message, topo_has_changed) ←
    fullsync_items config isdas_list monitoring_remap_in_progress
      (map_to_list fullsynced) (ack_to_coordinator_message, topo_has_changed);
  acknowledge coordinator ack_to_coordinator_message timestamp;;
  mret topo_has_changed.

End Orchestration.

(** ** Sample instances

    Concrete collaborators and inputs on which the model is run: a reader of
    ISD-AS texts of the form [I-hhhh:hhhh:hhhh] (three hexadecimal groups) or
    [I-n], a path join, an attachment point and its gen directory. *)

Fixpoint split_on (sep : ascii) (s : string) : list string :=
  match s with
  | EmptyString => [EmptyString]
  | String c rest =>
      if Ascii.eqb c sep then EmptyString :: split_on sep rest
      else match split_on sep rest with
           | [] => [String c EmptyString]
           | w :: ws => String c w :: ws
           end
  end.

Definition hex_digit (c : ascii) : option Z :=
  let n := Z.of_nat (nat_of_ascii c) in
  if (48 <=? n)%Z && (n <=? 57)%Z then Some (n - 48)%Z
  else if (97 <=? n)%Z && (n <=? 102)%Z then Some (n - 87)%Z
  else if (65 <=? n)%Z && (n <=? 70)%Z then Some (n - 55)%Z
  else None.

Definition hex_group (s : string) : Z :=
  foldl (λ acc c, (16 * acc + default 0 (hex_digit c))%Z) 0%Z (list_ascii_of_string s).

Definition dec_group (s : string) : Z :=
  match NilZero.int_of_string s with
  | Some d => Z.of_int d
  | None => 0
  end.

Definition sample_ISD_AS (s : string) : Z * Z :=
  match split_on "-" s with
  | [isd; asn] =>
      match split_on ":" asn with
      | [a; b; c] =>
          (dec_group isd,
           Z.lor (Z.shiftl (hex_group a) 32) (Z.lor (Z.shiftl (hex_group b) 16) (hex_group c)))
      | _ => (dec_group isd, dec_group asn)
      end
  | _ => (0, 0)%Z
  end.

Definition sample_join (a b : string) : string := a +:+ "/" +:+ b.

Definition sample_config : LocalConfig :=
  {| interface_ip := "192.0.2.10"; internal_ip := "127.0.0.1";
     gen_path := "/scion/gen"; openvpn_ccd_path := "/home/scion/openvpn_ccd" |}.

Definition sample_asid : string := "17-ffaa_0_1107".

Definition sample_conn (if_id : Z) (remote : string) : Connection :=
  {| ASID := remote; UserIP := "10.0.8.42"; UserPort := 50000; APPort := 50000 + if_id;
     APBRID := if_id; IsVPN := false; VPNUserID := "" |}.

Definition sample_iface (remote link : string) : Interface :=
  {| Overlay := "UDP/IPv4"; ISD_AS := remote; LinkTo := link; Bandwidth := 1000;
     if_MTU := 1472;
     RemoteOverlay := {| Addr := "192.0.2.1"; OverlayPort := 50000 |};
     PublicOverlay := {| Addr := "192.0.2.10"; OverlayPort := 50000 |} |}.

Definition sample_router (port : Z) (ifaces : gmap string Interface) : BorderRouter :=
  {| InternalAddrs :=
       Some {[ "IPv4" := {| ia_PublicOverlay := {| Addr := "127.0.0.1";
                                                   OverlayPort := port |} |} ]};
     CtrlAddr :=
       Some {[ "IPv4" := {| Public := {| ctrl_Addr := "127.0.0.1";
                                         L4Port := (port - 1000)%Z |} |} ]};
     Interfaces := Some ifaces |}.

Definition topology_of (brs : gmap string BorderRouter) : Topology :=
  {| BorderRouters := brs; OtherSections := ∅ |}.

(** An attachment point with nothing configured. *)
Definition empty_topology : Topology := topology_of ∅.

(** One infrastructure router with a parent link under id 1. *)
Definition infra_topology : Topology :=
  topology_of {[ "br17-ffaa_0_1107-1" :=
                   sample_router 31041 {[ "1" := sample_iface "17-ffaa:0:1101" "PARENT" ]} ]}.

(** Two legacy routers that both carry id 1, and a stale child link. *)
Definition legacy_topology : Topology :=
  topology_of {[ "br17-ffaa_0_1107-2" :=
                   sample_router 31042 {[ "1" := sample_iface "17-ffaa:0:1101" "PARENT";
                                          "2" := sample_iface "17-ffaa:0:1102" "CORE" ]};
                 "br17-ffaa_0_1107-3" :=
                   sample_router 31043 {[ "1" := sample_iface "17-ffaa:0:1103" "PARENT";
                                          "30" := sample_iface "17-ffaa:1:7" "CHILD" ]} ]}.

Definition status_of (conns : list Connection) : SyncStatus :=
  {| connections := Some conns |}.

(** The result of a pass, for inputs on which it returns. *)
Definition returned {A} (fallback : A) (r : result A) : A :=
  match r with Ok a => a | Raise _ => fallback end.

Definition no_result : Reconciled :=
  {| new_tp := empty_topology; status_after := {| connections := None |};
     skipped_set := ∅; topo_changed_now := false; fs_after := ∅ |}.

Definition sample_reconcile (tp : Topology) (conns : list Connection) : result Reconciled :=
  reconcile sample_ISD_AS sample_join sample_config sample_asid tp (status_of conns) ∅.

(** Thirteen connections with fresh ids 20 .. 32 from user ASes. *)
Definition thirteen_connections : list Connection :=
  (λ n, sample_conn (20 + Z.of_nat n) "17-ffaa:1:a") <$> seq 0 13.

(** A batch with a reserved id, an id of the merged router, and a repeated id. *)
Definition mixed_connections : list Connection :=
  [ sample_conn 5 "17-ffaa:1:1"; sample_conn 20 "17-ffaa:1:2";
    sample_conn 2 "17-ffaa:1:3"; sample_conn 20 "17-ffaa:1:4";
    sample_conn 21 "17-ffaa:1:5" ].

(** A connection whose remote AS lies in the infrastructure range. *)
Definition infra_as_connection : list Connection := [ sample_conn 20 "17-ffaa:0:1" ].

(** A gen directory holding [infra_topology], nothing else on disk, an empty
    console. *)
Definition sample_credential : ASCredential :=
  {| certificate := "cert"; trc := "trc"; keys := ∅ |}.

Definition sample_world : World :=
  {| files := ∅;
     gen_dir := {[ sample_asid := (sample_credential, infra_topology) ]};
     stdout := [] |}.

Definition sample_PROM_PORT_OFFSET : Z := 1000.

(** The 2SMS endpoint answering 200, and answering 500. *)
Definition endpoint_ok : MappingsContent → result Response :=
  λ _, Ok {| ok := true; status_code := 200 |}.
Definition endpoint_error : MappingsContent → result Response :=
  λ _, Ok {| ok := false; status_code := 500 |}.
(** The 2SMS endpoint not running. *)
Definition endpoint_unreachable : MappingsContent → result Response :=
  λ _, Raise (ConnectionError "connection refused").

(** A coordinator that serves one connection and whose acknowledgment
    endpoint cannot be reached. *)
Definition coordinator_ack_unreachable : CoordinatorServer :=
  {| request_fullsync := λ _ _,
       Ok {[ sample_asid := status_of [sample_conn 20 "17-ffaa:1:2"] ]};
     reply_fullsync := λ _ _, Raise (ConnectionError "connection refused") |}.



(** Only a stale child link is configured. *)
Definition stale_topology : Topology :=
  topology_of {[ "br17-ffaa_0_1107-5" :=
                   sample_router 31045 {[ "30" := sample_iface "17-ffaa:1:7" "CHILD" ]} ]}.

(** The passes whose results the examples below look at. *)
Definition legacy_result : Reconciled :=
  returned no_result (sample_reconcile legacy_topology mixed_connections).
Definition thirteen_result : Reconciled :=
  returned no_result (sample_reconcile empty_topology thirteen_connections).
Definition infra_as_result : Reconciled :=
  returned no_result (sample_reconcile infra_topology infra_as_connection).

(** ** Views of the allocation: what the loop builds from the connections
    it accepts *)

(** The local address of the link: the VPN gateway for a VPN connection. *)
Definition ap_ip_for (config : LocalConfig) (conn : Connection) : string :=
  if IsVPN conn then VPN_ADDR else interface_ip config.

(** The interface that [_insert_interface] stores for a connection. *)
Definition interface_for (config : LocalConfig) (conn : Connection) : Interface :=
  {| Overlay := "UDP/IPv4";
     ISD_AS := ASID conn;
     LinkTo := "CHILD";
     Bandwidth := BANDWIDTH;
     if_MTU := MTU;
     RemoteOverlay := {| Addr := UserIP conn; OverlayPort := UserPort conn |};
     PublicOverlay := {| Addr := ap_ip_for config conn; OverlayPort := APPort conn |} |}.

(** The call of line 143 for a connection. *)
Definition insert_connection (config : LocalConfig) (b : BorderRouter) (conn : Connection)
    : BorderRouter :=
  _insert_interface b (APBRID conn) (ASID conn) (UserIP conn) (UserPort conn)
    (ap_ip_for config conn) (APPort conn) (internal_ip config).

(** A router created by [_create_border_router] and filled with the
    connections of a list, in order. *)
Definition router_for (config : LocalConfig) (conns : list Connection) : BorderRouter :=
  foldl (insert_connection config) _create_border_router conns.

(** [[l[i:i+n] for i in range(0, len(l), n)]] *)
Fixpoint chunks_fuel {A} (fuel n : nat) (l : list A) : list (list A) :=
  match fuel, l with
  | S fuel', _ :: _ => take n l :: chunks_fuel fuel' n (drop n l)
  | _, _ => []
  end.

Definition chunks {A} (n : nat) (l : list A) : list (list A) :=
  chunks_fuel (length l) n l.

(** The connections accepted so far, split as the loop has them: the closed
    routers hold [MAX_IFACES_IN_BR] each, the open one the rest. *)
Definition grouped (config : LocalConfig) (acc : list Connection) (st : AllocState) : Prop :=
  ∃ full partial,
    acc = concat full ++ partial ∧
    Forall (λ g, length g = MAX_IFACES_IN_BR) full ∧
    length partial ≤ MAX_IFACES_IN_BR ∧
    (partial = [] → full = []) ∧
    userBRs_closed st = router_for config <$> full ∧
    br st = match partial with [] => None | _ => Some (router_for config partial) end ∧
    NoDup (str ∘ APBRID <$> acc) ∧
    (∀ c, c ∈ acc → str (APBRID c) ∈ existing_ifids st).

Section VpnFiles.

Variable os_path_join : string → string → string.

(** The client-configuration files after [configure_vpn_ip] has run for the
    VPN connections of a list, in order. *)
Definition vpn_files (config : LocalConfig) (conns : list Connection)
    (files : gmap string string) : gmap string string :=
  foldl (λ f c, if IsVPN c
                then configure_vpn_ip os_path_join config (VPNUserID c) (UserIP c) f
                else f)
    files conns.

End VpnFiles.

(** The ['Interfaces'] dictionary of [router_for]. *)
Definition ifaces_of (config : LocalConfig) (conns : list Connection)
    : gmap string Interface :=
  foldl (λ m c, <[str (APBRID c) := interface_for config c]> m) ∅ conns.

(** ** Views of the run *)

(** The report of refused connections that the loop body prints: one
    message when the skip set is not empty. *)
Definition refused_report (status : SyncStatus) (r : Reconciled) : list diagnostic :=
  if decide (skipped_set r = ∅) then []
  else [ErrorRefusedBRs (omap (λ i, default [] (connections status) !! i)
                           (elements (skipped_set r)))].

(** What line 154 prints, whatever the order in which the program walks the
    set of skipped positions: nothing when the set is empty, and otherwise
    one message that lists the refused connections. *)
Definition reports_refused (status : SyncStatus) (r : Reconciled)
    (printed : list diagnostic) : Prop :=
  if decide (skipped_set r = ∅) then printed = []
  else ∃ listed,
         printed = [ErrorRefusedBRs listed] ∧
         listed ≡ₚ omap (λ i, default [] (connections status) !! i)
                     (elements (skipped_set r)).

(** The body of a PUT that carries the mappings [ms], in any order. *)
Definition carries_mappings (ms : list (string * Z)) (body : MappingsContent) : Prop :=
  removeRegex body = ["/br.*"] ∧
  add body ≡ₚ (λ m, {| Path := m.1; Port := str m.2 |}) <$> ms.

(** ** The HTTP client behind [CoordinatorServer]

    [CoordinatorServer] above gives the two methods as the run sees them.
    Here are the methods themselves, over the calls of [requests] and
    [json]: [requests_get] and [requests_post] give what a call returns or
    raises, [json_loads] what parsing a body gives. *)

(** What the methods read of a response: the status code, the decoded body,
    [is_redirect], and [next.url] ([None] when [next] is [None]). *)
Record HttpResponse := {
  http_status_code : Z;
  content : string;
  is_redirect : bool;
  next_url : option string;
}.

(** [self.url], [self.accountId], [self.accountPwd] *)
Record CoordinatorClient := { url : string; accountId : string; accountPwd : string }.

Definition GETFULL_REQ : string := "api/as/getConnectionsForAP".
Definition POSTFULL_REQ : string := "api/as/setConnectionsForAP".

(** What the client prints. *)
Inductive client_message :=
  | DebugRequesting (request_url : string)
  | ConnectionErrorText (msg : string).

(** Truth value of [url] in [while url:]. *)
Definition url_truthy (u : option string) : bool :=
  match u with
  | Some s => negb (bool_decide (s = EmptyString))
  | None => false
  end.

Section HttpClient.

Variable requests_get : string → result HttpResponse.
Variable requests_post : string → gmap string SyncStatus → result HttpResponse.
Variable json_loads : string → result (gmap string SyncStatus).
(** The text of the exception raised for a body that does not parse. *)
Variable parse_error_message : exn → string → string.

(** [try: resp_dict = json.loads(content)  except Exception as ex: raise
    Exception(...)] *)
Definition loads_or_raise (body : string) : result (gmap string SyncStatus) :=
  match json_loads body with
  | Ok resp_dict => Ok resp_dict
  | Raise ex =>
      if is_Exception ex then Raise (Exception (parse_error_message ex body))
      else Raise ex
  end.

(** [CoordinatorServer._send_request_and_get_json]: the result and what is
    printed. *)
Definition _send_request_and_get_json (request_url : string)
    : result (gmap string SyncStatus) * list client_message :=
  let printed := [DebugRequesting request_url] in
  match requests_get request_url with
  | Raise (ConnectionError msg) =>
      (Raise (SystemExit 1), printed ++ [ConnectionErrorText msg])
  | Raise ex => (Raise ex, printed)
  | Ok resp =>
      let body := content resp in
      (if decide (http_status_code resp = 204%Z) then Ok ∅
       else if decide (http_status_code resp ≠ 200%Z) then
         Raise (Exception ("Status code (" +:+ str (http_status_code resp)
                           +:+ ") not 200. Content is: " +:+ body))
       else loads_or_raise body,
       printed)
  end.

Definition request_fullsync_url (self : CoordinatorClient) (asid : string)
    (timestamp : Z) : string :=
  url self +:+ "/" +:+ GETFULL_REQ +:+ "/" +:+ accountId self +:+ "/" +:+ accountPwd self
  +:+ "?scionLabAP=" +:+ asid +:+ "&utcTimeDelta=" +:+ str timestamp.

Definition reply_fullsync_url (self : CoordinatorClient) (timestamp : Z) : string :=
  url self +:+ "/" +:+ POSTFULL_REQ +:+ "/" +:+ accountId self +:+ "/" +:+ accountPwd self
  +:+ "?utcTimeDelta=" +:+ str timestamp.

(** [CoordinatorServer.request_fullsync] *)
Definition client_request_fullsync (self : CoordinatorClient) (asid : string)
    (timestamp : Z) : result (gmap string SyncStatus) * list client_message :=
  _send_request_and_get_json (request_fullsync_url self asid timestamp).

(** The loop [while url: resp = requests.post(...); url = ...] of
    [reply_fullsync], with [resp] the response of the last turn, if any.
    [None]: the loop is still running when the fuel is used up. *)
Fixpoint post_loop (fuel : nat) (current : option string) (resp : option HttpResponse)
    (ack_message : gmap string SyncStatus) : option (result (option HttpResponse)) :=
  if url_truthy current then
    match fuel with
    | 0 => None
    | S fuel' =>
        match requests_post (default EmptyString current) ack_message with
        | Raise ex => Some (Raise ex)
        | Ok resp' =>
            let next := if is_redirect resp' && bool_decide (is_Some (next_url resp'))
                        then next_url resp' else None in
            post_loop fuel' next (Some resp') ack_message
        end
    end
  else Some (Ok resp).

(** [CoordinatorServer.reply_fullsync] *)
Definition client_reply_fullsync (fuel : nat) (self : CoordinatorClient)
    (ack_message : gmap string SyncStatus) (timestamp : Z)
    : option (result (gmap string SyncStatus)) :=
  last ← post_loop fuel (Some (reply_fullsync_url self timestamp)) None ack_message;
  Some (resp ← last;
        resp ← match resp with
               | Some resp => Ok resp
               | None => Raise (UnboundLocalError "resp")
               end;
        loads_or_raise (content resp)).

(** A chain of redirects from [current] over [hops] that ends in the
    response [final], which does not redirect further. *)
Fixpoint redirect_chain (ack_message : gmap string SyncStatus) (current : string)
    (hops : list string) (final : HttpResponse) : Prop :=
  match hops with
  | [] =>
      requests_post current ack_message = Ok final ∧
      url_truthy (if is_redirect final && bool_decide (is_Some (next_url final))
                  then next_url final else None) = false
  | next :: rest =>
      ∃ resp, requests_post current ack_message = Ok resp ∧
              is_redirect resp = true ∧ next_url resp = Some next ∧
              next ≠ EmptyString ∧
              redirect_chain ack_message next rest final
  end.

End HttpClient.

(** ** Views of the merge *)

(** The router named [n] is the one whose entry under [k] the merge keeps:
    it has the key, and it is the target, or the target lacks the key and
    so does every other router whose name sorts before [n]. *)
Definition merge_winner {A} (field : BorderRouter → option (gmap string A))
    (brs : gmap string BorderRouter) (brname k n : string) : Prop :=
  is_Some (default ∅ (field (router_of brs n)) !! k) ∧
  (n = brname ∨
   (is_Some (brs !! n) ∧
    default ∅ (field (router_of brs brname)) !! k = None ∧
    ∀ n', is_Some (brs !! n') → n' ≠ brname → n' ≠ n → str_le n' n →
          default ∅ (field (router_of brs n')) !! k = None)).

(** ** More sample instances *)

(** The pass over the topology that holds only a stale child link. *)
Definition stale_result : Reconciled :=
  returned no_result (sample_reconcile stale_topology thirteen_connections).

(** A connection over the VPN. *)
Definition vpn_conn (if_id : Z) (remote user : string) : Connection :=
  {| ASID := remote; UserIP := "10.0.8.42"; UserPort := 50000; APPort := 50000 + if_id;
     APBRID := if_id; IsVPN := true; VPNUserID := user |}.

Definition vpn_connections : list Connection :=
  [ vpn_conn 20 "17-ffaa:1:2" "alice@example.org"; sample_conn 21 "17-ffaa:1:3" ].

Definition vpn_result : Reconciled :=
  returned no_result (sample_reconcile infra_topology vpn_connections).

(** The thirteen connections on top of the infrastructure router, and the
    mappings of the topology that results. *)
Definition thirteen_on_infra_result : Reconciled :=
  returned no_result (sample_reconcile infra_topology thirteen_connections).

Definition thirteen_mappings : list (string * Z) :=
  returned []
    (monitoring_mappings sample_PROM_PORT_OFFSET
       (map_to_list (BorderRouters (new_tp thirteen_on_infra_result)))).

(** The two legacy routers merged. *)
Definition legacy_merged : Topology * BorderRouter :=
  returned (empty_topology, empty_dict)
    (_combine_border_routers legacy_topology (infra_brname sample_asid)).

(** One fresh connection, on the infrastructure router and on nothing. *)
Definition one_connection : list Connection := [ sample_conn 20 "17-ffaa:1:2" ].

Definition one_on_infra_result : Reconciled :=
  returned no_result (sample_reconcile infra_topology one_connection).
Definition one_on_nothing_result : Reconciled :=
  returned no_result (sample_reconcile empty_topology one_connection).

Definition one_on_infra_mappings : list (string * Z) :=
  returned []
    (monitoring_mappings sample_PROM_PORT_OFFSET
       (map_to_list (BorderRouters (new_tp one_on_infra_result)))).

(** A coordinator with nothing for the AS, and one that serves one
    connection and answers the acknowledgment with what it was sent. *)
Definition coordinator_silent : CoordinatorServer :=
  {| request_fullsync := λ _ _, Ok ∅; reply_fullsync := λ ack _, Ok ack |}.

Definition coordinator_echo : CoordinatorServer :=
  {| request_fullsync := λ _ _, Ok {[ sample_asid := status_of one_connection ]};
     reply_fullsync := λ ack _, Ok ack |}.

(** A gen directory whose topology has no border router. *)
Definition bare_world : World :=
  {| files := ∅;
     gen_dir := {[ sample_asid := (sample_credential, empty_topology) ]};
     stdout := [] |}.

(** The HTTP side: an account, a GET answered with 204, a parser that knows
    the empty object, a POST that is redirected once and then answered with
    500 and an empty object, and a POST that is redirected to itself. *)
Definition sample_client : CoordinatorClient :=
  {| url := "https://coordinator.example"; accountId := "ap"; accountPwd := "secret" |}.

Definition get_no_content : string → result HttpResponse :=
  λ _, Ok {| http_status_code := 204; content := "not json"; is_redirect := false;
             next_url := None |}.

Definition sample_loads (body : string) : result (gmap string SyncStatus) :=
  if decide (body = "{}") then Ok ∅ else Raise (Exception "Expecting value").

Definition sample_parse_error (ex : exn) (body : string) : string :=
  "Error while parsing JSON. Content was: " +:+ body.

Definition coordinator_no_content : CoordinatorServer :=
  {| request_fullsync := λ asid timestamp,
       (client_request_fullsync get_no_content sample_loads sample_parse_error
          sample_client asid timestamp).1;
     reply_fullsync := λ ack _, Ok ack |}.

Definition moved_to : string := "https://other.example/ack".

Definition post_moved (target : string) (ack : gmap string SyncStatus)
    : result HttpResponse :=
  if decide (target = moved_to)
  then Ok {| http_status_code := 500; content := "{}"; is_redirect := false;
             next_url := None |}
  else Ok {| http_status_code := 307; content := ""; is_redirect := true;
             next_url := Some moved_to |}.

Definition post_cycle (target : string) (ack : gmap string SyncStatus)
    : result HttpResponse :=
  Ok {| http_status_code := 307; content := ""; is_redirect := true;
        next_url := Some target |}.



(** * Properties *)

(** ** [str] is injective *)

Lemma str_inj (a b : Z) : str a = str b → a = b.
Proof.
  unfold str. intros H.
  assert (Hn : ∀ z, Z.to_int z ≠ Decimal.Pos Decimal.Nil ∧ Z.to_int z ≠ Decimal.Neg Decimal.Nil).
  { intros [|p|p]; simpl; split; try discriminate;
      intros [= E]; by apply Unsigned.to_uint_nonnil in E. }
  apply (f_equal NilZero.int_of_string) in H.
  destruct (Hn a), (Hn b).
  rewrite !NilZero.isi in H by done.
  injection H as H. apply (f_equal Z.of_int) in H.
  by rewrite !DecimalZ.of_to in H.
Qed.

(** ** The infrastructure range *)

Lemma asid_is_infrastructure_spec (n : Z) :
  asid_is_infrastructure n = true ↔ (0xffaa00000000 < n < 0xffaa00010000)%Z.
Proof. unfold asid_is_infrastructure. rewrite andb_true_iff, !Z.ltb_lt. lia. Qed.

(** ** Dictionaries, merging, names and lists *)

Lemma lookup_setdefault {A} (k j : string) (v : A) (d : gmap string A) :
  setdefault k v d !! j = if decide (k = j) then Some (default v (d !! k)) else d !! j.
Proof.
  unfold setdefault. destruct (d !! k) as [x|] eqn:E; case_decide; subst; simpl.
  - done.
  - done.
  - by rewrite lookup_insert_eq.
  - by rewrite lookup_insert_ne.
Qed.

Lemma setdefault_all_union {A} (src dst : gmap string A) :
  setdefault_all src dst = dst ∪ src.
Proof.
  unfold setdefault_all.
  induction src as [|i x src Hi Hfst IH] using map_first_key_ind.
  - by rewrite map_fold_empty, (right_id_L ∅ (∪)).
  - rewrite map_fold_insert_first_key by done. rewrite IH.
    apply map_eq; intros j. rewrite lookup_setdefault, !lookup_union.
    case_decide as Hij; subst.
    + rewrite lookup_insert_eq, Hi. by destruct (dst !! j).
    + by rewrite lookup_insert_ne.
Qed.

Lemma lookup_foldl_union {A} (f : string → gmap string A) (names : list string)
    (init : gmap string A) (k : string) :
  foldl (λ acc n, acc ∪ f n) init names !! k = first_wins k (init :: (f <$> names)).
Proof.
  revert init. induction names as [|n names IH]; intros init; simpl.
  - by destruct (init !! k).
  - rewrite IH. simpl. rewrite lookup_union.
    destruct (init !! k), (f n !! k); done.
Qed.

Lemma lookup_foldl_delete {A} (names : list string) (m : gmap string A) (k : string) :
  foldl (λ acc n, delete n acc) m names !! k
  = if decide (k ∈ names) then None else m !! k.
Proof.
  revert m. induction names as [|n names IH]; intros m; simpl.
  - done.
  - rewrite IH. destruct (decide (k ∈ names)) as [Hin|Hin].
    + rewrite decide_True; [done|by right].
    + destruct (decide (n = k)) as [->|Hne].
      * rewrite lookup_delete_eq, decide_True; [done|by left].
      * rewrite lookup_delete_ne by done. rewrite decide_False; [done|].
        rewrite elem_of_cons. intros [?|?]; congruence.
Qed.

Lemma first_wins_Some {A} (k : string) (dicts : list (gmap string A)) (v : A) :
  first_wins k dicts = Some v → ∃ d, d ∈ dicts ∧ d !! k = Some v.
Proof.
  induction dicts as [|d dicts IH]; simpl; [done|].
  destruct (d !! k) as [x|] eqn:E.
  - intros [= <-]. exists d. split; [by left|done].
  - intros (d' & ? & ?)%IH. exists d'. split; [by right|done].
Qed.

Lemma first_wins_None {A} (k : string) (dicts : list (gmap string A)) (d : gmap string A) :
  first_wins k dicts = None → d ∈ dicts → d !! k = None.
Proof.
  induction dicts as [|d0 dicts IH]; simpl; [by intros _ ?%elem_of_nil|].
  destruct (d0 !! k) as [x|] eqn:E; [done|].
  intros H [->|?]%elem_of_cons; [done|by apply IH].
Qed.

Lemma merge_routers_inv (orig : gmap string BorderRouter) (names : list string)
    (st st' : MergeState) :
  live_brs st ⊆ orig →
  merge_routers st names = Ok st' →
  internalAddrs st'
    = foldl (λ acc n, acc ∪ default ∅ (InternalAddrs (router_of orig n)))
        (internalAddrs st) names
  ∧ ctrlAddrs st'
    = foldl (λ acc n, acc ∪ default ∅ (CtrlAddr (router_of orig n)))
        (ctrlAddrs st) names
  ∧ interfaces st'
    = foldl (λ acc n, acc ∪ default ∅ (Interfaces (router_of orig n)))
        (interfaces st) names
  ∧ live_brs st' = foldl (λ acc n, delete n acc) (live_brs st) names.
Proof.
  revert st. induction names as [|n names IH]; intros st Hsub; simpl.
  - by intros [= <-].
  - unfold merge_router.
    destruct (live_brs st !! n) as [currBr|] eqn:Hn; simpl; [|done].
    destruct (InternalAddrs currBr) as [si|] eqn:Hsi; simpl; [|done].
    destruct (CtrlAddr currBr) as [sc|] eqn:Hsc; simpl; [|done].
    destruct (Interfaces currBr) as [sf|] eqn:Hsf; simpl; [|done].
    intros Hrest. apply IH in Hrest; simpl.
    + simpl in Hrest. rewrite !setdefault_all_union in Hrest.
      unfold router_of. rewrite (lookup_weaken _ _ _ _ Hn Hsub). simpl.
      by rewrite Hsi, Hsc, Hsf.
    + simpl. etrans; [apply delete_subseteq|done].
Qed.

Lemma merge_routers_ok (names : list string) (st : MergeState) :
  NoDup names →
  (∀ n, n ∈ names → ∃ b si sc sf, live_brs st !! n = Some b ∧
      InternalAddrs b = Some si ∧ CtrlAddr b = Some sc ∧ Interfaces b = Some sf) →
  ∃ st', merge_routers st names = Ok st'.
Proof.
  revert st. induction names as [|n names IH]; intros st Hnd Hall; simpl.
  - by eexists.
  - apply NoDup_cons in Hnd as [Hn Hnd].
    destruct (Hall n) as (b & si & sc & sf & Hb & Hsi & Hsc & Hsf); [by left|].
    unfold merge_router. rewrite Hb. simpl. rewrite Hsi, Hsc, Hsf. simpl.
    apply IH; [done|]. intros m Hm. simpl.
    destruct (Hall m) as (b' & ? & ? & ? & ? & ?); [by right|].
    exists b'. eexists _, _, _. rewrite lookup_delete_ne; [done|]. by intros ->.
Qed.

Lemma elem_of_merge_order (brs : gmap string BorderRouter) (brname n : string) :
  n ∈ merge_order brs brname ↔ is_Some (brs !! n) ∧ n ≠ brname.
Proof.
  unfold merge_order, sorted. rewrite merge_sort_Permutation, elem_of_elements.
  rewrite elem_of_difference, elem_of_dom, elem_of_singleton. done.
Qed.

Lemma NoDup_merge_order (brs : gmap string BorderRouter) (brname : string) :
  NoDup (merge_order brs brname).
Proof.
  unfold merge_order, sorted. rewrite merge_sort_Permutation. apply NoDup_elements.
Qed.

Lemma merge_order_sorted (brs : gmap string BorderRouter) (brname : string) :
  Sorted str_le (merge_order brs brname).
Proof.
  unfold merge_order, sorted. apply Sorted_merge_sort.
  intros a b. unfold str_le. apply String.leb_total.
Qed.

Lemma merge_order_nonempty (brs : gmap string BorderRouter) (brname : string) :
  size brs ≠ 1 → brs ≠ ∅ → ∃ n b, n ∈ merge_order brs brname ∧ brs !! n = Some b.
Proof.
  intros Hsz Hne.
  destruct (set_choose_or_empty (dom brs ∖ {[brname]})) as [[n Hn]|Hempty].
  - apply elem_of_difference in Hn as [[b Hb]%elem_of_dom Hn].
    exists n, b. split; [|done]. apply elem_of_merge_order. split; [by eexists|].
    by rewrite elem_of_singleton in Hn.
  - exfalso. assert (Hsub : dom brs ⊆ ({[brname]} : gset string)).
    { intros x Hx. destruct (decide (x = brname)) as [->|Hxn]; [by apply elem_of_singleton|].
      exfalso. assert (x ∈ dom brs ∖ {[brname]}) as Hin.
      { apply elem_of_difference. split; [done|]. by rewrite elem_of_singleton. }
      rewrite Hempty in Hin. by apply elem_of_empty in Hin. }
    apply subseteq_size in Hsub. rewrite size_dom, size_singleton in Hsub.
    apply map_size_non_empty_iff in Hne. lia.
Qed.

Lemma combine_border_routers_rename (brs : gmap string BorderRouter) (brname : string) :
  size brs = 1 →
  ∃ first br, brs = {[first := br]} ∧
    combine_border_routers_brs brs brname = Ok ({[brname := br]}, br).
Proof.
  intros Hsz. unfold combine_border_routers_brs. rewrite decide_True by done.
  pose proof (length_map_to_list brs) as Hlen. rewrite Hsz in Hlen.
  destruct (map_to_list brs) as [|[first br] [|? ?]] eqn:E; simpl in Hlen; try lia.
  exists first, br.
  assert (brs = {[first := br]}) as ->.
  { rewrite <-(list_to_map_to_list brs), E. done. }
  split; [done|]. by rewrite delete_singleton_eq.
Qed.

Lemma combine_border_routers_singleton (first brname : string) (b : BorderRouter) :
  combine_border_routers_brs {[first := b]} brname = Ok ({[brname := b]}, b).
Proof.
  destruct (combine_border_routers_rename {[first := b]} brname) as (f & b' & E & ->).
  { apply map_size_singleton. }
  assert (b' = b) as ->; [|done].
  assert (H : ({[first := b]} : gmap string BorderRouter) !! first = Some b)
    by apply lookup_singleton_eq.
  rewrite E in H. by apply lookup_singleton_Some in H as [_ ->].
Qed.

Lemma combine_border_routers_merge (brs brs' : gmap string BorderRouter)
    (brname : string) (br' : BorderRouter) :
  size brs ≠ 1 →
  combine_border_routers_brs brs brname = Ok (brs', br') →
  brs' = {[brname := br']} ∧
  ∃ ia ca ifs,
    br' = {| InternalAddrs := Some ia; CtrlAddr := Some ca; Interfaces := Some ifs |} ∧
    (∀ k, ia !! k = first_wins k (merged_dicts InternalAddrs brs brname)) ∧
    (∀ k, ca !! k = first_wins k (merged_dicts CtrlAddr brs brname)) ∧
    (∀ k, ifs !! k = first_wins k (merged_dicts Interfaces brs brname)).
Proof.
  intros Hsz. unfold combine_border_routers_brs. rewrite decide_False by done.
  fold (merge_order brs brname). fold (router_of brs brname).
  destruct (merge_routers _ _) as [st'|e] eqn:Hm; simpl; [|done].
  intros [= <- <-].
  eapply merge_routers_inv in Hm as (Hia & Hca & Hifs & Hlive); [|done].
  simpl in *.
  assert (Hsrc : ∀ A (field : BorderRouter → option (gmap string A)),
    (λ n, default ∅ (field (router_of (setdefault brname empty_dict brs) n)))
      <$> merge_order brs brname
    = (λ n, default ∅ (field (router_of brs n))) <$> merge_order brs brname).
  { intros A field. apply list_fmap_ext. intros i n Hn.
    apply list_elem_of_lookup_2, elem_of_merge_order in Hn as [_ Hne].
    unfold router_of. rewrite lookup_setdefault. by rewrite decide_False. }
  split.
  - apply map_eq; intros k. destruct (decide (brname = k)) as [<-|Hne].
    + by rewrite lookup_insert_eq, lookup_singleton_eq.
    + rewrite lookup_insert_ne, lookup_singleton_ne by done.
      rewrite Hlive, lookup_foldl_delete. case_decide as Hin; [done|].
      rewrite lookup_setdefault, decide_False by done.
      destruct (brs !! k) eqn:Hk; [|done].
      exfalso. apply Hin, elem_of_merge_order. split; [by eexists|done].
  - eexists _, _, _. split; [done|].
    rewrite Hia, Hca, Hifs. unfold merged_dicts.
    split; [|split]; intros k; rewrite lookup_foldl_union; by rewrite Hsrc.
Qed.

Lemma combine_border_routers_empty (brname : string) :
  combine_border_routers_brs ∅ brname
  = Ok ({[brname := _create_border_router]}, _create_border_router).
Proof.
  unfold combine_border_routers_brs. rewrite decide_False by by rewrite map_size_empty.
  assert (dom (∅ : gmap string BorderRouter) ∖ {[brname]} = (∅ : gset string)) as ->
    by (rewrite dom_empty_L; apply set_eq; intros x;
      rewrite elem_of_difference, elem_of_empty; tauto).
  rewrite elements_empty. simpl.
  unfold setdefault. rewrite !lookup_empty, insert_insert_eq. done.
Qed.

(** Whenever the merge step returns, the ["BorderRouters"] dictionary holds
    exactly one router: the one returned, under [brname]. *)
Lemma combine_border_routers_single (brs brs' : gmap string BorderRouter)
    (brname : string) (br' : BorderRouter) :
  combine_border_routers_brs brs brname = Ok (brs', br') →
  brs' = {[brname := br']}.
Proof.
  intros H. destruct (decide (size brs = 1)) as [Hsz|Hsz].
  - destruct (combine_border_routers_rename brs brname Hsz) as (f & b & _ & E).
    rewrite E in H. by injection H as <- <-.
  - by apply combine_border_routers_merge in H as [? _].
Qed.

Lemma combine_border_routers_total (brs : gmap string BorderRouter) (brname : string) :
  map_Forall (λ _ br, well_formed_router br) brs →
  ∃ res, combine_border_routers_brs brs brname = Ok res.
Proof.
  intros Hwf. destruct (decide (size brs = 1)) as [Hsz|Hsz].
  - destruct (combine_border_routers_rename brs brname Hsz) as (f & b & _ & E).
    by eexists.
  - unfold combine_border_routers_brs. rewrite decide_False by done.
    fold (merge_order brs brname).
    edestruct (merge_routers_ok (merge_order brs brname)) as [st' ->];
      [apply NoDup_merge_order| |by eexists].
    intros n [[b Hb] Hne]%elem_of_merge_order. simpl.
    destruct (Hwf n b Hb) as ([si ?] & [sc ?] & [sf ?]).
    exists b, si, sc, sf. rewrite lookup_setdefault, decide_False by done. done.
Qed.

Lemma elem_of_ids_of (b : BorderRouter) (k : string) :
  k ∈ ids_of b ↔ is_Some (default ∅ (Interfaces b) !! k).
Proof.
  unfold ids_of. rewrite list_elem_of_fmap. split.
  - intros ([k' v] & -> & H). apply elem_of_map_to_list in H. by eexists.
  - intros [v H]. exists (k, v). split; [done|]. by apply elem_of_map_to_list.
Qed.

Lemma NoDup_ids_of (b : BorderRouter) : NoDup (ids_of b).
Proof. apply NoDup_fst_map_to_list. Qed.

Lemma ids_of_insert_interface (b : BorderRouter) (if_id : Z) (as_id as_ip : string)
    (as_port : Z) (ap_ip : string) (ap_port : Z) (ip : string) :
  str if_id ∉ ids_of b →
  ids_of (_insert_interface b if_id as_id as_ip as_port ap_ip ap_port ip)
  ≡ₚ str if_id :: ids_of b.
Proof.
  intros Hk. unfold ids_of, _insert_interface. simpl.
  rewrite map_to_list_insert; [done|].
  rewrite elem_of_ids_of in Hk. by apply eq_None_not_Some.
Qed.

Lemma user_router_ok_insert (b : BorderRouter) (if_id : Z) (as_id as_ip : string)
    (as_port : Z) (ap_ip : string) (ap_port : Z) (ip : string) :
  str if_id ∉ ids_of b →
  size (default ∅ (Interfaces b)) < MAX_IFACES_IN_BR →
  user_router_ok (_insert_interface b if_id as_id as_ip as_port ap_ip ap_port ip).
Proof.
  intros Hk Hsz. unfold _insert_interface. eexists _, _, _. split; [done|].
  rewrite map_size_insert_None; [lia|].
  rewrite elem_of_ids_of in Hk. by apply eq_None_not_Some.
Qed.

Lemma child_links_to_insert (Q : string → Prop) (b : BorderRouter) (as_id : string)
    (as_ip : string) (as_port : Z) (ap_ip : string) (ap_port : Z) (ip : string) (if_id : Z) :
  Q as_id → child_links_to Q b →
  child_links_to Q (_insert_interface b if_id as_id as_ip as_port ap_ip ap_port ip).
Proof.
  intros Hq Hb. unfold child_links_to, _insert_interface. simpl.
  by apply map_Forall_insert_2.
Qed.

Lemma keys_list_snoc (routers : list BorderRouter) (b : BorderRouter) :
  keys_list (routers ++ [b]) = keys_list routers ++ ids_of b.
Proof. unfold keys_list. rewrite bind_app. simpl. by rewrite (right_id_L [] (++)). Qed.

Lemma NoDup_keys_list_lookup (routers : list BorderRouter) (p q : nat)
    (a b : BorderRouter) (k : string) :
  NoDup (keys_list routers) →
  routers !! p = Some a → routers !! q = Some b →
  k ∈ ids_of a → k ∈ ids_of b → p = q.
Proof.
  revert p q. induction routers as [|r routers IH]; intros p q Hnd Hp Hq Ha Hb; [done|].
  unfold keys_list in Hnd. rewrite bind_cons in Hnd.
  apply NoDup_app in Hnd as (_ & Hdisj & Hnd).
  assert (Hin : ∀ j x, routers !! j = Some x → k ∈ ids_of x → k ∈ routers ≫= ids_of).
  { intros j x Hj Hx. apply list_elem_of_bind. exists x. split; [done|].
    by eapply list_elem_of_lookup_2. }
  destruct p as [|p], q as [|q]; simpl in *.
  - done.
  - injection Hp as ->. exfalso. eapply Hdisj; [done|]. by eapply Hin.
  - injection Hq as ->. exfalso. eapply Hdisj; [done|]. by eapply Hin.
  - f_equal. by eapply IH.
Qed.

Lemma keep_unskipped_ext (s1 s2 : gset nat) (i : nat) (conns : list Connection) :
  (∀ j, i ≤ j → j ∈ s1 ↔ j ∈ s2) →
  keep_unskipped s1 i conns = keep_unskipped s2 i conns.
Proof.
  revert i. induction conns as [|c conns IH]; intros i H; simpl; [done|].
  rewrite (IH (S i)) by (intros j Hj; apply H; lia).
  destruct (decide (i ∈ s1)) as [H1|H1], (decide (i ∈ s2)) as [H2|H2]; try done;
    exfalso; apply (H i) in H1 || apply (H i) in H2; done || lia.
Qed.

Lemma elem_of_keep_unskipped (s : gset nat) (i : nat) (conns : list Connection)
    (c : Connection) :
  c ∈ keep_unskipped s i conns ↔ ∃ j, conns !! j = Some c ∧ (i + j) ∉ s.
Proof.
  revert i. induction conns as [|c0 conns IH]; intros i; simpl.
  - rewrite elem_of_nil. split; [done|]. by intros (j & ? & _).
  - destruct (decide (i ∈ s)) as [Hi|Hi].
    + rewrite IH. split.
      * intros (j & Hj & Hs). exists (S j). split; [done|].
        by replace (i + S j) with (S i + j) by lia.
      * intros ([|j] & Hj & Hs); simpl in Hj.
        -- exfalso. apply Hs. by rewrite Nat.add_0_r.
        -- exists j. split; [done|]. by replace (S i + j) with (i + S j) by lia.
    + rewrite elem_of_cons, IH. split.
      * intros [->|(j & Hj & Hs)].
        -- exists 0. split; [done|]. by rewrite Nat.add_0_r.
        -- exists (S j). split; [done|]. by replace (i + S j) with (S i + j) by lia.
      * intros ([|j] & Hj & Hs); simpl in Hj.
        -- left. by injection Hj as ->.
        -- right. exists j. split; [done|]. by replace (S i + j) with (i + S j) by lia.
Qed.

Lemma omap_ext_elem {A B} (f g : A → option B) (l : list A) :
  (∀ x, x ∈ l → f x = g x) → omap f l = omap g l.
Proof.
  induction l as [|x l IH]; intros H; simpl; [done|].
  rewrite (H x) by by left.
  destruct (g x); [f_equal|]; apply IH; intros y ?; apply H; by right.
Qed.

(** The kept list read off the indices: the connections at the positions
    [0 .. len-1] that are not in the skip set, in increasing order. *)
Lemma keep_unskipped_by_index (s : gset nat) (i : nat) (conns : list Connection) :
  keep_unskipped s i conns
  = omap (λ j, conns !! (j - i)) (filter (λ j, j ∉ s) (seq i (length conns))).
Proof.
  revert i. induction conns as [|c conns IH]; intros i; simpl; [done|].
  rewrite filter_cons. rewrite IH.
  assert (Hshift : omap (λ j, conns !! (j - S i)) (filter (λ j, j ∉ s) (seq (S i) (length conns)))
                   = omap (λ j, (c :: conns) !! (j - i))
                       (filter (λ j, j ∉ s) (seq (S i) (length conns)))).
  { apply omap_ext_elem. intros j Hj%list_elem_of_filter.
    destruct Hj as [_ Hj%elem_of_seq].
    replace (j - i) with (S (j - S i)) by lia. done. }
  destruct (decide (i ∈ s)) as [Hi|Hi].
  - rewrite decide_False by (intros H; by apply H). done.
  - rewrite decide_True by done. simpl. rewrite Nat.sub_diag. simpl. by f_equal.
Qed.

Lemma or_empty_default (l : option (list Connection)) : or_empty l = default [] l.
Proof. by destruct l as [[|? ?]|]. Qed.

Lemma kept_connections (status : SyncStatus) (skp : list nat) :
  default [] (connections
    (match connections status with
     | Some (_ :: _) =>
         {| connections := Some (keep_unskipped (list_to_set skp) 0
                                   (or_empty (connections status))) |}
     | _ => status
     end))
  = keep_unskipped (list_to_set skp) 0 (default [] (connections status)).
Proof. by destruct status as [[[|? ?]|]]. Qed.

Lemma user_brname_inj (my_asid : string) (i j : nat) :
  user_brname my_asid i = user_brname my_asid j → i = j.
Proof.
  unfold user_brname. intros H.
  do 3 apply (inj (String.app _)) in H. apply str_inj in H. lia.
Qed.

Lemma user_brname_not_infra (my_asid : string) (i : nat) :
  user_brname my_asid i ≠ infra_brname my_asid.
Proof.
  unfold user_brname, infra_brname. intros H.
  do 2 apply (inj (String.app _)) in H.
  change "-1" with ("-" +:+ str 1) in H.
  apply (inj (String.app _)) in H. apply str_inj in H. lia.
Qed.

Lemma install_user_brs_lookup_other (my_asid : string) (routers : list BorderRouter)
    (i : nat) (brs : gmap string BorderRouter) (name : string) :
  (∀ j, j < length routers → name ≠ user_brname my_asid (i + j)) →
  install_user_brs my_asid i routers brs !! name = brs !! name.
Proof.
  revert i brs. induction routers as [|b0 routers IH]; intros i brs Hne; [done|].
  simpl. rewrite IH.
  - rewrite lookup_insert_ne; [done|]. intros E. apply (Hne 0); simpl; [lia|].
    by rewrite Nat.add_0_r.
  - intros j Hj. replace (S i + j) with (i + S j) by lia. apply Hne. simpl. lia.
Qed.

Lemma install_user_brs_lookup_user (my_asid : string) (routers : list BorderRouter)
    (i j : nat) (brs : gmap string BorderRouter) (b : BorderRouter) :
  routers !! j = Some b →
  install_user_brs my_asid i routers brs !! user_brname my_asid (i + j) = Some b.
Proof.
  revert i j brs. induction routers as [|b0 routers IH]; intros i j brs Hj; [done|].
  simpl. destruct j as [|j]; simpl in Hj.
  - injection Hj as ->. rewrite Nat.add_0_r.
    rewrite install_user_brs_lookup_other; [by rewrite lookup_insert_eq|].
    intros j _ E%user_brname_inj. lia.
  - replace (i + S j) with (S i + j) by lia. by apply IH.
Qed.

Lemma install_user_brs_lookup_inv (my_asid : string) (routers : list BorderRouter)
    (i : nat) (brs : gmap string BorderRouter) (name : string) (b : BorderRouter) :
  install_user_brs my_asid i routers brs !! name = Some b →
  (∃ j, routers !! j = Some b ∧ name = user_brname my_asid (i + j)) ∨
  (brs !! name = Some b ∧ ∀ j, j < length routers → name ≠ user_brname my_asid (i + j)).
Proof.
  revert i brs. induction routers as [|b0 routers IH]; intros i brs H; simpl in H.
  - right. split; [done|]. simpl. lia.
  - apply IH in H as [(j & Hj & ->)|[H Hne]].
    + left. exists (S j). split; [done|]. f_equal. lia.
    + destruct (decide (name = user_brname my_asid i)) as [->|Hn].
      * rewrite lookup_insert_eq in H. injection H as ->.
        left. exists 0. split; [done|]. by rewrite Nat.add_0_r.
      * rewrite lookup_insert_ne in H by done. right. split; [done|].
        intros [|j] Hj; [by rewrite Nat.add_0_r|].
        replace (i + S j) with (S i + j) by lia. apply Hne. simpl in Hj. lia.
Qed.

Lemma lookup_output (my_asid : string) (routers : list BorderRouter)
    (infra : BorderRouter) (name : string) (b : BorderRouter) :
  install_user_brs my_asid 0 routers {[infra_brname my_asid := infra]} !! name = Some b
  ↔ (name = infra_brname my_asid ∧ b = infra)
    ∨ (∃ j, routers !! j = Some b ∧ name = user_brname my_asid j).
Proof.
  split.
  - intros [(j & Hj & ->)|[H _]]%install_user_brs_lookup_inv; [right; by exists j|].
    left. by apply lookup_singleton_Some in H as [<- <-].
  - intros [[-> ->]|(j & Hj & ->)].
    + rewrite install_user_brs_lookup_other; [apply lookup_singleton_eq|].
      intros j _ E. by eapply user_brname_not_infra.
    + by apply (install_user_brs_lookup_user my_asid routers 0 j).
Qed.

(** ** Pruning *)

Section Pruning.

Variable parse_ISD_AS : string → Z * Z.

Local Abbreviation is_prunable_child := (is_prunable_child parse_ISD_AS).
Local Abbreviation surviving_interfaces := (surviving_interfaces parse_ISD_AS).
Local Abbreviation pruned_router := (pruned_router parse_ISD_AS).
Local Abbreviation remove_child_interfaces_of := (remove_child_interfaces_of parse_ISD_AS).
Local Abbreviation remove_child_interfaces_brs := (remove_child_interfaces_brs parse_ISD_AS).
Local Abbreviation _remove_child_interfaces := (_remove_child_interfaces parse_ISD_AS).
Local Abbreviation names_user_as := (names_user_as parse_ISD_AS).

Lemma remove_child_interfaces_of_fold (all seen : gmap string Interface) :
  seen ⊆ all →
  map_fold (λ ifnum (_ : Interface) acc,
      live ← acc;
      iface ← getitem ifnum (live !! ifnum);
      if is_prunable_child iface then Ok (delete ifnum live) else Ok live)
    (Ok all) seen
  = Ok (filter (λ kv, seen !! kv.1 = None ∨ is_prunable_child kv.2 = false) all).
Proof.
  induction seen as [|i x seen Hi Hfst IH] using map_first_key_ind.
  - intros _. rewrite map_fold_empty. f_equal. symmetry. apply map_filter_id.
    intros i x _. left. apply lookup_empty.
  - intros Hsub. rewrite map_fold_insert_first_key by done.
    rewrite IH by (etrans; [by apply insert_subseteq|done]). simpl.
    assert (Hx : all !! i = Some x).
    { eapply lookup_weaken; [|done]. apply lookup_insert_eq. }
    rewrite (proj2 (map_lookup_filter_Some _ _ _ _)) by (split; [done|by left]).
    simpl. destruct (is_prunable_child x) eqn:Hp; f_equal; apply map_eq; intros j;
      apply option_eq; intros y.
    + rewrite lookup_delete_Some, !map_lookup_filter_Some. simpl.
      destruct (decide (i = j)) as [->|Hne].
      * rewrite lookup_insert_eq. split; [tauto|]. intros [Hj [?|Hq]]; [done|].
        congruence.
      * rewrite lookup_insert_ne by done. tauto.
    + rewrite !map_lookup_filter_Some. simpl.
      destruct (decide (i = j)) as [->|Hne].
      * rewrite lookup_insert_eq. split; [|intros [? ?]; split; [done|by left]].
        intros [Hj _]. split; [done|]. right. congruence.
      * rewrite lookup_insert_ne by done. tauto.
Qed.

Lemma remove_child_interfaces_of_spec (ifaces : gmap string Interface) :
  remove_child_interfaces_of ifaces = Ok (surviving_interfaces ifaces).
Proof.
  unfold remove_child_interfaces_of.
  rewrite remove_child_interfaces_of_fold by done. f_equal.
  apply map_filter_strong_ext. intros i x. simpl.
  split; intros [H ?]; (split; [|done]); [destruct H; [congruence|done]|by right].
Qed.

Lemma remove_child_interfaces_brs_fold (all seen : gmap string BorderRouter) :
  seen ⊆ all →
  let r := map_fold (λ brname (_ : BorderRouter) acc,
      live ← acc;
      br ← getitem brname (live !! brname);
      ifaces ← getitem "Interfaces" (Interfaces br);
      ifaces' ← remove_child_interfaces_of ifaces;
      let br' := {| InternalAddrs := InternalAddrs br;
                    CtrlAddr := CtrlAddr br;
                    Interfaces := Some ifaces' |} in
      if decide (ifaces' = ∅)
      then Ok (delete brname live)
      else Ok (<[brname := br']> live))
    (Ok all) seen in
  (has_Interfaces seen ∧
   r = Ok (map_imap (λ k br, match seen !! k with
                             | Some _ => pruned_router br
                             | None => Some br
                             end) all))
  ∨ (¬ has_Interfaces seen ∧ ∃ e, r = Raise e).
Proof.
  unfold has_Interfaces.
  induction seen as [|i x seen Hi Hfst IH] using map_first_key_ind; intros Hsub; simpl.
  - left. split; [apply map_Forall_empty|]. rewrite map_fold_empty. f_equal.
    apply map_eq; intros k. rewrite map_lookup_imap.
    destruct (all !! k); simpl; [|done]. by rewrite lookup_empty.
  - rewrite map_fold_insert_first_key by done.
    assert (Hx : all !! i = Some x).
    { eapply lookup_weaken; [|done]. apply lookup_insert_eq. }
    rewrite map_Forall_insert by done.
    destruct IH as [[Hall ->]|[Hnot [e ->]]];
      [etrans; [by apply insert_subseteq|done]| |right; split; [tauto|by exists e]].
    simpl. rewrite map_lookup_imap, Hx. simpl. rewrite Hi. simpl.
    destruct (Interfaces x) as [ifaces|] eqn:Hifs; simpl;
      [|right; split; [intros [[? [=]] _]|by eexists]].
    left. split; [by split|].
    rewrite remove_child_interfaces_of_spec. simpl.
    destruct (decide (surviving_interfaces ifaces = ∅)) as [He|He];
      f_equal; apply map_eq; intros k; rewrite map_lookup_imap.
    + destruct (decide (i = k)) as [<-|Hne].
      * rewrite lookup_delete_eq, Hx, lookup_insert_eq. simpl.
        unfold pruned_router. rewrite Hifs. simpl.
        by rewrite decide_True.
      * rewrite lookup_delete_ne, lookup_insert_ne, map_lookup_imap by done. done.
    + destruct (decide (i = k)) as [<-|Hne].
      * rewrite !lookup_insert_eq, Hx. simpl.
        unfold pruned_router. rewrite Hifs. simpl.
        by rewrite decide_False.
      * rewrite !lookup_insert_ne, map_lookup_imap by done. done.
Qed.

Lemma remove_child_interfaces_brs_cases (brs : gmap string BorderRouter) :
  (has_Interfaces brs ∧ remove_child_interfaces_brs brs = Ok (omap pruned_router brs))
  ∨ (¬ has_Interfaces brs ∧ ∃ e, remove_child_interfaces_brs brs = Raise e).
Proof.
  destruct (remove_child_interfaces_brs_fold brs brs) as [[H1 H2]|[H1 H2]]; [done| |by right].
  left. split; [done|]. unfold remove_child_interfaces_brs.
  etrans; [exact H2|]. f_equal. apply map_eq; intros k.
  rewrite map_lookup_imap, lookup_omap. by destruct (brs !! k).
Qed.

Lemma remove_child_interfaces_brs_ok (brs : gmap string BorderRouter) :
  has_Interfaces brs →
  remove_child_interfaces_brs brs = Ok (omap pruned_router brs).
Proof.
  intros H. destruct (remove_child_interfaces_brs_cases brs) as [[_ ?]|[? _]]; done.
Qed.

Lemma remove_child_interfaces_brs_inv (brs brs' : gmap string BorderRouter) :
  remove_child_interfaces_brs brs = Ok brs' →
  has_Interfaces brs ∧ brs' = omap pruned_router brs.
Proof.
  intros H. destruct (remove_child_interfaces_brs_cases brs) as [[? E]|[_ [e E]]];
    rewrite E in H; [|done]. by injection H as <-.
Qed.

Lemma surviving_interfaces_idem (ifaces : gmap string Interface) :
  surviving_interfaces (surviving_interfaces ifaces) = surviving_interfaces ifaces.
Proof.
  unfold surviving_interfaces. apply map_filter_id.
  intros k x. rewrite map_lookup_filter_Some. tauto.
Qed.

Lemma pruned_router_fixed (br br' : BorderRouter) :
  pruned_router br = Some br' → pruned_router br' = Some br'.
Proof.
  unfold pruned_router.
  destruct (Interfaces br) as [ifaces|]; simpl; [|done].
  destruct (decide (surviving_interfaces ifaces = ∅)) as [|Hne]; [done|].
  intros [= <-]. simpl. rewrite surviving_interfaces_idem. by rewrite decide_False.
Qed.

Lemma pruned_router_Interfaces (br br' : BorderRouter) :
  pruned_router br = Some br' →
  ∃ ifaces, Interfaces br = Some ifaces ∧ surviving_interfaces ifaces ≠ ∅ ∧
            br' = {| InternalAddrs := InternalAddrs br; CtrlAddr := CtrlAddr br;
                     Interfaces := Some (surviving_interfaces ifaces) |}.
Proof.
  unfold pruned_router.
  destruct (Interfaces br) as [ifaces|]; simpl; [|done].
  destruct (decide (surviving_interfaces ifaces = ∅)) as [|Hne]; [done|].
  intros [= <-]. by exists ifaces.
Qed.

Lemma omap_pruned_router_idem (brs : gmap string BorderRouter) :
  omap pruned_router (omap pruned_router brs) = omap pruned_router brs.
Proof.
  apply map_eq; intros k. rewrite !lookup_omap.
  destruct (brs !! k) as [br|]; simpl; [|done].
  destruct (pruned_router br) as [br'|] eqn:E; simpl; [|done].
  by apply pruned_router_fixed in E.
Qed.

Lemma has_Interfaces_pruned (brs : gmap string BorderRouter) :
  has_Interfaces (omap pruned_router brs).
Proof.
  intros k br'. rewrite lookup_omap_Some. intros (br & E & _).
  apply pruned_router_Interfaces in E as (ifaces & _ & _ & ->). by eexists.
Qed.

Lemma remove_child_interfaces_brs_idem (brs : gmap string BorderRouter) :
  (remove_child_interfaces_brs brs ≫= remove_child_interfaces_brs)
  = remove_child_interfaces_brs brs.
Proof.
  destruct (remove_child_interfaces_brs_cases brs) as [[_ ->]|[_ [e ->]]]; [|done].
  simpl. rewrite remove_child_interfaces_brs_ok by apply has_Interfaces_pruned.
  by rewrite omap_pruned_router_idem.
Qed.

(** C9.  Pruning the child links a second time changes nothing: running
    [_remove_child_interfaces] on its own result gives that result again
    (the routers left without interfaces are already gone), and a run that
    raises on the first pass raises the same way. *)
Theorem remove_child_interfaces_idempotent (topo : Topology) :
  (_remove_child_interfaces topo ≫= _remove_child_interfaces)
  = _remove_child_interfaces topo.
Proof.
  unfold _remove_child_interfaces.
  pose proof (remove_child_interfaces_brs_idem (BorderRouters topo)) as H.
  destruct (remove_child_interfaces_brs (BorderRouters topo)) as [brs|e]; simpl in *; [|done].
  destruct (remove_child_interfaces_brs brs) as [brs'|e]; simpl in *; [|done].
  by injection H as ->.
Qed.

(** The pruning returns on every topology whose routers all carry their
    ['Interfaces'] key. *)
Lemma remove_child_interfaces_total (topo : Topology) :
  has_Interfaces (BorderRouters topo) →
  _remove_child_interfaces topo
  = Ok {| BorderRouters := omap pruned_router (BorderRouters topo);
          OtherSections := OtherSections topo |}.
Proof.
  intros H. unfold _remove_child_interfaces.
  by rewrite remove_child_interfaces_brs_ok.
Qed.

(** C3, as amended.  [asid_is_infrastructure] holds exactly on the open
    range between 0xffaa00000000 and 0xffaa00010000, both ends excluded;
    and the pruning deletes an interface exactly when it is tagged CHILD
    and its AS is not strictly between those two numbers. *)
Theorem infrastructure_range_is_open :
  (∀ n : Z, asid_is_infrastructure n = true
            ↔ (0xffaa00000000 < n < 0xffaa00010000)%Z) ∧
  (∀ iface : Interface,
     is_prunable_child iface = true
     ↔ LinkTo iface = "CHILD" ∧
       ¬ (0xffaa00000000 < (parse_ISD_AS (ISD_AS iface)).2 < 0xffaa00010000)%Z).
Proof.
  split; [apply asid_is_infrastructure_spec|].
  intros iface. unfold is_prunable_child.
  rewrite andb_true_iff, negb_true_iff, bool_decide_eq_true.
  rewrite <-asid_is_infrastructure_spec.
  destruct (asid_is_infrastructure _); split; intros [? ?]; split; done.
Qed.

Lemma pruned_sources_survive (brs0 : gmap string BorderRouter) (n : string) :
  map_Forall (λ _ v, is_prunable_child v = false)
    (default ∅ (Interfaces (router_of (omap pruned_router brs0) n))).
Proof.
  unfold router_of. rewrite lookup_omap.
  destruct (brs0 !! n) as [b0|]; simpl; [|apply map_Forall_empty].
  destruct (pruned_router b0) as [b|] eqn:E; simpl; [|apply map_Forall_empty].
  apply pruned_router_Interfaces in E as (ifs & _ & _ & ->). simpl.
  intros k v. unfold surviving_interfaces. rewrite map_lookup_filter_Some. by intros [_ ?].
Qed.

(** The router that the merge step returns after a pruning: its interfaces
    all survive a further pruning, and when it has none it is the empty
    router. *)
Lemma combine_after_prune (brs0 brs' : gmap string BorderRouter) (brname : string)
    (infra : BorderRouter) :
  combine_border_routers_brs (omap pruned_router brs0) brname = Ok (brs', infra) →
  ∃ ifs, Interfaces infra = Some ifs ∧
         map_Forall (λ _ v, is_prunable_child v = false) ifs ∧
         (ifs = ∅ → infra = empty_router).
Proof.
  set (pruned := omap pruned_router brs0). intros Hc.
  destruct (decide (size pruned = 1)) as [Hsz|Hsz].
  - destruct (combine_border_routers_rename pruned brname Hsz) as (f & b & E & Hc').
    rewrite Hc' in Hc. injection Hc as <- <-.
    assert (Hb : pruned !! f = Some b) by (rewrite E; apply lookup_singleton_eq).
    unfold pruned in Hb. apply lookup_omap_Some in Hb as (b0 & Hb & _).
    apply pruned_router_Interfaces in Hb as (ifs & _ & Hne & ->). simpl.
    eexists. split; [done|]. split; [|done].
    intros k v. unfold surviving_interfaces. rewrite map_lookup_filter_Some. by intros [_ ?].
  - pose proof Hc as Hc'.
    apply combine_border_routers_merge in Hc' as (_ & ia & ca & ifs & -> & _ & _ & Hifs);
      [|done].
    simpl. exists ifs. split; [done|]. split.
    + intros k v Hk. rewrite Hifs in Hk.
      apply first_wins_Some in Hk as (d & Hd & Hk).
      assert (∃ n, d = default ∅ (Interfaces (router_of pruned n))) as [n ->].
      { unfold merged_dicts in Hd. apply elem_of_cons in Hd as [->|Hd]; [by eexists|].
        apply list_elem_of_fmap in Hd as (n & -> & _). by eexists. }
      by eapply pruned_sources_survive.
    + intros ->. destruct (decide (pruned = ∅)) as [Hempty|Hne].
      * rewrite Hempty, combine_border_routers_empty in Hc.
        unfold _create_border_router in Hc. by inversion Hc.
      * exfalso.
        destruct (merge_order_nonempty pruned brname Hsz Hne) as (n & b & Hn & Hb).
        pose proof Hb as Hb'. unfold pruned in Hb'.
        apply lookup_omap_Some in Hb' as (b0 & Hb' & _).
        apply pruned_router_Interfaces in Hb' as (ifs & _ & Hifsne & ->).
        apply map_choose in Hifsne as (k & v & Hk).
        specialize (Hifs k). rewrite lookup_empty in Hifs. symmetry in Hifs.
        eapply (first_wins_None _ _ (default ∅ (Interfaces (router_of pruned n)))) in Hifs.
        -- unfold router_of in Hifs. rewrite Hb in Hifs. simpl in Hifs. congruence.
        -- unfold merged_dicts. right. apply list_elem_of_fmap. by exists n.
Qed.

Lemma prune_reconciled (my_asid : string) (infra : BorderRouter)
    (ifs : gmap string Interface) (routers : list BorderRouter) :
  Interfaces infra = Some ifs →
  map_Forall (λ _ v, is_prunable_child v = false) ifs →
  Forall user_router_ok routers →
  Forall (child_links_to names_user_as) routers →
  remove_child_interfaces_brs
    (install_user_brs my_asid 0 routers {[infra_brname my_asid := infra]})
  = Ok (if decide (ifs = ∅) then ∅ else {[infra_brname my_asid := infra]}).
Proof.
  intros Hifs Hkeep Hok Hlinks.
  rewrite remove_child_interfaces_brs_ok.
  2:{ intros name b [[-> ->]|(j & Hj & ->)]%lookup_output; [by eexists|].
      rewrite Forall_forall in Hok.
      destruct (Hok b) as (? & ? & ? & -> & _); [by eapply list_elem_of_lookup_2|].
      by eexists. }
  f_equal. apply map_eq; intros name. rewrite lookup_omap.
  destruct (install_user_brs _ _ _ _ !! name) as [b|] eqn:Hb; simpl.
  - apply lookup_output in Hb as [[-> ->]|(j & Hj & ->)].
    + unfold pruned_router. rewrite Hifs. simpl.
      assert (surviving_interfaces ifs = ifs) as ->.
      { apply map_filter_id. intros k v Hk. by apply (Hkeep k v). }
      destruct (decide (ifs = ∅)) as [->|Hne]; [by rewrite lookup_empty|].
      rewrite lookup_singleton_eq. f_equal. destruct infra; simpl in *. by subst.
    + assert (pruned_router b = None) as ->.
      { rewrite Forall_forall in Hok, Hlinks.
        assert (Hin : b ∈ routers) by by eapply list_elem_of_lookup_2.
        destruct (Hok b Hin) as (ia & ca & ifsb & -> & _).
        specialize (Hlinks _ Hin). unfold child_links_to in Hlinks. simpl in Hlinks.
        unfold pruned_router. simpl. rewrite decide_True; [done|].
        apply map_empty; intros k. apply map_lookup_filter_None. right.
        intros v Hk. simpl.
        destruct (Hlinks k v Hk) as [Hchild Huser].
        unfold is_prunable_child. unfold names_user_as in Huser.
        rewrite Huser, Hchild. done. }
      destruct (decide (ifs = ∅)); [by rewrite lookup_empty|].
      rewrite lookup_singleton_ne; [done|]. intros E. symmetry in E.
      by eapply user_brname_not_infra.
  - assert (name ≠ infra_brname my_asid) as Hne.
    { intros ->. assert (H : install_user_brs my_asid 0 routers
                               {[infra_brname my_asid := infra]}
                             !! infra_brname my_asid = Some infra)
        by (apply lookup_output; by left).
      congruence. }
    destruct (decide (ifs = ∅)); [by rewrite lookup_empty|].
    by rewrite lookup_singleton_ne.
Qed.

End Pruning.

(** ** The allocation loop *)

Section Allocation.

Variable os_path_join : string → string → string.

Local Abbreviation alloc_step := (alloc_step os_path_join).
Local Abbreviation alloc_loop := (alloc_loop os_path_join).

(** A rejected connection only grows the skip list. *)
Lemma alloc_step_skip (config : LocalConfig) (st : AllocState) (i : nat) (c : Connection) :
  (APBRID c ≤ 10)%Z ∨ str (APBRID c) ∈ existing_ifids st →
  alloc_step config st i c
  = Ok {| existing_ifids := existing_ifids st; br := br st;
          userBRs_closed := userBRs_closed st;
          skipped := skipped st ++ [i]; fs := fs st |}.
Proof.
  intros H. unfold alloc_step.
  destruct ((APBRID c <=? 10)%Z || bool_decide (str (APBRID c) ∈ existing_ifids st)) eqn:E;
    [done|].
  apply orb_false_iff in E as [E1 E2].
  apply Z.leb_gt in E1. apply bool_decide_eq_false in E2. destruct H; [lia|done].
Qed.

(** An accepted connection lands in the open router, or in a fresh one when
    there is none or the open one is full. *)
Lemma alloc_step_accept (config : LocalConfig) (st : AllocState) (i : nat) (c : Connection) :
  (10 < APBRID c)%Z → str (APBRID c) ∉ existing_ifids st →
  Forall user_router_ok (userBRs st) →
  ∃ prefix old,
    ((prefix = userBRs st ∧ old = _create_border_router ∧
      (br st = None ∨ ∃ b, br st = Some b ∧
                           MAX_IFACES_IN_BR ≤ size (default ∅ (Interfaces b))))
     ∨ (userBRs st = prefix ++ [old] ∧ br st = Some old ∧
        size (default ∅ (Interfaces old)) < MAX_IFACES_IN_BR)) ∧
    alloc_step config st i c
    = Ok {| existing_ifids := existing_ifids st ++ [str (APBRID c)];
            br := Some (_insert_interface old (APBRID c) (ASID c) (UserIP c) (UserPort c)
                          (if IsVPN c then VPN_ADDR else interface_ip config)
                          (APPort c) (internal_ip config));
            userBRs_closed := prefix;
            skipped := skipped st;
            fs := if IsVPN c
                  then configure_vpn_ip os_path_join config (VPNUserID c) (UserIP c) (fs st)
                  else fs st |}.
Proof.
  intros Hid Hnew Hok. unfold alloc_step.
  destruct ((APBRID c <=? 10)%Z || bool_decide (str (APBRID c) ∈ existing_ifids st)) eqn:E.
  { apply orb_true_iff in E as [E|E]; [apply Z.leb_le in E; lia|].
    by apply bool_decide_eq_true in E. }
  clear E. destruct (br st) as [b|] eqn:Hbr; simpl.
  - assert (Hb : user_router_ok b).
    { rewrite Forall_forall in Hok. apply Hok. unfold userBRs. rewrite Hbr.
      apply elem_of_app. right. simpl. by left. }
    destruct Hb as (ia & ca & ifs & -> & Hsz). simpl.
    case_bool_decide as Hfull; simpl.
    + eexists _, _. split; [|reflexivity]. left. split; [done|]. split; [done|].
      right. eexists. split; [done|]. done.
    + eexists _, _. split; [|reflexivity]. right. unfold userBRs. rewrite Hbr. simpl.
      split; [done|]. split; [done|]. lia.
  - eexists _, _. split; [|reflexivity]. left. split; [done|]. split; [done|]. by left.
Qed.

Lemma alloc_step_accept_inv (config : LocalConfig)
    (st : AllocState) (i : nat) (c : Connection) :
  (10 < APBRID c)%Z → str (APBRID c) ∉ existing_ifids st →
  alloc_inv st →
  ∃ st1,
    alloc_step config st i c = Ok st1 ∧
    existing_ifids st1 = existing_ifids st ++ [str (APBRID c)] ∧
    skipped st1 = skipped st ∧
    keys_list (userBRs st1) ≡ₚ keys_list (userBRs st) ++ [str (APBRID c)] ∧
    alloc_inv st1 ∧
    (∀ Q : string → Prop, Forall (child_links_to Q) (userBRs st) → Q (ASID c) →
                          Forall (child_links_to Q) (userBRs st1)).
Proof.
  intros Hid Hnew (Hok & Hnd & Hin).
  destruct (alloc_step_accept config st i c Hid Hnew Hok) as (prefix & old & Hcase & ->).
  eexists. split; [done|]. simpl.
  set (new := _insert_interface old _ _ _ _ _ _ _).
  assert (Hpre : ∃ tail, userBRs st = prefix ++ tail ∧ keys_list tail = ids_of old ∧
                         Forall user_router_ok prefix ∧
                         (∀ Q, Forall (child_links_to Q) (userBRs st) →
                               Forall (child_links_to Q) prefix ∧ child_links_to Q old) ∧
                         size (default ∅ (Interfaces old)) < MAX_IFACES_IN_BR).
  { destruct Hcase as [(-> & -> & _)|(E & _ & Hsz)].
    - exists []. rewrite (right_id_L [] (++)).
      split_and!; [done|done|done| |].
      + intros Q HQ. split; [done|]. unfold child_links_to. simpl. apply map_Forall_empty.
      + simpl. rewrite map_size_empty. unfold MAX_IFACES_IN_BR. lia.
    - exists [old]. rewrite E in Hok.
      apply Forall_app in Hok as [Hok1 _]. split_and!; try done.
      + unfold keys_list. simpl. by rewrite (right_id_L [] (++)).
      + intros Q HQ. rewrite E in HQ. apply Forall_app in HQ as [HQ1 HQ2].
        by apply (proj1 (Forall_singleton _ _)) in HQ2. }
  destruct Hpre as (tail & Etail & Ktail & Hok1 & Hchold & Hsz).
  assert (Hkold : str (APBRID c) ∉ ids_of old).
  { intros Hk. apply Hnew, Hin. rewrite Etail. unfold keys_list. rewrite bind_app.
    apply elem_of_app. right. fold (keys_list tail). by rewrite Ktail. }
  assert (Hkeys : keys_list (prefix ++ [new])
                  ≡ₚ keys_list (userBRs st) ++ [str (APBRID c)]).
  { rewrite keys_list_snoc. unfold new. rewrite ids_of_insert_interface by done.
    rewrite Etail. unfold keys_list at 2. rewrite bind_app. fold (keys_list prefix).
    fold (keys_list tail). rewrite Ktail.
    rewrite <-(assoc_L (++)). apply Permutation_app_head.
    apply Permutation_cons_append. }
  unfold userBRs at 1 2 4. simpl.
  split_and!; [done|done|done| |]; [unfold alloc_inv, userBRs; simpl; split_and!|].
  - apply Forall_app. split; [done|]. apply Forall_singleton.
    by apply user_router_ok_insert.
  - rewrite Hkeys. apply NoDup_app. split; [done|]. split; [|apply NoDup_singleton].
    intros k Hk ->%list_elem_of_singleton. by apply Hnew, Hin.
  - intros k. rewrite Hkeys. rewrite !elem_of_app. intros [Hk|Hk]; [left; by apply Hin|by right].
  - intros Q HQ Hc. destruct (Hchold Q HQ) as [HQ1 HQ2].
    apply Forall_app. split; [done|]. apply Forall_singleton.
    by apply child_links_to_insert.
Qed.

Lemma alloc_loop_spec (config : LocalConfig)
    (conns : list Connection) (st : AllocState) (i : nat) :
  alloc_inv st →
  ∃ st' skp,
    alloc_loop config st i conns = Ok st' ∧
    skipped st' = skipped st ++ skp ∧
    Forall (λ j, i ≤ j < i + length conns) skp ∧
    NoDup skp ∧
    existing_ifids st'
      = existing_ifids st ++ (str ∘ APBRID <$> keep_unskipped (list_to_set skp) i conns) ∧
    keys_list (userBRs st')
      ≡ₚ keys_list (userBRs st)
         ++ (str ∘ APBRID <$> keep_unskipped (list_to_set skp) i conns) ∧
    Forall (λ c, (10 < APBRID c)%Z) (keep_unskipped (list_to_set skp) i conns) ∧
    length (keep_unskipped (list_to_set skp) i conns) + length skp = length conns ∧
    alloc_inv st' ∧
    (∀ j c, conns !! j = Some c →
       i + j ∈ skp ↔ rejected (existing_ifids st) conns skp i j c) ∧
    (∀ Q : string → Prop, Forall (child_links_to Q) (userBRs st) →
       (∀ c, c ∈ keep_unskipped (list_to_set skp) i conns → Q (ASID c)) →
       Forall (child_links_to Q) (userBRs st')).
Proof.
  revert st i. induction conns as [|c conns IH]; intros st i Hinv.
  { exists st, []. simpl. rewrite !(right_id_L [] (++)).
    split_and!; try done; try constructor. }
  destruct (decide ((APBRID c ≤ 10)%Z ∨ str (APBRID c) ∈ existing_ifids st)) as [Hrej|Hacc].
  - (* the connection is skipped *)
    pose proof (alloc_step_skip config st i c Hrej) as Hstep.
    set (st1 := {| existing_ifids := existing_ifids st; br := br st;
                   userBRs_closed := userBRs_closed st;
                   skipped := skipped st ++ [i]; fs := fs st |}) in *.
    destruct (IH st1 (S i) Hinv)
      as (st' & skp & Hrun & Hskp & Hrange & Hnd & Hex & Hkeys & Hgt & Hlen & Hinv' & Hchar
          & Hlinks).
    assert (Hi : i ∉ skp).
    { intros Hi. rewrite Forall_forall in Hrange. apply Hrange in Hi. lia. }
    assert (Hkeep : keep_unskipped (list_to_set (i :: skp)) i (c :: conns)
                    = keep_unskipped (list_to_set skp) (S i) conns).
    { simpl. rewrite decide_True by (apply elem_of_union; left; by apply elem_of_singleton).
      apply keep_unskipped_ext. intros j Hj. rewrite elem_of_union, elem_of_singleton. 
      split; [intros [->|?]; [lia|done]|by right]. }
    exists st', (i :: skp). rewrite Hkeep.
    split_and!; try done.
    + simpl. by rewrite Hstep.
    + rewrite Hskp. simpl. by rewrite <-(assoc_L (++)).
    + constructor; [simpl; lia|]. eapply Forall_impl; [done|]. simpl. lia.
    + by constructor.
    + simpl. lia.
    + intros [|j] c' Hj; simpl in Hj.
      * injection Hj as <-. rewrite Nat.add_0_r. split; [intros _|intros _; by left].
        destruct Hrej; [by left|right; by left].
      * replace (i + S j) with (S i + j) by lia.
        rewrite elem_of_cons. rewrite (Hchar j c' Hj). unfold rejected. simpl.
        split.
        -- intros [?|[?|[?|(j' & c0 & Hlt & Hj' & Hns & Hid)]]]; [lia|by left|right; by left|].
           right; right. exists (S j'), c0. split_and!; [lia|done| |done].
           replace (i + S j') with (S i + j') by lia.
           rewrite elem_of_cons. intros [?|?]; [lia|done].
        -- intros [?|[?|(j' & c0 & Hlt & Hj' & Hns & Hid)]];
             [right; by left|right; right; by left|].
           right. destruct j' as [|j'].
           ++ exfalso. apply Hns. rewrite Nat.add_0_r. by left.
           ++ right; right. exists j', c0. split_and!; [lia|done| |done].
              intros Hin. apply Hns. replace (i + S j') with (S i + j') by lia. by right.
  - (* the connection is accepted *)
    assert (Hid : (10 < APBRID c)%Z) by (apply Z.nle_gt; intros ?; apply Hacc; by left).
    assert (Hnew : str (APBRID c) ∉ existing_ifids st) by (intros ?; apply Hacc; by right).
    destruct (alloc_step_accept_inv config st i c Hid Hnew Hinv)
      as (st1 & Hstep & Hex1 & Hsk1 & Hkeys1 & Hinv1 & Hlinks1).
    destruct (IH st1 (S i) Hinv1)
      as (st' & skp & Hrun & Hskp & Hrange & Hnd & Hex & Hkeys & Hgt & Hlen & Hinv' & Hchar
          & Hlinks).
    assert (Hi : i ∉ skp).
    { intros Hi. rewrite Forall_forall in Hrange. apply Hrange in Hi. lia. }
    assert (Hkeep : keep_unskipped (list_to_set skp) i (c :: conns)
                    = c :: keep_unskipped (list_to_set skp) (S i) conns).
    { simpl. rewrite decide_False; [done|]. by rewrite elem_of_list_to_set. }
    exists st', skp. rewrite Hkeep.
    split_and!; try done.
    + simpl. by rewrite Hstep.
    + by rewrite Hskp, Hsk1.
    + eapply Forall_impl; [done|]. simpl. lia.
    + rewrite Hex, Hex1. simpl. by rewrite <-(assoc_L (++)).
    + rewrite Hkeys, Hkeys1. simpl. by rewrite <-(assoc_L (++)).
    + by constructor.
    + simpl. lia.
    + intros [|j] c' Hj; simpl in Hj.
      * injection Hj as <-. rewrite Nat.add_0_r. split; [done|].
        intros [?|[?|(j' & ? & ? & _)]]; [lia|done|lia].
      * replace (i + S j) with (S i + j) by lia.
        rewrite (Hchar j c' Hj). unfold rejected. rewrite Hex1, elem_of_app.
        rewrite list_elem_of_singleton.
        split.
        -- intros [?|[[?|Heq]|(j' & c0 & Hlt & Hj' & Hns & Hid')]];
             [by left|right; by left| |].
           ++ right; right. exists 0, c. split_and!; [lia|done| |].
              ** by rewrite Nat.add_0_r.
              ** symmetry. by apply str_inj.
           ++ right; right. exists (S j'), c0. split_and!; [lia|done| |done].
              by replace (i + S j') with (S i + j') by lia.
        -- intros [?|[?|(j' & c0 & Hlt & Hj' & Hns & Hid')]];
             [by left|right; left; by left|].
           destruct j' as [|j']; simpl in Hj'.
           ++ injection Hj' as <-. right; left; right. by rewrite Hid'.
           ++ right; right. exists j', c0. split_and!; [lia|done| |done].
              by replace (S i + j') with (i + S j') by lia.
    + intros Q HQ Hkept. apply Hlinks.
      * apply Hlinks1; [done|]. apply Hkept. by left.
      * intros c' Hc'. apply Hkept. by right.
Qed.

Lemma alloc_inv_initial (infra : BorderRouter) (files : gmap string string) :
  alloc_inv (initial_alloc infra files).
Proof.
  unfold alloc_inv, userBRs. simpl. split_and!; try constructor.
  intros k Hk. by apply elem_of_nil in Hk.
Qed.

Lemma alloc_loop_facts (config : LocalConfig) (infra : BorderRouter)
    (files : gmap string string) (conns : list Connection) (st : AllocState) :
  alloc_loop config (initial_alloc infra files) 0 conns = Ok st →
  Forall (λ j, j < length conns) (skipped st) ∧
  NoDup (skipped st) ∧
  existing_ifids st
    = ids_of infra ++ (str ∘ APBRID <$> keep_unskipped (list_to_set (skipped st)) 0 conns) ∧
  keys_list (userBRs st)
    ≡ₚ str ∘ APBRID <$> keep_unskipped (list_to_set (skipped st)) 0 conns ∧
  Forall (λ c, (10 < APBRID c)%Z) (keep_unskipped (list_to_set (skipped st)) 0 conns) ∧
  length (keep_unskipped (list_to_set (skipped st)) 0 conns) + length (skipped st)
    = length conns ∧
  alloc_inv st ∧
  (∀ j c, conns !! j = Some c →
     j ∈ skipped st ↔ rejected (ids_of infra) conns (skipped st) 0 j c) ∧
  (∀ Q : string → Prop,
     (∀ c, c ∈ keep_unskipped (list_to_set (skipped st)) 0 conns → Q (ASID c)) →
     Forall (child_links_to Q) (userBRs st)).
Proof.
  intros Hrun.
  destruct (alloc_loop_spec config conns (initial_alloc infra files) 0)
    as (st' & skp & Hrun' & Hskp & Hrange & Hnd & Hex & Hkeys & Hgt & Hlen & Hinv & Hchar
        & Hlinks);
    [apply alloc_inv_initial|].
  rewrite Hrun in Hrun'. injection Hrun' as <-. simpl in Hskp. subst skp.
  split_and!; try done.
  - eapply Forall_impl; [done|]. simpl. lia.
  - intros Q HQ. apply Hlinks; [constructor|done].
Qed.

Lemma alloc_loop_total (config : LocalConfig) (infra : BorderRouter)
    (files : gmap string string) (conns : list Connection) :
  ∃ st, alloc_loop config (initial_alloc infra files) 0 conns = Ok st.
Proof.
  destruct (alloc_loop_spec config conns (initial_alloc infra files) 0)
    as (st' & skp & Hrun' & _); [apply alloc_inv_initial|]. by exists st'.
Qed.

Lemma alloc_step_same (config : LocalConfig) (st1 st2 : AllocState) (i : nat)
    (c : Connection) :
  same_alloc st1 st2 →
  match alloc_step config st1 i c, alloc_step config st2 i c with
  | Ok a, Ok b => same_alloc a b
  | Raise e1, Raise e2 => e1 = e2
  | _, _ => False
  end.
Proof.
  destruct st1 as [ex1 br1 cl1 sk1 fs1], st2 as [ex2 br2 cl2 sk2 fs2].
  intros (E1 & E2 & E3 & E4). simpl in *. subst.
  unfold alloc_step, userBRs. simpl.
  destruct ((APBRID c <=? 10)%Z || bool_decide (str (APBRID c) ∈ ex2)); [done|].
  destruct (needs_new_router br2) as [[|]|e]; simpl; done.
Qed.

Lemma alloc_loop_same (config : LocalConfig) (conns : list Connection)
    (st1 st2 : AllocState) (i : nat) (st1' : AllocState) :
  same_alloc st1 st2 →
  alloc_loop config st1 i conns = Ok st1' →
  ∃ st2', alloc_loop config st2 i conns = Ok st2' ∧ same_alloc st1' st2'.
Proof.
  revert st1 st2 i. induction conns as [|c conns IH]; intros st1 st2 i Hsame; simpl.
  - intros [= <-]. by exists st2.
  - pose proof (alloc_step_same config st1 st2 i c Hsame) as Hstep.
    destruct (alloc_step config st1 i c) as [a|e], (alloc_step config st2 i c) as [b|e'];
      simpl; try done.
    by apply IH.
Qed.

(** The interface ids held by the user routers of the new topology are the
    ids of the connections that the loop did not skip. *)
Lemma user_router_ids (config : LocalConfig) (my_asid : string)
    (infra : BorderRouter) (files : gmap string string) (conns : list Connection)
    (st : AllocState) (k : string) :
  alloc_loop config (initial_alloc infra files) 0 conns = Ok st →
  (∃ name b, install_user_brs my_asid 0 (userBRs st) {[infra_brname my_asid := infra]}
               !! name = Some b ∧
             name ≠ infra_brname my_asid ∧ has_interface b k)
  ↔ k ∈ str ∘ APBRID <$> keep_unskipped (list_to_set (skipped st)) 0 conns.
Proof.
  intros Hl.
  destruct (alloc_loop_facts _ _ _ _ _ Hl) as (_ & _ & _ & Hkeys & _).
  rewrite <-Hkeys. unfold keys_list. rewrite list_elem_of_bind. split.
  - intros (name & b & [[-> _]|(j & Hj & ->)]%lookup_output & Hne & Hk); [done|].
    exists b. split; [done|]. by eapply list_elem_of_lookup_2.
  - intros (b & Hk & [j Hj]%list_elem_of_lookup_1).
    exists (user_brname my_asid j), b. split_and!; [|apply user_brname_not_infra|done].
    apply lookup_output. right. by exists j.
Qed.

End Allocation.

(** ** One reconciliation pass *)

Section Pass.

Variable parse_ISD_AS : string → Z * Z.
Variable os_path_join : string → string → string.

Local Abbreviation pruned_router := (pruned_router parse_ISD_AS).
Local Abbreviation remove_child_interfaces_brs := (remove_child_interfaces_brs parse_ISD_AS).
Local Abbreviation _remove_child_interfaces := (_remove_child_interfaces parse_ISD_AS).
Local Abbreviation names_user_as := (names_user_as parse_ISD_AS).
Local Abbreviation alloc_step := (alloc_step os_path_join).
Local Abbreviation alloc_loop := (alloc_loop os_path_join).
Local Abbreviation reconcile := (reconcile parse_ISD_AS os_path_join).

Local Abbreviation remove_child_interfaces_brs_ok :=
  (remove_child_interfaces_brs_ok parse_ISD_AS).
Local Abbreviation remove_child_interfaces_brs_inv :=
  (remove_child_interfaces_brs_inv parse_ISD_AS).
Local Abbreviation pruned_router_Interfaces := (pruned_router_Interfaces parse_ISD_AS).
Local Abbreviation combine_after_prune := (combine_after_prune parse_ISD_AS).
Local Abbreviation prune_reconciled := (prune_reconciled parse_ISD_AS).
Local Abbreviation alloc_step_accept := (alloc_step_accept os_path_join).
Local Abbreviation alloc_loop_facts := (alloc_loop_facts os_path_join).
Local Abbreviation alloc_loop_total := (alloc_loop_total os_path_join).
Local Abbreviation alloc_loop_same := (alloc_loop_same os_path_join).
Local Abbreviation user_router_ids := (user_router_ids os_path_join).

Lemma reconcile_inv (config : LocalConfig) (my_asid : string) (tp : Topology)
    (status : SyncStatus) (files : gmap string string) (r : Reconciled) :
  reconcile config my_asid tp status files = Ok r →
  ∃ pruned infra st,
    remove_child_interfaces_brs (BorderRouters tp) = Ok pruned ∧
    combine_border_routers_brs pruned (infra_brname my_asid)
      = Ok ({[infra_brname my_asid := infra]}, infra) ∧
    alloc_loop config (initial_alloc infra files) 0 (or_empty (connections status)) = Ok st ∧
    r = {| new_tp := {| BorderRouters :=
                          install_user_brs my_asid 0 (userBRs st)
                            {[infra_brname my_asid := infra]};
                        OtherSections := OtherSections tp |};
           status_after := match connections status with
                           | Some (_ :: _) =>
                               {| connections :=
                                    Some (keep_unskipped (list_to_set (skipped st)) 0
                                            (or_empty (connections status))) |}
                           | _ => status
                           end;
           skipped_set := list_to_set (skipped st);
           topo_changed_now :=
             bool_decide (BorderRouters tp
                          ≠ install_user_brs my_asid 0 (userBRs st)
                              {[infra_brname my_asid := infra]});
           fs_after := fs st |}.
Proof.
  unfold reconcile, _remove_child_interfaces, _combine_border_routers.
  destruct (remove_child_interfaces_brs (BorderRouters tp)) as [pruned|e] eqn:Hp;
    simpl; [|done].
  destruct (combine_border_routers_brs pruned (infra_brname my_asid))
    as [[brs infra]|e] eqn:Hc; simpl; [|done].
  pose proof (combine_border_routers_single _ _ _ _ Hc) as ->.
  fold (ids_of infra). fold (initial_alloc infra files).
  destruct (alloc_loop config _ 0 _) as [st|e] eqn:Hl; simpl; [|done].
  intros [= <-]. by exists pruned, infra, st.
Qed.

Lemma reconcile_intro (config : LocalConfig) (my_asid : string) (tp : Topology)
    (status : SyncStatus) (files : gmap string string)
    (pruned : gmap string BorderRouter) (infra : BorderRouter) (st : AllocState) :
  remove_child_interfaces_brs (BorderRouters tp) = Ok pruned →
  combine_border_routers_brs pruned (infra_brname my_asid)
    = Ok ({[infra_brname my_asid := infra]}, infra) →
  alloc_loop config (initial_alloc infra files) 0 (or_empty (connections status)) = Ok st →
  reconcile config my_asid tp status files
  = Ok {| new_tp := {| BorderRouters :=
                         install_user_brs my_asid 0 (userBRs st)
                           {[infra_brname my_asid := infra]};
                       OtherSections := OtherSections tp |};
          status_after := match connections status with
                          | Some (_ :: _) =>
                              {| connections :=
                                   Some (keep_unskipped (list_to_set (skipped st)) 0
                                           (or_empty (connections status))) |}
                          | _ => status
                          end;
          skipped_set := list_to_set (skipped st);
          topo_changed_now :=
            bool_decide (BorderRouters tp
                         ≠ install_user_brs my_asid 0 (userBRs st)
                             {[infra_brname my_asid := infra]});
          fs_after := fs st |}.
Proof.
  intros Hp Hc Hl.
  unfold reconcile, _remove_child_interfaces, _combine_border_routers.
  rewrite Hp. simpl. rewrite Hc. simpl.
  fold (ids_of infra). fold (initial_alloc infra files). rewrite Hl. done.
Qed.

(** A pass returns on every topology whose routers carry their three keys. *)
Lemma reconcile_total (config : LocalConfig) (my_asid : string) (tp : Topology)
    (status : SyncStatus) (files : gmap string string) :
  map_Forall (λ _ b, well_formed_router b) (BorderRouters tp) →
  ∃ r, reconcile config my_asid tp status files = Ok r.
Proof.
  intros Hwf.
  assert (Hp : remove_child_interfaces_brs (BorderRouters tp)
               = Ok (omap pruned_router (BorderRouters tp))).
  { apply remove_child_interfaces_brs_ok. intros k b Hb. by destruct (Hwf k b Hb) as (_ & _ & ?). }
  destruct (combine_border_routers_total (omap pruned_router (BorderRouters tp))
              (infra_brname my_asid)) as [[brs infra] Hc].
  { intros k b' (b & Hb' & Hb)%lookup_omap_Some.
    apply pruned_router_Interfaces in Hb' as (ifs & _ & _ & ->).
    destruct (Hwf k b Hb) as (? & ? & _). by split_and!. }
  pose proof (combine_border_routers_single _ _ _ _ Hc) as ->.
  destruct (alloc_loop_total config infra files (or_empty (connections status))) as [st Hl].
  eexists. by eapply reconcile_intro.
Qed.

(** C7.  After a pass, the connections left in the status object and the
    skipped ones add up to the connections received; the status object holds
    the connections at the positions outside the skip set, in their order;
    and the interfaces of the user routers of the new topology are those of
    exactly these connections. *)
Theorem ack_payload_is_accepted (config : LocalConfig) (my_asid : string)
    (tp : Topology) (status : SyncStatus) (files : gmap string string) (r : Reconciled) :
  reconcile config my_asid tp status files = Ok r →
  length (default [] (connections (status_after r))) + size (skipped_set r)
    = length (default [] (connections status)) ∧
  default [] (connections (status_after r))
    = omap (λ j, default [] (connections status) !! j)
        (filter (λ j, j ∉ skipped_set r)
           (seq 0 (length (default [] (connections status))))) ∧
  (∀ k, (∃ name b, BorderRouters (new_tp r) !! name = Some b ∧
                   name ≠ infra_brname my_asid ∧ has_interface b k)
        ↔ k ∈ str ∘ APBRID <$> default [] (connections (status_after r))).
Proof.
  intros (pruned & infra & st & _ & _ & Hl & ->)%reconcile_inv. simpl.
  rewrite kept_connections. rewrite or_empty_default in Hl.
  set (conns := default [] (connections status)) in *.
  destruct (alloc_loop_facts _ _ _ _ _ Hl)
    as (Hrange & Hnd & Hex & Hkeys & Hgt & Hlen & Hinv & Hchar & _).
  split_and!.
  - rewrite size_list_to_set by done. done.
  - rewrite keep_unskipped_by_index. apply omap_ext_elem. intros j _.
    by rewrite Nat.sub_0_r.
  - intros k. by apply (user_router_ids config my_asid infra files).
Qed.

(** C6.  A connection that asks for an interface id of 10 or less is never
    accepted: its position goes to the skip set, no user router of the new
    topology has an interface under that id, and the infrastructure router
    of the new topology is the merged router as the merge step left it. *)
Theorem reserved_ids_never_accepted (config : LocalConfig) (my_asid : string)
    (tp : Topology) (status : SyncStatus) (files : gmap string string) (r : Reconciled)
    (j : nat) (c : Connection) :
  reconcile config my_asid tp status files = Ok r →
  default [] (connections status) !! j = Some c →
  (APBRID c ≤ 10)%Z →
  j ∈ skipped_set r ∧
  (str (APBRID c) ∉ str ∘ APBRID <$> default [] (connections (status_after r))) ∧
  (∀ name b, BorderRouters (new_tp r) !! name = Some b →
             name ≠ infra_brname my_asid → ¬ has_interface b (str (APBRID c))) ∧
  (∃ pruned infra,
     remove_child_interfaces_brs (BorderRouters tp) = Ok pruned ∧
     combine_border_routers_brs pruned (infra_brname my_asid)
       = Ok ({[infra_brname my_asid := infra]}, infra) ∧
     BorderRouters (new_tp r) !! infra_brname my_asid = Some infra).
Proof.
  intros Hrun Hj Hid.
  apply reconcile_inv in Hrun as (pruned & infra & st & Hp & Hc & Hl & ->).
  simpl in *. rewrite kept_connections in *. rewrite or_empty_default in Hl.
  set (conns := default [] (connections status)) in *.
  pose proof (λ k, user_router_ids config my_asid infra files conns st k Hl) as Husers.
  destruct (alloc_loop_facts _ _ _ _ _ Hl)
    as (Hrange & Hnd & Hex & Hkeys & Hgt & Hlen & Hinv & Hchar & _).
  assert (Hnot : str (APBRID c)
                 ∉ str ∘ APBRID <$> keep_unskipped (list_to_set (skipped st)) 0 conns).
  { intros (c' & E & Hc')%list_elem_of_fmap. simpl in E. apply str_inj in E.
    rewrite Forall_forall in Hgt. apply Hgt in Hc'. lia. }
  split_and!.
  - apply elem_of_list_to_set, (Hchar j c Hj). by left.
  - done.
  - intros name b Hb Hne Hk. apply Hnot, Husers. by exists name, b.
  - exists pruned, infra. split_and!; [done|done|]. apply lookup_output. by left.
Qed.


(** C4.  In the new topology an interface id belongs to one router only.
    The merge step keeps, for every id, the interface of the first router
    that has it (the target first, then the others by sorted name); and a
    connection whose id is in the merged router, or was requested by an
    earlier connection of the batch that was not skipped, is skipped, the
    merged router going into the new topology as the merge left it. *)
Theorem interface_ids_unique (config : LocalConfig) (my_asid : string)
    (tp : Topology) (status : SyncStatus) (files : gmap string string) (r : Reconciled) :
  reconcile config my_asid tp status files = Ok r →
  (∀ n1 n2 b1 b2 k,
     BorderRouters (new_tp r) !! n1 = Some b1 →
     BorderRouters (new_tp r) !! n2 = Some b2 →
     has_interface b1 k → has_interface b2 k → n1 = n2) ∧
  (∃ pruned infra,
     remove_child_interfaces_brs (BorderRouters tp) = Ok pruned ∧
     combine_border_routers_brs pruned (infra_brname my_asid)
       = Ok ({[infra_brname my_asid := infra]}, infra) ∧
     BorderRouters (new_tp r) !! infra_brname my_asid = Some infra ∧
     (size pruned ≠ 1 →
      ∀ k, default ∅ (Interfaces infra) !! k
           = first_wins k (merged_dicts Interfaces pruned (infra_brname my_asid))) ∧
     (∀ j c, default [] (connections status) !! j = Some c →
        (has_interface infra (str (APBRID c)) ∨
         (∃ j' c', j' < j ∧ default [] (connections status) !! j' = Some c' ∧
                   (j' ∉ skipped_set r) ∧ APBRID c' = APBRID c)) →
        j ∈ skipped_set r)).
Proof.
  intros (pruned & infra & st & Hp & Hc & Hl & ->)%reconcile_inv. simpl.
  rewrite or_empty_default in Hl.
  set (conns := default [] (connections status)) in *.
  destruct (alloc_loop_facts _ _ _ _ _ Hl)
    as (Hrange & Hnd & Hex & Hkeys & Hgt & Hlen & Hinv & Hchar & _).
  assert (Hclash : ∀ j b k, userBRs st !! j = Some b → k ∈ ids_of b → k ∉ ids_of infra).
  { intros j b k Hj Hk Hinfra.
    assert (Hk' : k ∈ keys_list (userBRs st)).
    { apply list_elem_of_bind. exists b. split; [done|]. by eapply list_elem_of_lookup_2. }
    rewrite Hkeys in Hk'. apply list_elem_of_fmap in Hk' as (c & -> & Hc').
    apply elem_of_keep_unskipped in Hc' as (j' & Hj' & Hns). simpl in Hns.
    apply Hns, elem_of_list_to_set, (Hchar j' c Hj'). right. by left. }
  split.
  - intros n1 n2 b1 b2 k
      [[-> ->]|(j1 & Hj1 & ->)]%lookup_output [[-> ->]|(j2 & Hj2 & ->)]%lookup_output H1 H2.
    + done.
    + exfalso. by eapply Hclash.
    + exfalso. by eapply Hclash.
    + f_equal. destruct Hinv as (_ & Hnodup & _).
      by eapply NoDup_keys_list_lookup.
  - exists pruned, infra. split_and!; [done|done|apply lookup_output; by left| |].
    + intros Hsz k.
      apply combine_border_routers_merge in Hc as (_ & ia & ca & ifs & -> & _ & _ & H);
        [|done]. apply H.
    + intros j c Hj Hrej. apply elem_of_list_to_set, (Hchar j c Hj).
      destruct Hrej as [Hin|(j' & c' & Hlt & Hj' & Hns & Hid)]; [right; by left|].
      right; right. exists j', c'. split_and!; [done|done| |done].
      simpl. intros Hin. by apply Hns, elem_of_list_to_set.
Qed.

(** C10.  When the pruning leaves no border router, the merge step puts a
    router with empty InternalAddrs, CtrlAddr and Interfaces under the
    infrastructure name, and the new topology of every pass that returns
    holds that router under that name next to the user routers of the
    accepted connections. *)
Theorem fresh_infrastructure_router_kept (config : LocalConfig) (my_asid : string)
    (tp topo' : Topology) (status : SyncStatus) (files : gmap string string) :
  _remove_child_interfaces tp = Ok topo' →
  BorderRouters topo' = ∅ →
  _combine_border_routers topo' (infra_brname my_asid)
    = Ok ({| BorderRouters := {[infra_brname my_asid := empty_router]};
             OtherSections := OtherSections topo' |}, empty_router) ∧
  ∀ r, reconcile config my_asid tp status files = Ok r →
       BorderRouters (new_tp r) !! infra_brname my_asid = Some empty_router ∧
       (∀ k, k ∈ str ∘ APBRID <$> default [] (connections (status_after r)) →
             ∃ name b, BorderRouters (new_tp r) !! name = Some b ∧
                       name ≠ infra_brname my_asid ∧ has_interface b k).
Proof.
  intros Hp Hempty. unfold _remove_child_interfaces in Hp.
  destruct (remove_child_interfaces_brs (BorderRouters tp)) as [pruned|e] eqn:Hpr;
    simpl in Hp; [|done].
  injection Hp as <-. simpl in Hempty. subst pruned.
  split.
  - unfold _combine_border_routers. simpl. by rewrite combine_border_routers_empty.
  - intros r (pruned & infra & st & Hp' & Hc & Hl & ->)%reconcile_inv.
    rewrite Hpr in Hp'. injection Hp' as <-.
    rewrite combine_border_routers_empty in Hc. injection Hc as _ <-.
    split.
    + simpl. apply lookup_output. by left.
    + simpl. intros k Hk. rewrite kept_connections, <-or_empty_default in Hk.
      by apply (user_router_ids config my_asid _create_border_router files _ st k Hl).
Qed.

(** C8, as amended.  A second pass over the topology that a pass produced,
    with the same status from the coordinator, returns, produces the same
    ["BorderRouters"] and reports no change, provided that no connection
    accepted by the first pass names a remote AS in the infrastructure
    range. *)
Theorem second_pass_changes_nothing (config : LocalConfig) (my_asid : string)
    (tp : Topology) (status : SyncStatus) (files files' : gmap string string)
    (r1 : Reconciled) :
  reconcile config my_asid tp status files = Ok r1 →
  (∀ c, c ∈ default [] (connections (status_after r1)) →
        asid_is_infrastructure ((parse_ISD_AS (ASID c)).2) = false) →
  ∃ r2, reconcile config my_asid (new_tp r1) status files' = Ok r2 ∧
        BorderRouters (new_tp r2) = BorderRouters (new_tp r1) ∧
        topo_changed_now r2 = false.
Proof.
  intros (pruned & infra & st & Hp & Hc & Hl & ->)%reconcile_inv Huser. simpl in *.
  rewrite kept_connections, <-or_empty_default in Huser.
  apply remove_child_interfaces_brs_inv in Hp as [_ ->].
  destruct (combine_after_prune _ _ _ _ Hc) as (ifs & Hifs & Hkeep & Hfresh).
  destruct (alloc_loop_facts _ _ _ _ _ Hl) as (_ & _ & _ & _ & _ & _ & Hinv & _ & Hlinks).
  destruct Hinv as (Hok & _). specialize (Hlinks names_user_as Huser).
  pose proof (prune_reconciled my_asid infra ifs (userBRs st) Hifs Hkeep Hok Hlinks) as Hp2.
  assert (Hc2 : combine_border_routers_brs
                  (if decide (ifs = ∅) then ∅ else {[infra_brname my_asid := infra]})
                  (infra_brname my_asid)
                = Ok ({[infra_brname my_asid := infra]}, infra)).
  { destruct (decide (ifs = ∅)) as [He|_].
    - rewrite (Hfresh He). apply combine_border_routers_empty.
    - apply combine_border_routers_singleton. }
  destruct (alloc_loop_same config (or_empty (connections status))
              (initial_alloc infra files) (initial_alloc infra files') 0 st)
    as (st2 & Hl2 & Hsame); [done|done|].
  destruct Hsame as (_ & Hbr & Hcl & Hsk).
  eexists. split; [|split].
  - eapply reconcile_intro; [exact Hp2|exact Hc2|exact Hl2].
  - simpl. unfold userBRs. by rewrite Hbr, Hcl.
  - simpl. apply bool_decide_eq_false. intros Hne. apply Hne.
    unfold userBRs. by rewrite Hbr, Hcl.
Qed.

End Pass.

(** ** The monitoring remap and the acknowledgment *)

Section OrchestrationProperties.

Variable parse_ISD_AS : string → Z * Z.
Variable os_path_join : string → string → string.
Variable PROM_PORT_OFFSET : Z.
Variable requests_put : MappingsContent → result Response.

Local Abbreviation monitoring_mappings := (monitoring_mappings PROM_PORT_OFFSET).
Local Abbreviation _reset_monitoring :=
  (_reset_monitoring os_path_join PROM_PORT_OFFSET requests_put).
Local Abbreviation fullsync_one :=
  (fullsync_one parse_ISD_AS os_path_join PROM_PORT_OFFSET requests_put).
Local Abbreviation fullsync_items :=
  (fullsync_items parse_ISD_AS os_path_join PROM_PORT_OFFSET requests_put).
Local Abbreviation fullsync_local_gen :=
  (fullsync_local_gen parse_ISD_AS os_path_join PROM_PORT_OFFSET requests_put).

Local Abbreviation marker_path := (marker_path os_path_join).

(** Whatever the endpoint answers, success or not, the marker is removed. *)
Lemma reset_monitoring_on_response (tp : Topology) (config : LocalConfig) (w : World)
    (ms : list (string * Z)) (resp : Response) :
  monitoring_mappings (map_to_list (BorderRouters tp)) = Ok ms →
  requests_put (mappings_content ms) = Ok resp →
  _reset_monitoring tp config w
  = (Ok (ok resp),
     {| files := delete (marker_path config) (files w);
        gen_dir := gen_dir w;
        stdout := stdout w ++ [Sms2Responded (status_code resp)] |}).
Proof.
  intros Hms Hput. unfold _reset_monitoring, mbind, M_bind, open_w_close, lift, try_,
    print, os_remove. simpl.
  rewrite Hms. fold (mappings_content ms). rewrite Hput. simpl.
  fold (marker_path config). rewrite lookup_insert_eq. simpl.
  by rewrite delete_insert_eq.
Qed.

(** When the PUT raises, the marker stays. *)
Lemma reset_monitoring_on_exception (tp : Topology) (config : LocalConfig) (w : World)
    (ms : list (string * Z)) (ex : exn) :
  monitoring_mappings (map_to_list (BorderRouters tp)) = Ok ms →
  requests_put (mappings_content ms) = Raise ex →
  is_Exception ex = true →
  _reset_monitoring tp config w
  = (Ok false,
     {| files := <[marker_path config := ""]> (files w);
        gen_dir := gen_dir w;
        stdout := stdout w ++ [Sms2Exception ex] |}).
Proof.
  intros Hms Hput Hex. unfold _reset_monitoring, mbind, M_bind, open_w_close, lift, try_,
    print, os_remove. simpl.
  rewrite Hms. fold (mappings_content ms). rewrite Hput, Hex. done.
Qed.

(** When [reply_fullsync] raises, the handler prints the failure and the
    next statement reads [response], which was never assigned. *)
Lemma acknowledge_reply_raises (coordinator : CoordinatorServer)
    (ack : gmap string SyncStatus) (timestamp : Z) (w : World) (ex : exn) :
  ack ≠ ∅ →
  reply_fullsync coordinator ack timestamp = Raise ex →
  is_Exception ex = true →
  acknowledge coordinator ack timestamp w
  = (Raise (UnboundLocalError "response"),
     {| files := files w; gen_dir := gen_dir w;
        stdout := stdout w ++ [InfoProcessed true ack; ErrorFailedAck ex] |}).
Proof.
  intros Hne Hreply Hex. unfold acknowledge, mbind, M_bind, print, try_, lift. simpl.
  rewrite decide_True by done. rewrite bool_decide_eq_true_2 by done.
  rewrite Hreply, Hex. simpl. by rewrite <-(assoc_L (++)).
Qed.

Lemma fullsync_one_ack (config : LocalConfig) (remap : bool) (my_asid : string)
    (status : SyncStatus) (acc acc' : gmap string SyncStatus * bool) (w w' : World) :
  fullsync_one config remap my_asid status acc w = (Ok acc', w') → acc'.1 ≠ ∅.
Proof.
  destruct acc as [ack changed]. unfold fullsync_one, mbind, M_bind, mret, M_ret. simpl.
  destruct (load_topology my_asid w) as [[[as_obj tp]|e] w1]; [|done].
  destruct (reconcile _ _ _ _ _ _ _) as [r|e]; [|done].
  destruct (if decide (skipped_set r = ∅) then _ else _) as [[[]|e] w2]; [|done].
  destruct (if topo_changed_now r then _ else _) as [[[]|e] w3]; [|done].
  destruct (if topo_changed_now r || remap then _ else _) as [[[]|e] w4]; [|done].
  intros [= <- _]. simpl. apply insert_non_empty.
Qed.

Lemma fullsync_items_ack (config : LocalConfig) (asid : string) (remap : bool)
    (items : list (string * SyncStatus)) (acc acc' : gmap string SyncStatus * bool)
    (w w' : World) :
  fullsync_items config [asid] remap items acc w = (Ok acc', w') →
  acc.1 ≠ ∅ ∨ (∃ status, (asid, status) ∈ items) →
  acc'.1 ≠ ∅.
Proof.
  revert acc w. induction items as [|[my_asid status] items IH]; intros acc w; simpl.
  - intros [= <- _] [?|(? & ?%elem_of_nil)]; done.
  - unfold mbind, M_bind. destruct (decide (my_asid ∈ [asid])) as [Hin|Hnot].
    + destruct (fullsync_one config remap my_asid status acc w) as [[acc1|e] w1] eqn:Hone;
        [|done].
      intros Hrest _. eapply IH; [done|]. left. by eapply fullsync_one_ack.
    + simpl. intros Hrest Hacc. eapply IH; [done|].
      destruct Hacc as [?|(st & Hst)]; [by left|]. right.
      apply elem_of_cons in Hst as [[= <- <-]|Hst]; [|by exists st].
      exfalso. apply Hnot. by left.
Qed.

(** A run whose fetch returns a status for the AS never returns when the
    acknowledgment raises: it ends in [UnboundLocalError] or in an earlier
    exception. *)
Lemma fullsync_never_returns_when_ack_raises (config : LocalConfig)
    (coordinator : CoordinatorServer) (asid : string) (timestamp : Z)
    (fullsynced : gmap string SyncStatus) (status : SyncStatus) (w : World) :
  request_fullsync coordinator asid timestamp = Ok fullsynced →
  fullsynced !! asid = Some status →
  (∀ ack, ∃ ex, reply_fullsync coordinator ack timestamp = Raise ex ∧
                is_Exception ex = true) →
  ∀ verdict w', fullsync_local_gen config coordinator asid timestamp w ≠ (Ok verdict, w').
Proof.
  intros Hreq Hstatus Hreply verdict w'.
  unfold fullsync_local_gen, mbind, M_bind, lift, print, os_path_exists. simpl.
  rewrite Hreq. simpl.
  destruct (fullsync_items _ _ _ _ _ _) as [[[ack changed]|e] w1] eqn:Hitems; [|done].
  apply fullsync_items_ack in Hitems.
  2:{ right. exists status. by apply elem_of_map_to_list. }
  destruct (Hreply ack) as (ex & Hex & His).
  rewrite (acknowledge_reply_raises coordinator ack timestamp w1 ex); done.
Qed.

End OrchestrationProperties.

(** ** The model on the sample instances *)

(** Nothing configured and one connection with id 20: one user router with
    one interface next to the empty infrastructure router, nothing skipped,
    a change. *)
Example one_connection_on_empty_topology :
  ∃ r, sample_reconcile empty_topology [sample_conn 20 "17-ffaa:1:2"] = Ok r ∧
       (λ nb, (nb.1, ids_of nb.2)) <$> map_to_list (BorderRouters (new_tp r))
       = [("br17-ffaa_0_1107-11", ["20"]); ("br17-ffaa_0_1107-1", [])] ∧
       skipped_set r = ∅ ∧ topo_changed_now r = true.
Proof. eexists. split; [vm_compute; reflexivity|]. vm_compute. done. Qed.

(** Thirteen connections with fresh ids: two user routers, twelve interfaces
    in the first and one in the second. *)
Example thirteen_connections_two_routers :
  sample_reconcile empty_topology thirteen_connections = Ok thirteen_result ∧
  (λ nb, (nb.1, length (ids_of nb.2))) <$> map_to_list (BorderRouters (new_tp thirteen_result))
  = [("br17-ffaa_0_1107-11", 12); ("br17-ffaa_0_1107-12", 1); ("br17-ffaa_0_1107-1", 0)].
Proof. split; vm_compute; reflexivity. Qed.

(** Two legacy routers and a batch with a reserved id, a present id and a
    repeated id: the routers are merged under the infrastructure name, id 1
    keeps the interface of the first router by name, the stale child link 30
    is gone, and the connections at positions 0, 2 and 3 are skipped. *)
Example legacy_routers_merged :
  sample_reconcile legacy_topology mixed_connections = Ok legacy_result ∧
  (λ nb, (nb.1, ids_of nb.2)) <$> map_to_list (BorderRouters (new_tp legacy_result))
  = [("br17-ffaa_0_1107-11", ["21"; "20"]); ("br17-ffaa_0_1107-1", ["1"; "2"])] ∧
  (b ← BorderRouters (new_tp legacy_result) !! "br17-ffaa_0_1107-1";
   ifaces ← Interfaces b; ifaces !! "1")
  = Some (sample_iface "17-ffaa:0:1101" "PARENT") ∧
  elements (skipped_set legacy_result) = [2; 3; 0] ∧
  APBRID <$> default [] (connections (status_after legacy_result)) = [20; 21]%Z.
Proof. split_and!; vm_compute; reflexivity. Qed.

(** C3, counterexample.  0xffaa00000000 lies in the half-open range but is
    not classified as infrastructure, and a CHILD link to that AS is pruned. *)
Lemma infrastructure_lower_bound_excluded :
  ¬ (asid_is_infrastructure 0xffaa00000000 = true
     ↔ (0xffaa00000000 ≤ 0xffaa00000000 < 0xffaa00010000)%Z) ∧
  surviving_interfaces sample_ISD_AS {[ "30" := sample_iface "17-ffaa:0:0" "CHILD" ]} = ∅.
Proof.
  split.
  - intros [_ H]. assert (asid_is_infrastructure 0xffaa00000000 = true) as E by (apply H; lia).
    vm_compute in E. discriminate.
  - vm_compute. reflexivity.
Qed.

(** C1, at a failing input.  The gen directory holds [infra_topology], the
    coordinator serves one fresh connection, the monitoring endpoint answers
    200 and the acknowledgment cannot be sent: the new topology is written,
    the failure is printed, and the call raises [UnboundLocalError] instead
    of returning its verdict. *)
Theorem ack_failure_raises_unbound_local :
  let run := fullsync_local_gen sample_ISD_AS sample_join sample_PROM_PORT_OFFSET endpoint_ok
               sample_config coordinator_ack_unreachable sample_asid 1700000000
               sample_world in
  run.1 = Raise (UnboundLocalError "response") ∧
  ErrorFailedAck (ConnectionError "connection refused") ∈ stdout run.2 ∧
  snd <$> gen_dir run.2 !! sample_asid
  = Some (new_tp (returned no_result
                    (sample_reconcile infra_topology [sample_conn 20 "17-ffaa:1:2"]))) ∧
  snd <$> gen_dir run.2 !! sample_asid ≠ Some infra_topology.
Proof.
  split_and!.
  - vm_compute. reflexivity.
  - apply (bool_decide_unpack _). vm_compute. exact I.
  - vm_compute. reflexivity.
  - apply (bool_decide_unpack _). vm_compute. exact I.
Qed.

(** C2, at a failing input.  The endpoint answers 500: the remap has not
    succeeded ([updated] is false) and the marker file is gone. *)
Theorem marker_removed_after_http_error :
  let run := _reset_monitoring sample_join sample_PROM_PORT_OFFSET endpoint_error
               infra_topology sample_config sample_world in
  run.1 = Ok false ∧
  files run.2 !! marker_path sample_join sample_config = None ∧
  stdout run.2 = [Sms2Responded 500].
Proof. vm_compute. done. Qed.

(** The endpoint is unreachable: the marker file stays, and it goes when the
    endpoint answers 200. *)
Example marker_left_when_endpoint_unreachable :
  let run := _reset_monitoring sample_join sample_PROM_PORT_OFFSET endpoint_unreachable
               infra_topology sample_config sample_world in
  run.1 = Ok false ∧
  files run.2 !! marker_path sample_join sample_config = Some "" ∧
  stdout run.2 = [Sms2Exception (ConnectionError "connection refused")].
Proof. vm_compute. done. Qed.

Example marker_removed_on_success :
  let run := _reset_monitoring sample_join sample_PROM_PORT_OFFSET endpoint_ok
               infra_topology sample_config sample_world in
  run.1 = Ok true ∧
  files run.2 !! marker_path sample_join sample_config = None.
Proof. vm_compute. done. Qed.

(** C8, counterexample.  The attachment point has its infrastructure router
    (a parent link under id 1) and the coordinator asks for one connection,
    with id 20, to an AS of the infrastructure range.  The first pass puts it
    in a user router; the second pass over that result, with the same
    connection, does not prune it, merges it into the infrastructure router,
    skips the connection and reports a change. *)
Lemma second_pass_reports_change :
  sample_reconcile infra_topology infra_as_connection = Ok infra_as_result ∧
  (λ nb, (nb.1, ids_of nb.2)) <$> map_to_list (BorderRouters (new_tp infra_as_result))
  = [("br17-ffaa_0_1107-11", ["20"]); ("br17-ffaa_0_1107-1", ["1"])] ∧
  ∃ r2, sample_reconcile (new_tp infra_as_result) infra_as_connection = Ok r2 ∧
        topo_changed_now r2 = true ∧
        BorderRouters (new_tp r2) ≠ BorderRouters (new_tp infra_as_result) ∧
        (λ nb, (nb.1, ids_of nb.2)) <$> map_to_list (BorderRouters (new_tp r2))
        = [("br17-ffaa_0_1107-1", ["1"; "20"])] ∧
        skipped_set r2 = {[0]}.
Proof.
  split; [vm_compute; reflexivity|]. split; [vm_compute; reflexivity|].
  eexists. split; [vm_compute; reflexivity|].
  split_and!.
  - vm_compute. reflexivity.
  - apply (bool_decide_unpack _). vm_compute. exact I.
  - vm_compute. reflexivity.
  - vm_compute. reflexivity.
Qed.

Lemma interface_ids_unique_witness :
  sample_reconcile legacy_topology mixed_connections = Ok legacy_result ∧
  ∀ n1 n2 b1 b2 k,
    BorderRouters (new_tp legacy_result) !! n1 = Some b1 →
    BorderRouters (new_tp legacy_result) !! n2 = Some b2 →
    has_interface b1 k → has_interface b2 k → n1 = n2.
Proof.
  assert (H1 : sample_reconcile legacy_topology mixed_connections = Ok legacy_result)
    by (vm_compute; reflexivity).
  split; [exact H1|].
  pose proof (interface_ids_unique sample_ISD_AS sample_join sample_config sample_asid
                legacy_topology (status_of mixed_connections) ∅ legacy_result) as H.
  specialize (H H1). exact (proj1 H).
Defined.


Lemma reserved_ids_never_accepted_witness :
  sample_reconcile legacy_topology mixed_connections = Ok legacy_result ∧
  default [] (connections (status_of mixed_connections)) !! 0 = Some (sample_conn 5 "17-ffaa:1:1") ∧
  (APBRID (sample_conn 5 "17-ffaa:1:1") ≤ 10)%Z ∧
  0 ∈ skipped_set legacy_result.
Proof.
  assert (H1 : sample_reconcile legacy_topology mixed_connections = Ok legacy_result)
    by (vm_compute; reflexivity).
  assert (H3 : (APBRID (sample_conn 5 "17-ffaa:1:1") ≤ 10)%Z) by (vm_compute; discriminate).
  split; [exact H1|]. split; [reflexivity|]. split; [exact H3|].
  pose proof (reserved_ids_never_accepted sample_ISD_AS sample_join sample_config sample_asid
                legacy_topology (status_of mixed_connections) ∅ legacy_result 0
                (sample_conn 5 "17-ffaa:1:1")) as H.
  specialize (H H1). specialize (H eq_refl). specialize (H H3). exact (proj1 H).
Defined.

Lemma ack_payload_is_accepted_witness :
  sample_reconcile legacy_topology mixed_connections = Ok legacy_result ∧
  length (default [] (connections (status_after legacy_result)))
  + size (skipped_set legacy_result)
  = length (default [] (connections (status_of mixed_connections))).
Proof.
  assert (H1 : sample_reconcile legacy_topology mixed_connections = Ok legacy_result)
    by (vm_compute; reflexivity).
  split; [exact H1|].
  pose proof (ack_payload_is_accepted sample_ISD_AS sample_join sample_config sample_asid
                legacy_topology (status_of mixed_connections) ∅ legacy_result) as H.
  specialize (H H1). exact (proj1 H).
Defined.

Lemma second_pass_changes_nothing_witness :
  sample_reconcile legacy_topology mixed_connections = Ok legacy_result ∧
  (∀ c, c ∈ default [] (connections (status_after legacy_result)) →
        asid_is_infrastructure ((sample_ISD_AS (ASID c)).2) = false) ∧
  ∃ r2, sample_reconcile (new_tp legacy_result) mixed_connections = Ok r2 ∧
        BorderRouters (new_tp r2) = BorderRouters (new_tp legacy_result) ∧
        topo_changed_now r2 = false.
Proof.
  assert (H1 : sample_reconcile legacy_topology mixed_connections = Ok legacy_result)
    by (vm_compute; reflexivity).
  assert (H2 : ∀ c, c ∈ default [] (connections (status_after legacy_result)) →
                    asid_is_infrastructure ((sample_ISD_AS (ASID c)).2) = false).
  { apply Forall_forall. apply (bool_decide_unpack _). vm_compute. exact I. }
  split; [exact H1|]. split; [exact H2|].
  pose proof (second_pass_changes_nothing sample_ISD_AS sample_join sample_config sample_asid
                legacy_topology (status_of mixed_connections) ∅ ∅ legacy_result) as H.
  specialize (H H1). specialize (H H2). exact H.
Defined.

Lemma fresh_infrastructure_router_kept_witness :
  _remove_child_interfaces sample_ISD_AS stale_topology = Ok empty_topology ∧
  BorderRouters empty_topology = ∅ ∧
  _combine_border_routers empty_topology (infra_brname sample_asid)
  = Ok ({| BorderRouters := {[infra_brname sample_asid := empty_router]};
           OtherSections := OtherSections empty_topology |}, empty_router) ∧
  sample_reconcile stale_topology thirteen_connections = Ok stale_result ∧
  BorderRouters (new_tp stale_result) !! infra_brname sample_asid = Some empty_router.
Proof.
  assert (H1 : _remove_child_interfaces sample_ISD_AS stale_topology = Ok empty_topology)
    by (vm_compute; reflexivity).
  assert (H2 : sample_reconcile stale_topology thirteen_connections = Ok stale_result)
    by (vm_compute; reflexivity).
  split; [exact H1|]. split; [reflexivity|].
  pose proof (fresh_infrastructure_router_kept sample_ISD_AS sample_join sample_config
                sample_asid stale_topology empty_topology (status_of thirteen_connections)
                ∅) as H.
  specialize (H H1). specialize (H eq_refl).
  split; [exact (proj1 H)|]. split; [exact H2|].
  exact (proj1 (proj2 H stale_result H2)).
Defined.

(** * Further properties *)

(** ** Routers built from connections *)

Lemma router_for_snoc (config : LocalConfig) (conns : list Connection) (c : Connection) :
  router_for config (conns ++ [c]) = insert_connection config (router_for config conns) c.
Proof. unfold router_for. by rewrite foldl_snoc. Qed.

Lemma ifaces_of_snoc (config : LocalConfig) (conns : list Connection) (c : Connection) :
  ifaces_of config (conns ++ [c])
  = <[str (APBRID c) := interface_for config c]> (ifaces_of config conns).
Proof. unfold ifaces_of. by rewrite foldl_snoc. Qed.

Lemma router_for_Interfaces (config : LocalConfig) (conns : list Connection) :
  Interfaces (router_for config conns) = Some (ifaces_of config conns).
Proof.
  induction conns as [|c conns IH] using rev_ind; [done|].
  rewrite router_for_snoc, ifaces_of_snoc. unfold insert_connection, _insert_interface.
  simpl. by rewrite IH.
Qed.

Lemma lookup_ifaces_of_None (config : LocalConfig) (conns : list Connection) (k : string) :
  k ∉ str ∘ APBRID <$> conns → ifaces_of config conns !! k = None.
Proof.
  induction conns as [|c conns IH] using rev_ind; [done|].
  rewrite fmap_app, elem_of_app, ifaces_of_snoc. simpl. intros Hk.
  rewrite lookup_insert_ne; [apply IH; tauto|].
  intros <-. apply Hk. right. by left.
Qed.

Lemma size_ifaces_of (config : LocalConfig) (conns : list Connection) :
  NoDup (str ∘ APBRID <$> conns) → size (ifaces_of config conns) = length conns.
Proof.
  induction conns as [|c conns IH] using rev_ind; [done|].
  rewrite fmap_app. intros (Hnd & Hdisj & _)%NoDup_app.
  rewrite ifaces_of_snoc, length_app. simpl.
  rewrite map_size_insert_None; [rewrite IH by done; lia|].
  apply lookup_ifaces_of_None. intros Hin. apply (Hdisj _ Hin). by left.
Qed.

(** With distinct ids, each connection of the list finds its interface
    under its id. *)
Lemma lookup_ifaces_of (config : LocalConfig) (conns : list Connection) (c : Connection) :
  NoDup (str ∘ APBRID <$> conns) → c ∈ conns →
  ifaces_of config conns !! str (APBRID c) = Some (interface_for config c).
Proof.
  induction conns as [|c0 conns IH] using rev_ind; [by intros _ ?%elem_of_nil|].
  rewrite fmap_app. intros (Hnd & Hdisj & _)%NoDup_app [Hc|Hc%list_elem_of_singleton]%elem_of_app.
  - rewrite ifaces_of_snoc, lookup_insert_ne; [by apply IH|].
    intros E. apply (Hdisj (str (APBRID c))).
    + apply list_elem_of_fmap. by exists c.
    + simpl. rewrite <-E. by left.
  - subst. by rewrite ifaces_of_snoc, lookup_insert_eq.
Qed.

(** The addresses of a router are those of the first insertion. *)
Lemma router_for_addrs (config : LocalConfig) (c : Connection) (conns : list Connection) :
  InternalAddrs (router_for config (c :: conns))
  = Some {[ "IPv4" := {| ia_PublicOverlay :=
                           {| Addr := internal_ip config;
                              OverlayPort := BR_INTERNAL_START_PORT + 1000 - 1 + APBRID c |} |} ]}
  ∧ CtrlAddr (router_for config (c :: conns))
    = Some {[ "IPv4" := {| Public :=
                             {| ctrl_Addr := internal_ip config;
                                L4Port := BR_INTERNAL_START_PORT - 1 + APBRID c |} |} ]}.
Proof.
  induction conns as [|c' conns IH] using rev_ind.
  - unfold router_for, insert_connection, _insert_interface, setdefault. simpl.
    rewrite !lookup_empty. by rewrite !insert_empty.
  - rewrite app_comm_cons, router_for_snoc. destruct IH as [IH1 IH2].
    unfold insert_connection, _insert_interface. simpl. rewrite IH1, IH2. simpl.
    unfold setdefault. by rewrite !lookup_singleton_eq.
Qed.

(** ** Chunks *)

Lemma chunks_fuel_nil {A} (fuel n : nat) : chunks_fuel fuel n ([] : list A) = [].
Proof. by destruct fuel. Qed.

Lemma chunks_fuel_groups {A} (n : nat) (full : list (list A)) (partial : list A) (fuel : nat) :
  0 < n →
  Forall (λ g, length g = n) full →
  0 < length partial ≤ n →
  length (concat full ++ partial) ≤ fuel →
  chunks_fuel fuel n (concat full ++ partial) = full ++ [partial].
Proof.
  intros Hn Hfull Hpartial. revert fuel.
  induction Hfull as [|g full Hg Hfull IH]; intros fuel Hfuel; simpl in *.
  - destruct fuel as [|fuel]; [lia|]. destruct partial as [|x partial]; [simpl in *; lia|].
    simpl. rewrite firstn_all2 by (simpl in *; lia).
    rewrite skipn_all2 by (simpl in *; lia). by rewrite chunks_fuel_nil.
  - rewrite !length_app in Hfuel. destruct fuel as [|fuel]; [lia|].
    destruct g as [|x g]; [simpl in *; lia|].
    change (chunks_fuel (S fuel) n (((x :: g) ++ concat full) ++ partial))
      with (take n (((x :: g) ++ concat full) ++ partial)
            :: chunks_fuel fuel n (drop n (((x :: g) ++ concat full) ++ partial))).
    rewrite <-(assoc_L (++)).
    rewrite take_app_length' by done. rewrite drop_app_length' by done.
    rewrite IH; [done|]. rewrite length_app. simpl in *. lia.
Qed.

(** A list that splits into groups of exactly [n] followed by a shorter,
    non-empty rest is chunked into exactly these groups. *)
Lemma chunks_groups {A} (n : nat) (full : list (list A)) (partial : list A) :
  0 < n →
  Forall (λ g, length g = n) full →
  length partial ≤ n →
  (partial = [] → full = []) →
  chunks n (concat full ++ partial)
  = full ++ match partial with [] => [] | _ => [partial] end.
Proof.
  intros Hn Hfull Hlen Hempty. unfold chunks.
  destruct partial as [|x partial].
  - rewrite (Hempty eq_refl). done.
  - apply chunks_fuel_groups; [done|done|simpl in *; lia|done].
Qed.

(** ** The loop builds the routers of the chunks *)

Lemma keep_unskipped_skip_head (skp : list nat) (i : nat) (c : Connection)
    (conns : list Connection) :
  Forall (λ j, S i ≤ j) skp →
  keep_unskipped (list_to_set (i :: skp)) i (c :: conns)
  = keep_unskipped (list_to_set skp) (S i) conns.
Proof.
  intros Hrange. simpl.
  rewrite decide_True by (apply elem_of_union; left; by apply elem_of_singleton).
  apply keep_unskipped_ext. intros j Hj. rewrite elem_of_union, elem_of_singleton.
  split; [intros [->|?]; [lia|done]|by right].
Qed.

Lemma keep_unskipped_keep_head (skp : list nat) (i : nat) (c : Connection)
    (conns : list Connection) :
  Forall (λ j, S i ≤ j) skp →
  keep_unskipped (list_to_set skp) i (c :: conns)
  = c :: keep_unskipped (list_to_set skp) (S i) conns.
Proof.
  intros Hrange. simpl. rewrite decide_False; [done|].
  rewrite elem_of_list_to_set. intros Hi. rewrite Forall_forall in Hrange.
  apply Hrange in Hi. lia.
Qed.

Section AllocationStructure.

Variable os_path_join : string → string → string.

Local Abbreviation alloc_step := (alloc_step os_path_join).
Local Abbreviation alloc_loop := (alloc_loop os_path_join).
Local Abbreviation vpn_files := (vpn_files os_path_join).

Lemma grouped_partial_size (config : LocalConfig) (full : list (list Connection))
    (partial : list Connection) :
  NoDup (str ∘ APBRID <$> concat full ++ partial) →
  size (default ∅ (Interfaces (router_for config partial))) = length partial.
Proof.
  rewrite fmap_app. intros (_ & _ & Hnd)%NoDup_app.
  rewrite router_for_Interfaces. simpl. by apply size_ifaces_of.
Qed.

Lemma grouped_accept (config : LocalConfig) (st st1 : AllocState) (i : nat)
    (c : Connection) (acc : list Connection) :
  Forall user_router_ok (userBRs st) →
  grouped config acc st →
  (10 < APBRID c)%Z → str (APBRID c) ∉ existing_ifids st →
  alloc_step config st i c = Ok st1 →
  grouped config (acc ++ [c]) st1 ∧
  fs st1 = vpn_files config [c] (fs st).
Proof.
  intros Hok (full & partial & Hacc & Hfull & Hlen & Hempty & Hclosed & Hbr & Hnd & Hin)
    Hid Hnew Hstep.
  destruct (alloc_step_accept os_path_join config st i c Hid Hnew Hok)
    as (prefix & old & Hcase & Hstep').
  rewrite Hstep in Hstep'. injection Hstep' as ->. simpl. split; [|done].
  assert (Hnd' : NoDup (str ∘ APBRID <$> acc ++ [c])).
  { rewrite fmap_app. apply NoDup_app. split; [done|]. split; [|apply NoDup_singleton].
    intros k (c' & Hk & Hc')%list_elem_of_fmap Hk'%list_elem_of_singleton.
    apply Hnew. replace (str (APBRID c)) with (str (APBRID c')); [by apply Hin|].
    exact (eq_trans (eq_sym Hk) Hk'). }
  assert (Hin' : ∀ c', c' ∈ acc ++ [c] →
                       str (APBRID c') ∈ existing_ifids st ++ [str (APBRID c)]).
  { intros c' [?|Hc']%elem_of_app; apply elem_of_app; [left; by apply Hin|].
    apply list_elem_of_singleton in Hc'. subst c'. right. by left. }
  pose proof (grouped_partial_size config full partial) as Hsize.
  rewrite <-Hacc in Hsize. specialize (Hsize Hnd).
  destruct Hcase as [(-> & -> & Hwhy)|(Huser & Hold & Hlt)].
  - (* a new router *)
    destruct partial as [|p partial].
    + rewrite (Hempty eq_refl) in *. simpl in *.
      exists [], [c]. unfold userBRs. rewrite Hclosed, Hbr. simpl.
      split_and!; try done.
      * by rewrite Hacc.
      * unfold MAX_IFACES_IN_BR. lia.
    + destruct Hwhy as [Hnone|(b & Hb & Hbfull)]; [by rewrite Hbr in Hnone|].
      rewrite Hbr in Hb. injection Hb as <-. rewrite Hsize in Hbfull.
      exists (full ++ [p :: partial]), [c]. unfold userBRs. rewrite Hclosed, Hbr. simpl.
      split_and!; try done.
      * rewrite Hacc, concat_app. simpl. by rewrite (right_id_L [] (++)).
      * apply Forall_app. split; [done|]. apply Forall_singleton. lia.
      * unfold MAX_IFACES_IN_BR. lia.
      * by rewrite fmap_app.
  - (* the open router *)
    destruct partial as [|p partial]; [by rewrite Hbr in Hold|].
    rewrite Hbr in Hold. injection Hold as <-. rewrite Hsize in Hlt.
    assert (prefix = userBRs_closed st) as ->.
    { unfold userBRs in Huser. rewrite Hbr in Huser. simpl in Huser.
      by apply app_inj_tail in Huser as [-> _]. }
    exists full, ((p :: partial) ++ [c]).
    split_and!; try done.
    + rewrite Hacc. by rewrite (assoc_L (++)).
    + rewrite length_app. simpl in *. lia.
    + by rewrite router_for_snoc.
Qed.

Lemma grouped_skip (config : LocalConfig) (st : AllocState) (i : nat)
    (acc : list Connection) :
  grouped config acc st →
  grouped config acc
    {| existing_ifids := existing_ifids st; br := br st;
       userBRs_closed := userBRs_closed st;
       skipped := skipped st ++ [i]; fs := fs st |}.
Proof. intros (full & partial & H). by exists full, partial. Qed.

Lemma vpn_files_app (config : LocalConfig) (l1 l2 : list Connection)
    (files : gmap string string) :
  vpn_files config (l1 ++ l2) files = vpn_files config l2 (vpn_files config l1 files).
Proof. unfold vpn_files. apply foldl_app. Qed.

Lemma alloc_loop_grouped (config : LocalConfig) (conns : list Connection)
    (st : AllocState) (i : nat) (acc : list Connection) :
  alloc_inv st → grouped config acc st →
  ∃ st' skp,
    alloc_loop config st i conns = Ok st' ∧
    skipped st' = skipped st ++ skp ∧
    Forall (λ j, i ≤ j < i + length conns) skp ∧
    grouped config (acc ++ keep_unskipped (list_to_set skp) i conns) st' ∧
    fs st' = vpn_files config (keep_unskipped (list_to_set skp) i conns) (fs st).
Proof.
  revert st i acc. induction conns as [|c conns IH]; intros st i acc Hinv Hgr.
  { exists st, []. simpl. rewrite !(right_id_L [] (++)). split_and!; done. }
  destruct (decide ((APBRID c ≤ 10)%Z ∨ str (APBRID c) ∈ existing_ifids st)) as [Hrej|Hacc].
  - pose proof (alloc_step_skip os_path_join config st i c Hrej) as Hstep.
    pose proof (grouped_skip config st i acc Hgr) as Hgr1.
    set (st1 := {| existing_ifids := existing_ifids st; br := br st;
                   userBRs_closed := userBRs_closed st;
                   skipped := skipped st ++ [i]; fs := fs st |}) in *.
    destruct (IH st1 (S i) acc Hinv Hgr1)
      as (st' & skp & Hrun & Hskp & Hrange & Hgr' & Hfs).
    assert (Hge : Forall (λ j, S i ≤ j) skp) by (eapply Forall_impl; [done|]; simpl; lia).
    exists st', (i :: skp). rewrite keep_unskipped_skip_head by done.
    split_and!; try done.
    + simpl. by rewrite Hstep.
    + rewrite Hskp. simpl. by rewrite <-(assoc_L (++)).
    + constructor; [simpl; lia|]. eapply Forall_impl; [exact Hrange|]. simpl. lia.
  - assert (Hid : (10 < APBRID c)%Z) by (apply Z.nle_gt; intros ?; apply Hacc; by left).
    assert (Hnew : str (APBRID c) ∉ existing_ifids st) by (intros ?; apply Hacc; by right).
    destruct (alloc_step_accept_inv os_path_join config st i c Hid Hnew Hinv)
      as (st1 & Hstep & _ & Hsk1 & _ & Hinv1 & _).
    destruct Hinv as (Hok & _).
    destruct (grouped_accept config st st1 i c acc Hok Hgr Hid Hnew Hstep) as [Hgr1 Hfs1].
    destruct (IH st1 (S i) (acc ++ [c]) Hinv1 Hgr1)
      as (st' & skp & Hrun & Hskp & Hrange & Hgr' & Hfs).
    assert (Hge : Forall (λ j, S i ≤ j) skp) by (eapply Forall_impl; [done|]; simpl; lia).
    exists st', skp. rewrite keep_unskipped_keep_head by done.
    split_and!; try done.
    + simpl. by rewrite Hstep.
    + by rewrite Hskp, Hsk1.
    + eapply Forall_impl; [exact Hrange|]. simpl. lia.
    + by rewrite <-(assoc_L (++)) in Hgr'.
    + rewrite Hfs, Hfs1. symmetry. apply (vpn_files_app config [c]).
Qed.

(** The loop from its initial state: the user routers are the routers of
    the chunks of the connections it keeps, and the files are those of the
    VPN connections among them. *)
Lemma alloc_loop_chunks (config : LocalConfig) (infra : BorderRouter)
    (files : gmap string string) (conns : list Connection) (st : AllocState) :
  alloc_loop config (initial_alloc infra files) 0 conns = Ok st →
  userBRs st
  = router_for config
    <$> chunks MAX_IFACES_IN_BR (keep_unskipped (list_to_set (skipped st)) 0 conns) ∧
  NoDup (str ∘ APBRID <$> keep_unskipped (list_to_set (skipped st)) 0 conns) ∧
  fs st = vpn_files config (keep_unskipped (list_to_set (skipped st)) 0 conns) files.
Proof.
  intros Hrun.
  destruct (alloc_loop_grouped config conns (initial_alloc infra files) 0 [])
    as (st' & skp & Hrun' & Hskp & _ & Hgr & Hfs).
  { apply alloc_inv_initial. }
  { exists [], []. simpl. split_and!; try done; [lia|constructor|by intros ? ?%elem_of_nil]. }
  rewrite Hrun in Hrun'. injection Hrun' as <-. simpl in Hskp, Hgr, Hfs. subst skp.
  destruct Hgr as (full & partial & Hacc & Hfull & Hlen & Hempty & Hclosed & Hbr & Hnd & _).
  split_and!; [|done|done].
  rewrite Hacc, chunks_groups by (done || (unfold MAX_IFACES_IN_BR; lia)).
  unfold userBRs. rewrite Hclosed, Hbr, fmap_app. by destruct partial.
Qed.

End AllocationStructure.

(** ** Chunks, by position *)

Lemma chunks_fuel_lookup {A} (n fuel : nat) (l : list A) (j : nat) :
  0 < n → length l ≤ fuel →
  chunks_fuel fuel n l !! j
  = if decide (j * n < length l) then Some (take n (drop (j * n) l)) else None.
Proof.
  intros Hn. revert l j. induction fuel as [|fuel IH]; intros l j Hfuel.
  - destruct l; [|simpl in *; lia]. case_decide; [simpl in *; lia|done].
  - destruct l as [|x l].
    { case_decide; [simpl in *; lia|done]. }
    change (chunks_fuel (S fuel) n (x :: l))
      with (take n (x :: l) :: chunks_fuel fuel n (drop n (x :: l))).
    destruct j as [|j].
    + case_decide; [done|simpl in *; lia].
    + rewrite lookup_cons. rewrite IH by (rewrite length_drop; simpl in *; lia).
      rewrite length_drop, drop_drop.
      replace (n + j * n) with (S j * n) by lia.
      destruct (decide (j * n < length (x :: l) - n)), (decide (S j * n < length (x :: l)));
        (done || lia).
Qed.

Lemma chunks_lookup {A} (n : nat) (l : list A) (j : nat) :
  0 < n →
  chunks n l !! j
  = if decide (j * n < length l) then Some (take n (drop (j * n) l)) else None.
Proof. intros Hn. by apply chunks_fuel_lookup. Qed.

Lemma chunks_length {A} (n : nat) (l : list A) :
  0 < n → length (chunks n l) = (length l + n - 1) / n.
Proof.
  intros Hn.
  assert (Hiff : ∀ j, j < length (chunks n l) ↔ j < (length l + n - 1) / n).
  { intros j. rewrite <-lookup_lt_is_Some, chunks_lookup by done.
    assert (Hdiv : j < (length l + n - 1) / n ↔ j * n < length l).
    { split; intros H.
      - assert (n * S j ≤ length l + n - 1); [|lia].
        etrans; [|apply (Nat.Div0.mul_div_le _ n)]. apply Nat.mul_le_mono_l. lia.
      - apply Nat.div_le_lower_bound; lia. }
    rewrite Hdiv. case_decide; split; (done || by intros [? ?] || by eexists). }
  pose proof (Hiff (length (chunks n l))) as H1.
  pose proof (Hiff ((length l + n - 1) / n)) as H2. lia.
Qed.

(** ** The routers of the new topology, by name *)

Lemma lookup_user_router (my_asid : string) (routers : list BorderRouter)
    (infra : BorderRouter) (j : nat) :
  install_user_brs my_asid 0 routers {[infra_brname my_asid := infra]}
    !! user_brname my_asid j
  = routers !! j.
Proof.
  destruct (routers !! j) as [b|] eqn:Hj.
  - by apply (install_user_brs_lookup_user my_asid routers 0 j).
  - apply lookup_ge_None in Hj.
    rewrite install_user_brs_lookup_other.
    + apply lookup_singleton_ne. intros E. symmetry in E. by eapply user_brname_not_infra.
    + intros j' Hj' E%user_brname_inj. simpl in E. lia.
Qed.

Lemma size_install_user_brs (my_asid : string) (routers : list BorderRouter) (i : nat)
    (brs : gmap string BorderRouter) :
  (∀ j, i ≤ j → brs !! user_brname my_asid j = None) →
  size (install_user_brs my_asid i routers brs) = size brs + length routers.
Proof.
  revert i brs. induction routers as [|b routers IH]; intros i brs Hfree; simpl; [lia|].
  rewrite (IH (S i)).
  - rewrite map_size_insert_None by (apply Hfree; lia). lia.
  - intros j Hj. rewrite lookup_insert_ne; [apply Hfree; lia|].
    intros E%user_brname_inj. lia.
Qed.




Section PassStructure.

Variable parse_ISD_AS : string → Z * Z.
Variable os_path_join : string → string → string.

Local Abbreviation is_prunable_child := (is_prunable_child parse_ISD_AS).
Local Abbreviation pruned_router := (pruned_router parse_ISD_AS).
Local Abbreviation surviving_interfaces := (surviving_interfaces parse_ISD_AS).
Local Abbreviation remove_child_interfaces_brs := (remove_child_interfaces_brs parse_ISD_AS).
Local Abbreviation reconcile := (reconcile parse_ISD_AS os_path_join).
Local Abbreviation vpn_files := (vpn_files os_path_join).
Local Abbreviation _ccd_user := (_ccd_user os_path_join).

(** What a pass leaves: the merged infrastructure router under its name,
    the routers of the chunks of the accepted connections after it, and the
    files of the accepted VPN connections. *)
Lemma reconcile_structure (config : LocalConfig) (my_asid : string) (tp : Topology)
    (status : SyncStatus) (files : gmap string string) (r : Reconciled) :
  reconcile config my_asid tp status files = Ok r →
  ∃ pruned infra,
    remove_child_interfaces_brs (BorderRouters tp) = Ok pruned ∧
    combine_border_routers_brs pruned (infra_brname my_asid)
      = Ok ({[infra_brname my_asid := infra]}, infra) ∧
    BorderRouters (new_tp r)
    = install_user_brs my_asid 0
        (router_for config
           <$> chunks MAX_IFACES_IN_BR (default [] (connections (status_after r))))
        {[infra_brname my_asid := infra]} ∧
    NoDup (str ∘ APBRID <$> default [] (connections (status_after r))) ∧
    fs_after r = vpn_files config (default [] (connections (status_after r))) files.
Proof.
  intros (pruned & infra & st & Hp & Hc & Hl & ->)%(reconcile_inv parse_ISD_AS os_path_join).
  simpl. rewrite kept_connections. rewrite or_empty_default in Hl.
  apply alloc_loop_chunks in Hl as (Huser & Hnd & Hfs).
  exists pruned, infra. by rewrite Huser.
Qed.

(** X1.  After a pass the accepted connections sit in the user routers in
    the order received, twelve to a router: the router named
    [br<asid>-<j+11>] exists exactly when more than [12 j] connections were
    accepted, and it is the router obtained by inserting the accepted
    connections number [12 j] to [12 j + 11], in this order, into a new
    router. *)
Theorem user_routers_take_twelve_each (config : LocalConfig) (my_asid : string)
    (tp : Topology) (status : SyncStatus) (files : gmap string string) (r : Reconciled) :
  reconcile config my_asid tp status files = Ok r →
  ∀ j,
    BorderRouters (new_tp r) !! user_brname my_asid j
    = if decide (j * MAX_IFACES_IN_BR < length (default [] (connections (status_after r))))
      then Some (router_for config
                   (take MAX_IFACES_IN_BR
                      (drop (j * MAX_IFACES_IN_BR)
                         (default [] (connections (status_after r))))))
      else None.
Proof.
  intros (pruned & infra & _ & _ & -> & _ & _)%reconcile_structure j.
  rewrite lookup_user_router, list_lookup_fmap.
  rewrite chunks_lookup by (unfold MAX_IFACES_IN_BR; lia).
  by case_decide.
Qed.

(** The number of routers that a pass leaves. *)
Lemma pass_router_count (config : LocalConfig) (my_asid : string)
    (tp : Topology) (status : SyncStatus) (files : gmap string string) (r : Reconciled) :
  reconcile config my_asid tp status files = Ok r →
  size (BorderRouters (new_tp r))
  = 1 + (length (default [] (connections (status_after r))) + 11) / 12.
Proof.
  intros (pruned & infra & _ & _ & -> & _ & _)%reconcile_structure.
  rewrite size_install_user_brs.
  - rewrite map_size_singleton, length_fmap.
    rewrite chunks_length by (unfold MAX_IFACES_IN_BR; lia).
    unfold MAX_IFACES_IN_BR. f_equal. f_equal. lia.
  - intros j _. apply lookup_singleton_ne. intros E. symmetry in E.
    by eapply user_brname_not_infra.
Qed.

(** X2.  The new topology has one router more than the accepted connections
    need at twelve to a router: [1 + ceil(accepted / 12)] routers. *)
Theorem router_count_after_pass (config : LocalConfig) (my_asid : string)
    (tp : Topology) (status : SyncStatus) (files : gmap string string) (r : Reconciled) :
  reconcile config my_asid tp status files = Ok r →
  size (BorderRouters (new_tp r))
  = 1 + (length (default [] (connections (status_after r))) + 11) / 12.
Proof. apply pass_router_count. Qed.

Lemma group_of_position (kept : list Connection) (p : nat) (c : Connection) :
  kept !! p = Some c →
  c ∈ take MAX_IFACES_IN_BR (drop (p / MAX_IFACES_IN_BR * MAX_IFACES_IN_BR) kept).
Proof.
  intros Hp. apply (list_elem_of_lookup_2 _ (p mod MAX_IFACES_IN_BR)).
  assert (Hmod : p mod MAX_IFACES_IN_BR < MAX_IFACES_IN_BR)
    by (apply Nat.mod_upper_bound; unfold MAX_IFACES_IN_BR; lia).
  rewrite lookup_take_lt by done. rewrite lookup_drop.
  replace (p / MAX_IFACES_IN_BR * MAX_IFACES_IN_BR + p mod MAX_IFACES_IN_BR) with p; [done|].
  rewrite (Nat.div_mod_eq p MAX_IFACES_IN_BR) at 1. lia.
Qed.

(** X3.  The accepted connection number [p] has its interface in the user
    router number [p / 12], under the text of its id: a child link to the
    user AS with the bandwidth and MTU of the module, the user's address as
    remote end, and as local end the port of the connection on the VPN
    address for a VPN connection, on the interface address otherwise. *)
Theorem accepted_connection_interface (config : LocalConfig) (my_asid : string)
    (tp : Topology) (status : SyncStatus) (files : gmap string string) (r : Reconciled)
    (p : nat) (c : Connection) :
  reconcile config my_asid tp status files = Ok r →
  default [] (connections (status_after r)) !! p = Some c →
  ∃ b ifaces,
    BorderRouters (new_tp r) !! user_brname my_asid (p / 12) = Some b ∧
    Interfaces b = Some ifaces ∧
    ifaces !! str (APBRID c)
    = Some {| Overlay := "UDP/IPv4"; ISD_AS := ASID c; LinkTo := "CHILD";
              Bandwidth := 1000; if_MTU := 1472;
              RemoteOverlay := {| Addr := UserIP c; OverlayPort := UserPort c |};
              PublicOverlay :=
                {| Addr := if IsVPN c then "10.0.8.1" else interface_ip config;
                   OverlayPort := APPort c |} |}.
Proof.
  intros (pruned & infra & _ & _ & Hbrs & Hnd & _)%reconcile_structure Hp.
  set (kept := default [] (connections (status_after r))) in *.
  set (group := take MAX_IFACES_IN_BR (drop (p / MAX_IFACES_IN_BR * MAX_IFACES_IN_BR) kept)).
  exists (router_for config group), (ifaces_of config group).
  split_and!.
  - rewrite Hbrs, lookup_user_router, list_lookup_fmap.
    rewrite chunks_lookup by (unfold MAX_IFACES_IN_BR; lia).
    change 12 with MAX_IFACES_IN_BR.
    apply lookup_lt_Some in Hp.
    assert (p / MAX_IFACES_IN_BR * MAX_IFACES_IN_BR ≤ p).
    { rewrite (Nat.div_mod_eq p MAX_IFACES_IN_BR) at 2. lia. }
    rewrite decide_True by lia. done.
  - apply router_for_Interfaces.
  - apply (lookup_ifaces_of config group c); [|by apply group_of_position].
    unfold group. rewrite fmap_take, fmap_drop.
    eapply sublist_NoDup; [exact Hnd|].
    etrans; [apply sublist_take|apply sublist_drop].
Qed.

(** The addresses of the user router number [j] after a pass. *)
Lemma pass_user_router_addresses (config : LocalConfig) (my_asid : string)
    (tp : Topology) (status : SyncStatus) (files : gmap string string) (r : Reconciled)
    (j : nat) (c : Connection) :
  reconcile config my_asid tp status files = Ok r →
  default [] (connections (status_after r)) !! (j * 12) = Some c →
  ∃ b,
    BorderRouters (new_tp r) !! user_brname my_asid j = Some b ∧
    CtrlAddr b
    = Some {[ "IPv4" := {| Public := {| ctrl_Addr := internal_ip config;
                                        L4Port := 30049 + APBRID c |} |} ]} ∧
    InternalAddrs b
    = Some {[ "IPv4" := {| ia_PublicOverlay := {| Addr := internal_ip config;
                                                  OverlayPort := 31049 + APBRID c |} |} ]}.
Proof.
  intros (pruned & infra & _ & _ & Hbrs & _ & _)%reconcile_structure Hc.
  set (kept := default [] (connections (status_after r))) in *.
  pose proof (lookup_lt_Some _ _ _ Hc) as Hlt.
  apply list_elem_of_split_length in Hc as (l1 & l2 & Hkept & Hlen).
  assert (Hdrop : drop (j * MAX_IFACES_IN_BR) kept = c :: l2).
  { rewrite Hkept. change MAX_IFACES_IN_BR with 12. rewrite Hlen.
    by rewrite drop_app_length. }
  exists (router_for config (c :: take 11 l2)). split.
  - rewrite Hbrs, lookup_user_router, list_lookup_fmap.
    rewrite chunks_lookup by (unfold MAX_IFACES_IN_BR; lia).
    rewrite decide_True by (unfold MAX_IFACES_IN_BR; lia). by rewrite Hdrop.
  - destruct (router_for_addrs config c (take 11 l2)) as [-> ->].
    unfold BR_INTERNAL_START_PORT. split; do 5 f_equal; lia.
Qed.

(** X4.  The addresses of a user router come from the first connection put
    into it: its control address is the internal address on port
    [30049 + id] and its internal address the same address on port
    [31049 + id], where [id] is the interface id of the accepted connection
    number [12 j]; the connections that follow in the router leave them. *)
Theorem user_router_addresses (config : LocalConfig) (my_asid : string)
    (tp : Topology) (status : SyncStatus) (files : gmap string string) (r : Reconciled)
    (j : nat) (c : Connection) :
  reconcile config my_asid tp status files = Ok r →
  default [] (connections (status_after r)) !! (j * 12) = Some c →
  ∃ b,
    BorderRouters (new_tp r) !! user_brname my_asid j = Some b ∧
    CtrlAddr b
    = Some {[ "IPv4" := {| Public := {| ctrl_Addr := internal_ip config;
                                        L4Port := 30049 + APBRID c |} |} ]} ∧
    InternalAddrs b
    = Some {[ "IPv4" := {| ia_PublicOverlay := {| Addr := internal_ip config;
                                                  OverlayPort := 31049 + APBRID c |} |} ]}.
Proof. apply pass_user_router_addresses. Qed.


End PassStructure.

(** ** The infrastructure router of the new topology *)

Lemma first_wins_is_Some {A} (k : string) (dicts : list (gmap string A))
    (d : gmap string A) :
  d ∈ dicts → is_Some (d !! k) → is_Some (first_wins k dicts).
Proof.
  intros Hd [v Hv]. destruct (first_wins k dicts) as [x|] eqn:E; [by eexists|].
  rewrite (first_wins_None k dicts d E Hd) in Hv. done.
Qed.

Section InfrastructureLinks.

Variable parse_ISD_AS : string → Z * Z.
Variable os_path_join : string → string → string.

Local Abbreviation is_prunable_child := (is_prunable_child parse_ISD_AS).
Local Abbreviation pruned_router := (pruned_router parse_ISD_AS).
Local Abbreviation surviving_interfaces := (surviving_interfaces parse_ISD_AS).
Local Abbreviation remove_child_interfaces_brs := (remove_child_interfaces_brs parse_ISD_AS).
Local Abbreviation reconcile := (reconcile parse_ISD_AS os_path_join).

(** A router of the topology survives the pruning with the interfaces that
    are not prunable. *)
Lemma lookup_pruned (brs : gmap string BorderRouter) (name : string) (b' : BorderRouter)
    (k : string) (v : Interface) :
  omap pruned_router brs !! name = Some b' →
  default ∅ (Interfaces b') !! k = Some v →
  is_prunable_child v = false ∧
  ∃ b ifs0, brs !! name = Some b ∧ Interfaces b = Some ifs0 ∧ ifs0 !! k = Some v.
Proof.
  intros (b & Hb' & Hb)%lookup_omap_Some Hk.
  apply (pruned_router_Interfaces parse_ISD_AS) in Hb' as (ifs0 & Hifs0 & _ & ->).
  simpl in Hk. unfold surviving_interfaces in Hk.
  apply map_lookup_filter_Some in Hk as [Hk Hkeep]. split; [done|]. by exists b, ifs0.
Qed.

Lemma lookup_pruned_keeps (brs : gmap string BorderRouter) (name : string)
    (b : BorderRouter) (ifs0 : gmap string Interface) (k : string) (v : Interface) :
  brs !! name = Some b → Interfaces b = Some ifs0 → ifs0 !! k = Some v →
  is_prunable_child v = false →
  ∃ b', omap pruned_router brs !! name = Some b' ∧
        default ∅ (Interfaces b') !! k = Some v.
Proof.
  intros Hb Hifs0 Hk Hkeep.
  assert (Hsurv : surviving_interfaces ifs0 !! k = Some v).
  { unfold surviving_interfaces. by apply map_lookup_filter_Some. }
  exists {| InternalAddrs := InternalAddrs b; CtrlAddr := CtrlAddr b;
            Interfaces := Some (surviving_interfaces ifs0) |}.
  split; [|done]. rewrite lookup_omap, Hb. simpl.
  unfold pruned_router. rewrite Hifs0. simpl.
  rewrite decide_False; [done|]. intros E. rewrite E in Hsurv. by rewrite lookup_empty in Hsurv.
Qed.

Lemma infrastructure_links (brs0 brs' : gmap string BorderRouter) (brname : string)
    (infra : BorderRouter) :
  combine_border_routers_brs (omap pruned_router brs0) brname = Ok (brs', infra) →
  ∃ ifs, Interfaces infra = Some ifs ∧
    (∀ k v, ifs !! k = Some v →
       is_prunable_child v = false ∧
       ∃ name b ifs0, brs0 !! name = Some b ∧ Interfaces b = Some ifs0 ∧
                      ifs0 !! k = Some v) ∧
    (∀ name b ifs0 k v,
       brs0 !! name = Some b → Interfaces b = Some ifs0 → ifs0 !! k = Some v →
       is_prunable_child v = false → is_Some (ifs !! k)).
Proof.
  set (pruned := omap pruned_router brs0). intros Hc.
  destruct (decide (size pruned = 1)) as [Hsz|Hsz].
  - destruct (combine_border_routers_rename pruned brname Hsz) as (f & b' & E & Hc').
    rewrite Hc' in Hc. injection Hc as <- <-.
    assert (Hb' : pruned !! f = Some b') by (rewrite E; apply lookup_singleton_eq).
    pose proof Hb' as Hb. unfold pruned in Hb. apply lookup_omap_Some in Hb as (b0 & Hb & _).
    apply (pruned_router_Interfaces parse_ISD_AS) in Hb as (ifs0 & _ & _ & Hshape).
    exists (surviving_interfaces ifs0). split; [by rewrite Hshape|]. split.
    + intros k v Hk.
      destruct (lookup_pruned brs0 f b' k v) as (? & b & ifs1 & ? & ? & ?);
        [done|by rewrite Hshape|].
      split; [done|]. by exists f, b, ifs1.
    + intros name b ifs1 k v Hname Hifs1 Hk Hkeep.
      destruct (lookup_pruned_keeps brs0 name b ifs1 k v) as (b1 & Hb1 & Hk1); try done.
      fold pruned in Hb1. rewrite E in Hb1.
      apply lookup_singleton_Some in Hb1 as [_ <-].
      rewrite Hshape in Hk1. simpl in Hk1. by eexists.
  - apply combine_border_routers_merge in Hc as (_ & ia & ca & ifs & -> & _ & _ & Hifs);
      [|done].
    exists ifs. split; [done|]. split.
    + intros k v Hk. rewrite Hifs in Hk.
      apply first_wins_Some in Hk as (d & Hd & Hk).
      assert (∃ n, d = default ∅ (Interfaces (router_of pruned n))) as [n ->].
      { unfold merged_dicts in Hd. apply elem_of_cons in Hd as [->|Hd]; [by eexists|].
        apply list_elem_of_fmap in Hd as (n & -> & _). by eexists. }
      unfold router_of in Hk.
      destruct (pruned !! n) as [b'|] eqn:Hn; simpl in Hk; [|by rewrite lookup_empty in Hk].
      destruct (lookup_pruned brs0 n b' k v Hn Hk) as (? & b & ifs0 & ? & ? & ?).
      split; [done|]. by exists n, b, ifs0.
    + intros name b ifs1 k v Hname Hifs1 Hk Hkeep.
      destruct (lookup_pruned_keeps brs0 name b ifs1 k v) as (b1 & Hb1 & Hk1); try done.
      fold pruned in Hb1. rewrite Hifs.
      apply (first_wins_is_Some k _ (default ∅ (Interfaces (router_of pruned name)))).
      * unfold merged_dicts. destruct (decide (name = brname)) as [->|Hne]; [by left|].
        right. apply list_elem_of_fmap. exists name. split; [done|].
        apply elem_of_merge_order. split; [by eexists|done].
      * unfold router_of. rewrite Hb1. simpl. by eexists.
Qed.

(** X6.  The infrastructure links after a pass.  Every interface of the
    infrastructure router of the new topology is an interface that a router
    of the old topology had under the same id, and it is not a child link to
    a user AS.  Every id under which a router of the old topology had an
    interface that is not such a link is an id of the infrastructure router.
    And the link itself is there under its id whenever the routers of the
    old topology that have such an interface under that id all have the
    same one; where they differ, the merge keeps one of them. *)
Theorem infrastructure_links_carried_over (config : LocalConfig) (my_asid : string)
    (tp : Topology) (status : SyncStatus) (files : gmap string string) (r : Reconciled) :
  reconcile config my_asid tp status files = Ok r →
  ∃ infra ifs,
    BorderRouters (new_tp r) !! infra_brname my_asid = Some infra ∧
    Interfaces infra = Some ifs ∧
    (∀ k v, ifs !! k = Some v →
       is_prunable_child v = false ∧
       ∃ name b ifs0, BorderRouters tp !! name = Some b ∧ Interfaces b = Some ifs0 ∧
                      ifs0 !! k = Some v) ∧
    (∀ name b ifs0 k v,
       BorderRouters tp !! name = Some b → Interfaces b = Some ifs0 → ifs0 !! k = Some v →
       is_prunable_child v = false → is_Some (ifs !! k)) ∧
    (∀ name b ifs0 k v,
       BorderRouters tp !! name = Some b → Interfaces b = Some ifs0 → ifs0 !! k = Some v →
       is_prunable_child v = false →
       (∀ name' b' ifs' v',
          BorderRouters tp !! name' = Some b' → Interfaces b' = Some ifs' →
          ifs' !! k = Some v' → is_prunable_child v' = false → v' = v) →
       ifs !! k = Some v).
Proof.
  intros (pruned & infra & st & Hp & Hc & _ & ->)%(reconcile_inv parse_ISD_AS os_path_join).
  apply (remove_child_interfaces_brs_inv parse_ISD_AS) in Hp as [_ ->].
  apply infrastructure_links in Hc as (ifs & Hifs & Hfrom & Hto).
  exists infra, ifs. simpl. split_and!; try done.
  - apply lookup_output. by left.
  - intros name b ifs0 k v Hb Hifs0 Hk Hkeep Hsame.
    destruct (Hto name b ifs0 k v Hb Hifs0 Hk Hkeep) as [v' Hv'].
    destruct (Hfrom k v' Hv') as (Hkeep' & name' & b' & ifs' & Hb' & Hifs' & Hk').
    by rewrite Hv', (Hsame name' b' ifs' v' Hb' Hifs' Hk' Hkeep').
Qed.

End InfrastructureLinks.

(** ** What the pruning and the merge return, and when they raise *)

Section PruneOutcome.

Variable parse_ISD_AS : string → Z * Z.

Local Abbreviation is_prunable_child := (is_prunable_child parse_ISD_AS).
Local Abbreviation pruned_router := (pruned_router parse_ISD_AS).
Local Abbreviation surviving_interfaces := (surviving_interfaces parse_ISD_AS).
Local Abbreviation remove_child_interfaces_of := (remove_child_interfaces_of parse_ISD_AS).
Local Abbreviation remove_child_interfaces_brs := (remove_child_interfaces_brs parse_ISD_AS).
Local Abbreviation _remove_child_interfaces := (_remove_child_interfaces parse_ISD_AS).

Lemma remove_child_interfaces_brs_raise_fold (all seen : gmap string BorderRouter)
    (e : exn) :
  seen ⊆ all →
  map_fold (λ brname (_ : BorderRouter) acc,
      live ← acc;
      br ← getitem brname (live !! brname);
      ifaces ← getitem "Interfaces" (Interfaces br);
      ifaces' ← remove_child_interfaces_of ifaces;
      let br' := {| InternalAddrs := InternalAddrs br;
                    CtrlAddr := CtrlAddr br;
                    Interfaces := Some ifaces' |} in
      if decide (ifaces' = ∅)
      then Ok (delete brname live)
      else Ok (<[brname := br']> live))
    (Ok all) seen = Raise e →
  e = KeyError "Interfaces".
Proof.
  induction seen as [|i x seen Hi Hfst IH] using map_first_key_ind; intros Hsub.
  - by rewrite map_fold_empty.
  - rewrite map_fold_insert_first_key by done.
    assert (Hx : all !! i = Some x).
    { eapply lookup_weaken; [|done]. apply lookup_insert_eq. }
    assert (Hsub' : seen ⊆ all) by (etrans; [by apply insert_subseteq|done]).
    destruct (remove_child_interfaces_brs_fold parse_ISD_AS all seen Hsub')
      as [[_ Hok]|[_ [e' Hraise]]].
    + cbv zeta in Hok. cbv zeta. rewrite Hok. simpl. rewrite map_lookup_imap, Hx. simpl. rewrite Hi. simpl.
      destruct (Interfaces x) as [ifaces|]; simpl; [|by intros [= <-]].
      rewrite (remove_child_interfaces_of_spec parse_ISD_AS). simpl.
      by destruct (decide (surviving_interfaces ifaces = ∅)).
    + cbv zeta in Hraise, IH. cbv zeta. specialize (IH Hsub').
      rewrite Hraise in IH |- *. simpl. intros [= <-]. by apply IH.
Qed.

(** X7.  What [_remove_child_interfaces] does to a topology.  When a router
    lacks its ['Interfaces'] key the call raises [KeyError('Interfaces')].
    Otherwise it returns, the other sections of the topology are as before,
    and the routers of the result are those routers of the topology that
    have an interface other than a child link to a user AS, under their old
    names, with their addresses, and with exactly these interfaces. *)
Theorem remove_child_interfaces_outcome (topo : Topology) :
  (¬ has_Interfaces (BorderRouters topo) ∧
   _remove_child_interfaces topo = Raise (KeyError "Interfaces"))
  ∨ (has_Interfaces (BorderRouters topo) ∧
     ∃ brs', _remove_child_interfaces topo
             = Ok {| BorderRouters := brs'; OtherSections := OtherSections topo |} ∧
       ∀ name b',
         brs' !! name = Some b'
         ↔ ∃ b ifaces,
             BorderRouters topo !! name = Some b ∧ Interfaces b = Some ifaces ∧
             filter (λ kv, is_prunable_child kv.2 = false) ifaces ≠ ∅ ∧
             b' = {| InternalAddrs := InternalAddrs b; CtrlAddr := CtrlAddr b;
                     Interfaces :=
                       Some (filter (λ kv, is_prunable_child kv.2 = false) ifaces) |}).
Proof.
  unfold _remove_child_interfaces.
  destruct (remove_child_interfaces_brs_cases parse_ISD_AS (BorderRouters topo))
    as [[Hhas Hok]|[Hnot [e Hraise]]].
  - right. split; [done|]. exists (omap pruned_router (BorderRouters topo)).
    rewrite Hok. split; [done|]. intros name b'. rewrite lookup_omap_Some. split.
    + intros (b & Hb' & Hb).
      apply (pruned_router_Interfaces parse_ISD_AS) in Hb' as (ifaces & ? & ? & ?).
      by exists b, ifaces.
    + intros (b & ifaces & Hb & Hifaces & Hne & ->). exists b. split; [|done].
      unfold pruned_router. rewrite Hifaces. simpl.
      unfold surviving_interfaces. by rewrite decide_False.
  - left. split; [done|].
    assert (e = KeyError "Interfaces") as ->.
    { eapply (remove_child_interfaces_brs_raise_fold (BorderRouters topo)); [done|].
      exact Hraise. }
    by rewrite Hraise.
Qed.

End PruneOutcome.

Lemma merge_routers_raise (names : list string) (st : MergeState) :
  NoDup names →
  (∀ n, n ∈ names → is_Some (live_brs st !! n)) →
  (∃ n b, n ∈ names ∧ live_brs st !! n = Some b ∧ ¬ well_formed_router b) →
  ∃ k, k ∈ ["InternalAddrs"; "CtrlAddr"; "Interfaces"] ∧
       merge_routers st names = Raise (KeyError k).
Proof.
  revert st. induction names as [|n names IH]; intros st Hnd Hlive (n' & b' & Hn' & Hb' & Hbad).
  { by apply elem_of_nil in Hn'. }
  apply NoDup_cons in Hnd as [Hn Hnd].
  destruct (Hlive n) as [b Hb]; [by left|].
  simpl. unfold merge_router. rewrite Hb. simpl.
  destruct (InternalAddrs b) as [si|] eqn:Hsi; simpl;
    [|exists "InternalAddrs"; split; [repeat constructor|done]].
  destruct (CtrlAddr b) as [sc|] eqn:Hsc; simpl;
    [|exists "CtrlAddr"; split; [repeat constructor|done]].
  destruct (Interfaces b) as [sf|] eqn:Hsf; simpl;
    [|exists "Interfaces"; split; [repeat constructor|done]].
  assert (Hne : n' ≠ n).
  { intros ->. rewrite Hb in Hb'. injection Hb' as <-. apply Hbad.
    unfold well_formed_router. rewrite Hsi, Hsc, Hsf. by split_and!. }
  apply elem_of_cons in Hn' as [?|Hn']; [done|].
  apply IH; [done| |].
  - intros m Hm. simpl. rewrite lookup_delete_ne by (by intros ->). apply Hlive. by right.
  - exists n', b'. simpl. by rewrite lookup_delete_ne by done.
Qed.

(** X8.  When [_combine_border_routers] returns and when it raises.  It
    returns when the topology has exactly one router, whatever the name and
    the keys of that router, and when each router other than the target has
    its three keys (the target may lack them, or be absent); the topology
    then holds one router, the returned one, under the given name, and its
    other sections are as before.  In the remaining case, with none or
    several routers of which one other than the target lacks a key, it
    raises [KeyError] for one of the three keys. *)
Theorem combine_border_routers_outcome (topo : Topology) (brname : string) :
  ((size (BorderRouters topo) = 1 ∨
    ∀ n b, BorderRouters topo !! n = Some b → n ≠ brname → well_formed_router b) ∧
   ∃ br, _combine_border_routers topo brname
         = Ok ({| BorderRouters := {[brname := br]};
                  OtherSections := OtherSections topo |}, br))
  ∨ (size (BorderRouters topo) ≠ 1 ∧
     (∃ n b, BorderRouters topo !! n = Some b ∧ n ≠ brname ∧ ¬ well_formed_router b) ∧
     ∃ k, k ∈ ["InternalAddrs"; "CtrlAddr"; "Interfaces"] ∧
          _combine_border_routers topo brname = Raise (KeyError k)).
Proof.
  unfold _combine_border_routers.
  destruct (decide (size (BorderRouters topo) = 1)) as [Hsz|Hsz].
  { left. split; [by left|].
    destruct (combine_border_routers_rename (BorderRouters topo) brname Hsz)
      as (first & br & E & ->).
    by exists br. }
  assert (Hdec : ∀ b, Decision (well_formed_router b)).
  { intros b. unfold well_formed_router. apply _. }
  destruct (decide (map_Forall (λ n b, n ≠ brname → well_formed_router b)
                      (BorderRouters topo))) as [Hwf|Hbad].
  - left. split; [by right|].
    destruct (combine_border_routers_brs (BorderRouters topo) brname)
      as [[brs' br']|e] eqn:Hc.
    + pose proof (combine_border_routers_single _ _ _ _ Hc) as ->. by exists br'.
    + exfalso. revert Hc. unfold combine_border_routers_brs. rewrite decide_False by done.
      fold (merge_order (BorderRouters topo) brname).
      edestruct (merge_routers_ok (merge_order (BorderRouters topo) brname)) as [st' ->];
        [apply NoDup_merge_order| |done].
      intros n [[b Hb] Hne]%elem_of_merge_order. simpl.
      destruct (Hwf n b Hb Hne) as ([si ?] & [sc ?] & [sf ?]).
      exists b, si, sc, sf. rewrite lookup_setdefault, decide_False by done. done.
  - right. split; [done|].
    apply map_not_Forall in Hbad; [|apply _].
    destruct Hbad as (n & b & Hb & Hnot).
    assert (Hne : n ≠ brname) by (intros ->; by apply Hnot).
    assert (Hnwf : ¬ well_formed_router b) by (intros ?; by apply Hnot).
    split; [by exists n, b|].
    unfold combine_border_routers_brs. rewrite decide_False by done.
    fold (merge_order (BorderRouters topo) brname).
    edestruct (merge_routers_raise (merge_order (BorderRouters topo) brname))
      as (k & Hk & ->); [apply NoDup_merge_order| | |by exists k].
    + intros m [[bm Hbm] Hm]%elem_of_merge_order. simpl.
      rewrite lookup_setdefault, decide_False by done. by eexists.
    + exists n, b. simpl. split_and!; [|by rewrite lookup_setdefault, decide_False|done].
      apply elem_of_merge_order. split; [by eexists|done].
Qed.

(** X9.  Merging is a one-time step: on the topology that
    [_combine_border_routers] has returned, a second call with the same
    name returns the same topology and the same router. *)
Theorem combine_border_routers_idempotent (topo topo' : Topology) (brname : string)
    (br : BorderRouter) :
  _combine_border_routers topo brname = Ok (topo', br) →
  _combine_border_routers topo' brname = Ok (topo', br).
Proof.
  unfold _combine_border_routers.
  destruct (combine_border_routers_brs (BorderRouters topo) brname)
    as [[brs' br']|e] eqn:Hc; simpl; [|done].
  intros [= <- <-]. simpl.
  apply combine_border_routers_single in Hc as ->.
  by rewrite combine_border_routers_singleton.
Qed.

(** ** Which entry the merge keeps *)

Lemma ascii_compare_trans (a b c : ascii) :
  Ascii.compare a b ≠ Gt → Ascii.compare b c ≠ Gt →
  Ascii.compare a c ≠ Gt ∧
  (Ascii.compare a c = Eq → Ascii.compare a b = Eq ∧ Ascii.compare b c = Eq).
Proof.
  unfold Ascii.compare.
  destruct (N.compare_spec (N_of_ascii a) (N_of_ascii b)),
           (N.compare_spec (N_of_ascii b) (N_of_ascii c)),
           (N.compare_spec (N_of_ascii a) (N_of_ascii c)); intros; split; (done || lia).
Qed.

Lemma str_le_trans : Transitive str_le.
Proof.
  unfold str_le, String.leb. intros s1. induction s1 as [|a s1 IH]; intros s2 s3.
  - by destruct s2, s3.
  - destruct s2 as [|b s2]; [done|]. destruct s3 as [|c s3]; [by destruct s2|].
    simpl. intros H12 H23.
    destruct (ascii_compare_trans a b c) as [Hac Heq].
    { by destruct (Ascii.compare a b). }
    { by destruct (Ascii.compare b c). }
    destruct (Ascii.compare a c) eqn:E; [|done|done].
    destruct (Heq eq_refl) as [Hab Hbc]. rewrite Hab in H12. rewrite Hbc in H23.
    by apply (IH s2 s3).
Qed.

Lemma first_wins_app_None {A} (k : string) (l1 l2 : list (gmap string A)) :
  (∀ d, d ∈ l1 → d !! k = None) →
  first_wins k (l1 ++ l2) = first_wins k l2.
Proof.
  induction l1 as [|d l1 IH]; intros Hnone; [done|].
  simpl. rewrite (Hnone d) by by left. apply IH. intros d' Hd'. apply Hnone. by right.
Qed.

Lemma first_wins_winner {A} (field : BorderRouter → option (gmap string A))
    (brs : gmap string BorderRouter) (brname k n : string) :
  merge_winner field brs brname k n →
  first_wins k (merged_dicts field brs brname)
  = default ∅ (field (router_of brs n)) !! k.
Proof.
  intros [[v Hv] [->|(Hn & Htarget & Hbefore)]]; unfold merged_dicts; simpl.
  - by rewrite Hv.
  - rewrite Htarget.
    destruct (decide (n = brname)) as [->|Hne]; [congruence|].
    assert (Hin : n ∈ merge_order brs brname) by by apply elem_of_merge_order.
    apply list_elem_of_split in Hin as (l1 & l2 & Hsplit).
    pose proof (NoDup_merge_order brs brname) as Hnd.
    assert (Hsorted : StronglySorted str_le (merge_order brs brname))
      by (apply Sorted_StronglySorted; [apply str_le_trans|apply merge_order_sorted]).
    rewrite Hsplit in Hnd, Hsorted |- *.
    rewrite fmap_app, first_wins_app_None.
    + simpl. by rewrite Hv.
    + intros d (n' & -> & Hn')%list_elem_of_fmap.
      assert (Hn'in : n' ∈ merge_order brs brname)
        by (rewrite Hsplit; apply elem_of_app; by left).
      apply elem_of_merge_order in Hn'in as [Hsome Hn'ne].
      apply Hbefore; [done|done| |].
      * intros ->. apply NoDup_app in Hnd as (_ & Hdisj & _).
        apply (Hdisj n Hn'). by left.
      * eapply (StronglySorted_app_1_elem_of _ l1 (n :: l2)); [done|done|by left].
Qed.

(** X10.  Which entry survives the merge of several routers into one.  For
    each of the three dictionaries of a router, the merged router has under
    a key the entry of the target router if the target has the key, and
    otherwise the entry of the router whose name comes first in sorted order
    among the other routers that have the key. *)
Theorem combine_border_routers_keeps_first (topo topo' : Topology) (brname : string)
    (br' : BorderRouter) :
  size (BorderRouters topo) ≠ 1 →
  _combine_border_routers topo brname = Ok (topo', br') →
  (∀ k n, merge_winner Interfaces (BorderRouters topo) brname k n →
          default ∅ (Interfaces br') !! k
          = default ∅ (Interfaces (router_of (BorderRouters topo) n)) !! k) ∧
  (∀ k n, merge_winner InternalAddrs (BorderRouters topo) brname k n →
          default ∅ (InternalAddrs br') !! k
          = default ∅ (InternalAddrs (router_of (BorderRouters topo) n)) !! k) ∧
  (∀ k n, merge_winner CtrlAddr (BorderRouters topo) brname k n →
          default ∅ (CtrlAddr br') !! k
          = default ∅ (CtrlAddr (router_of (BorderRouters topo) n)) !! k).
Proof.
  intros Hsz. unfold _combine_border_routers.
  destruct (combine_border_routers_brs (BorderRouters topo) brname)
    as [[brs1 br1]|e] eqn:Hc; simpl; [|done].
  intros [= <- <-].
  apply combine_border_routers_merge in Hc as (_ & ia & ca & ifs & -> & Hia & Hca & Hifs);
    [|done].
  simpl. split_and!; intros k n Hw.
  - rewrite Hifs. by apply first_wins_winner.
  - rewrite Hia. by apply first_wins_winner.
  - rewrite Hca. by apply first_wins_winner.
Qed.

(** ** The names under which routers are monitored *)

Lemma string_of_uint_no_dash (d : Decimal.uint) :
  "-"%char ∉ list_ascii_of_string (NilEmpty.string_of_uint d).
Proof.
  induction d; simpl; [apply not_elem_of_nil|..];
    (apply not_elem_of_cons; split; [discriminate|done]).
Qed.

Lemma str_no_dash (n : Z) : (0 ≤ n)%Z → "-"%char ∉ list_ascii_of_string (str n).
Proof.
  intros Hn. unfold str. destruct n as [|p|p]; [| |lia].
  - simpl. apply not_elem_of_cons. split; [discriminate|apply not_elem_of_nil].
  - simpl. unfold NilZero.string_of_uint.
    destruct (Pos.to_uint p) eqn:E; try (rewrite <-E; apply string_of_uint_no_dash).
    simpl. apply not_elem_of_cons. split; [discriminate|apply not_elem_of_nil].
Qed.

Lemma last_segment_no_dash (s : string) :
  "-"%char ∉ list_ascii_of_string s → last_segment s = s.
Proof.
  induction s as [|c s IH]; [done|]. simpl. intros H.
  apply not_elem_of_cons in H as [Hc Hs].
  rewrite bool_decide_eq_false_2 by done.
  destruct (Ascii.eqb_spec c "-"); [congruence|]. by rewrite IH.
Qed.

Lemma last_segment_app (p s : string) :
  "-"%char ∉ list_ascii_of_string s → last_segment (p +:+ "-" +:+ s) = s.
Proof.
  intros Hs. induction p as [|c p IH]; simpl.
  - by rewrite bool_decide_eq_false_2 by done.
  - rewrite bool_decide_eq_true_2; [done|].
    clear IH. induction p as [|c' p IH]; simpl; [by left|by right].
Qed.

Lemma last_segment_user_brname (my_asid : string) (j : nat) :
  last_segment (user_brname my_asid j) = str (Z.of_nat j + 11).
Proof.
  unfold user_brname.
  assert (H : "br" +:+ my_asid +:+ "-" +:+ str (Z.of_nat j + 11)
              = ("br" +:+ my_asid) +:+ "-" +:+ str (Z.of_nat j + 11)) by done.
  rewrite H. apply last_segment_app, str_no_dash. lia.
Qed.

Lemma last_segment_infra_brname (my_asid : string) :
  last_segment (infra_brname my_asid) = "1".
Proof.
  unfold infra_brname.
  assert (H : "br" +:+ my_asid +:+ "-1" = ("br" +:+ my_asid) +:+ "-" +:+ "1").
  { simpl. do 2 f_equal. }
  rewrite H. apply last_segment_app. simpl.
  apply not_elem_of_cons. split; [discriminate|apply not_elem_of_nil].
Qed.

(** ** The run as a whole *)

Lemma M_bind_ret {A} (m : M A) (w : World) : (m ≫= mret) w = m w.
Proof. unfold mbind, M_bind, mret, M_ret. by destruct (m w) as [[a|e] w']. Qed.

Section RunProperties.

Variable parse_ISD_AS : string → Z * Z.
Variable os_path_join : string → string → string.
Variable PROM_PORT_OFFSET : Z.
Variable requests_put : MappingsContent → result Response.

Local Abbreviation reconcile := (reconcile parse_ISD_AS os_path_join).
Local Abbreviation monitoring_mapping := (monitoring_mapping PROM_PORT_OFFSET).
Local Abbreviation monitoring_mappings := (monitoring_mappings PROM_PORT_OFFSET).
Local Abbreviation _reset_monitoring :=
  (_reset_monitoring os_path_join PROM_PORT_OFFSET requests_put).
Local Abbreviation fullsync_one :=
  (fullsync_one parse_ISD_AS os_path_join PROM_PORT_OFFSET requests_put).
Local Abbreviation fullsync_items :=
  (fullsync_items parse_ISD_AS os_path_join PROM_PORT_OFFSET requests_put).
Local Abbreviation fullsync_local_gen :=
  (fullsync_local_gen parse_ISD_AS os_path_join PROM_PORT_OFFSET requests_put).
Local Abbreviation marker_path := (marker_path os_path_join).

Lemma monitoring_mappings_raise (items : list (string * BorderRouter)) :
  (∃ name b, (name, b) ∈ items ∧ default ∅ (InternalAddrs b) !! "IPv4" = None) →
  ∃ k, k ∈ ["InternalAddrs"; "IPv4"] ∧ monitoring_mappings items = Raise (KeyError k).
Proof.
  induction items as [|[n0 b0] items IH]; intros (name & b & Hin & Hbad).
  { by apply elem_of_nil in Hin. }
  simpl. unfold monitoring_mapping.
  destruct (InternalAddrs b0) as [ia|] eqn:Hia; simpl;
    [|exists "InternalAddrs"; split; [repeat constructor|done]].
  destruct (ia !! "IPv4") as [v4|] eqn:Hv4; simpl;
    [|exists "IPv4"; split; [repeat constructor|done]].
  apply elem_of_cons in Hin as [[= -> ->]|Hin].
  { rewrite Hia in Hbad. simpl in Hbad. congruence. }
  destruct IH as (k & Hk & ->); [by exists name, b|]. by exists k.
Qed.

Lemma monitoring_mappings_inv (items : list (string * BorderRouter))
    (ms : list (string * Z)) :
  monitoring_mappings items = Ok ms →
  Forall2 (λ item m, monitoring_mapping item.1 item.2 = Ok m) items ms.
Proof.
  revert ms. induction items as [|[n0 b0] items IH]; intros ms; simpl.
  - intros [= <-]. constructor.
  - destruct (monitoring_mapping n0 b0) as [m|e] eqn:Hm; simpl; [|done].
    destruct (monitoring_mappings items) as [ms'|e]; simpl; [|done].
    intros [= <-]. constructor; [done|by apply IH].
Qed.

(** X11.  [_reset_monitoring] needs an IPv4 internal address on every
    router.  When a router of the topology has none, the call raises
    [KeyError] for ['InternalAddrs'] or ['IPv4'] after it has created the
    marker file: the marker stays, the endpoint is not contacted and nothing
    is printed. *)
Theorem reset_monitoring_needs_internal_address (tp : Topology) (config : LocalConfig)
    (w : World) (name : string) (b : BorderRouter) :
  BorderRouters tp !! name = Some b →
  default ∅ (InternalAddrs b) !! "IPv4" = None →
  ∃ k, k ∈ ["InternalAddrs"; "IPv4"] ∧
       _reset_monitoring tp config w
       = (Raise (KeyError k),
          {| files := <[marker_path config := ""]> (files w);
             gen_dir := gen_dir w; stdout := stdout w |}).
Proof.
  intros Hb Hbad.
  destruct (monitoring_mappings_raise (map_to_list (BorderRouters tp))) as (k & Hk & Hraise).
  { exists name, b. split; [by apply elem_of_map_to_list|done]. }
  exists k. split; [done|].
  unfold _reset_monitoring, mbind, M_bind, open_w_close, lift. simpl.
  by rewrite Hraise.
Qed.

(** X12.  The names and ports that a pass hands to the monitoring endpoint.
    In the mappings built from the new topology, the infrastructure router
    appears as [/br-1], and the user router number [j] as [/br-<j+11>] with
    the port [31049 + id + PROM_PORT_OFFSET], where [id] is the interface id
    of the first connection put into that router. *)
Theorem monitoring_mappings_after_pass (config : LocalConfig) (my_asid : string)
    (tp : Topology) (status : SyncStatus) (files : gmap string string) (r : Reconciled)
    (ms : list (string * Z)) :
  reconcile config my_asid tp status files = Ok r →
  monitoring_mappings (map_to_list (BorderRouters (new_tp r))) = Ok ms →
  (∃ port, ("/br-1", port) ∈ ms) ∧
  (∀ j c,
     default [] (connections (status_after r)) !! (j * 12) = Some c →
     ("/br-" +:+ str (Z.of_nat j + 11), 31049 + APBRID c + PROM_PORT_OFFSET)%Z ∈ ms) ∧
  length ms = 1 + (length (default [] (connections (status_after r))) + 11) / 12.
Proof.
  intros Hr Hms. apply monitoring_mappings_inv in Hms.
  assert (Hfind : ∀ name b, BorderRouters (new_tp r) !! name = Some b →
                            ∃ m, m ∈ ms ∧ monitoring_mapping name b = Ok m).
  { intros name b Hb. apply elem_of_map_to_list, list_elem_of_lookup_1 in Hb as [i Hi].
    destruct (Forall2_lookup_l _ _ _ _ _ Hms Hi) as (m & Hm & Hok).
    exists m. split; [by eapply list_elem_of_lookup_2|done]. }
  split_and!.
  - destruct (reconcile_inv parse_ISD_AS os_path_join _ _ _ _ _ _ Hr)
      as (pruned & infra & st & _ & _ & _ & Heq).
    destruct (Hfind (infra_brname my_asid) infra) as ([path port] & Hin & Hm).
    { rewrite Heq. simpl. apply lookup_output. by left. }
    unfold monitoring_mapping in Hm. rewrite last_segment_infra_brname in Hm.
    destruct (InternalAddrs infra) as [ia|]; simpl in Hm; [|done].
    destruct (ia !! "IPv4") as [v4|]; simpl in Hm; [|done].
    injection Hm as <- <-. by eexists.
  - intros j c Hc.
    destruct (pass_user_router_addresses parse_ISD_AS os_path_join _ _ _ _ _ _ j c Hr Hc)
      as (b & Hb & _ & Hia).
    destruct (Hfind _ b Hb) as (m & Hin & Hm).
    unfold monitoring_mapping in Hm. rewrite last_segment_user_brname, Hia in Hm.
    simpl in Hm. rewrite lookup_singleton_eq in Hm. simpl in Hm.
    by injection Hm as <-.
  - rewrite <-(Forall2_length _ _ _ Hms), length_map_to_list.
    by apply (pass_router_count parse_ISD_AS os_path_join config my_asid tp status files).
Qed.

(** The loop over the items of the answer only looks at the entry of the
    AS that is synchronised. *)
Lemma fullsync_items_none (config : LocalConfig) (asid : string) (remap : bool)
    (items : list (string * SyncStatus)) (acc : gmap string SyncStatus * bool) (w : World) :
  asid ∉ items.*1 →
  fullsync_items config [asid] remap items acc w = (Ok acc, w).
Proof.
  induction items as [|[my_asid status] items IH]; intros Hnot; [done|].
  simpl. rewrite decide_False.
  - unfold mbind, M_bind, mret, M_ret. apply IH. intros Hin. apply Hnot. by right.
  - intros ->%list_elem_of_singleton. apply Hnot. by left.
Qed.

Lemma fullsync_items_only (config : LocalConfig) (asid : string) (remap : bool)
    (items : list (string * SyncStatus)) (status : SyncStatus)
    (acc : gmap string SyncStatus * bool) (w : World) :
  NoDup items.*1 → (asid, status) ∈ items →
  fullsync_items config [asid] remap items acc w
  = fullsync_one config remap asid status acc w.
Proof.
  induction items as [|[my_asid status0] items IH]; intros Hnd Hin.
  { by apply elem_of_nil in Hin. }
  simpl in Hnd. apply NoDup_cons in Hnd as [Hfresh Hnd].
  apply elem_of_cons in Hin as [[= <- <-]|Hin]; simpl.
  - rewrite decide_True by by left.
    unfold mbind, M_bind.
    destruct (fullsync_one config remap asid status acc w) as [[acc'|e] w']; [|done].
    by apply fullsync_items_none.
  - rewrite decide_False.
    + unfold mbind, M_bind, mret, M_ret. by apply IH.
    + intros ->%list_elem_of_singleton. apply Hfresh.
      apply list_elem_of_fmap. by exists (asid, status).
Qed.

Lemma fullsync_items_of_map (config : LocalConfig) (asid : string) (remap : bool)
    (fullsynced : gmap string SyncStatus) (acc : gmap string SyncStatus * bool)
    (w : World) :
  fullsync_items config [asid] remap (map_to_list fullsynced) acc w
  = match fullsynced !! asid with
    | Some status => fullsync_one config remap asid status acc w
    | None => (Ok acc, w)
    end.
Proof.
  destruct (fullsynced !! asid) as [status|] eqn:Hs.
  - apply fullsync_items_only; [apply NoDup_fst_map_to_list|by apply elem_of_map_to_list].
  - apply fullsync_items_none. intros ([a s] & Ha & Hin)%list_elem_of_fmap.
    simpl in Ha. subst a. apply elem_of_map_to_list in Hin. congruence.
Qed.

(** An answer without an entry for the AS. *)
Lemma fullsync_without_entry_lemma (config : LocalConfig)
    (coordinator : CoordinatorServer) (asid : string) (timestamp : Z)
    (fullsynced : gmap string SyncStatus) (w : World) :
  request_fullsync coordinator asid timestamp = Ok fullsynced →
  fullsynced !! asid = None →
  fullsync_local_gen config coordinator asid timestamp w
  = (Ok false,
     {| files := files w; gen_dir := gen_dir w;
        stdout := stdout w ++ [DebugFullsyncReceived fullsynced; InfoProcessed false ∅] |}).
Proof.
  intros Hreq Hnone.
  unfold fullsync_local_gen, mbind, M_bind, lift, print, os_path_exists. simpl.
  rewrite Hreq. simpl. rewrite fullsync_items_of_map, Hnone.
  unfold acknowledge, mbind, M_bind, print. simpl.
  rewrite decide_False by (by intros H; apply H).
  unfold mret, M_ret. simpl. by rewrite <-(assoc_L (++)).
Qed.

(** X13.  An answer of the coordinator without an entry for the AS leaves
    everything as it is: the run returns [False], no file and no topology
    is touched, and no acknowledgment is sent (whatever [reply_fullsync]
    would do).  This is in particular the run after an empty answer. *)
Theorem fullsync_without_entry_does_nothing (config : LocalConfig)
    (coordinator : CoordinatorServer) (asid : string) (timestamp : Z)
    (fullsynced : gmap string SyncStatus) (w : World) :
  request_fullsync coordinator asid timestamp = Ok fullsynced →
  fullsynced !! asid = None →
  fullsync_local_gen config coordinator asid timestamp w
  = (Ok false,
     {| files := files w; gen_dir := gen_dir w;
        stdout := stdout w ++ [DebugFullsyncReceived fullsynced; InfoProcessed false ∅] |}).
Proof. apply fullsync_without_entry_lemma. Qed.

(** The body of the loop for the AS, up to the monitoring remap. *)
Lemma fullsync_one_run (config : LocalConfig) (remap : bool) (my_asid : string)
    (status : SyncStatus) (ack : gmap string SyncStatus) (changed : bool) (w : World)
    (as_obj : ASCredential) (tp : Topology) (r : Reconciled) :
  gen_dir w !! my_asid = Some (as_obj, tp) →
  reconcile config my_asid tp status (files w) = Ok r →
  fullsync_one config remap my_asid status (ack, changed) w
  = let w2 :=
      {| files := fs_after r;
         gen_dir := if topo_changed_now r
                    then <[my_asid := (as_obj, new_tp r)]> (gen_dir w) else gen_dir w;
         stdout := stdout w ++ refused_report status r |} in
    if topo_changed_now r || remap then
      match _reset_monitoring (new_tp r) config w2 with
      | (Ok _, w3) => (Ok (<[my_asid := status_after r]> ack, changed || topo_changed_now r), w3)
      | (Raise e, w3) => (Raise e, w3)
      end
    else (Ok (<[my_asid := status_after r]> ack, changed || topo_changed_now r), w2).
Proof.
  intros Hgen Hr. unfold fullsync_one, mbind, M_bind, load_topology. rewrite Hgen.
  rewrite Hr. unfold refused_report.
  destruct (decide (skipped_set r = ∅)) as [Hs|Hs]; simpl.
  - rewrite (right_id_L [] (++)).
    destruct (topo_changed_now r); simpl.
    + destruct (_reset_monitoring (new_tp r) config _) as [[b|e] w3]; done.
    + destruct remap; simpl; [|done].
      destruct (_reset_monitoring (new_tp r) config _) as [[b|e] w3]; done.
  - destruct (topo_changed_now r); simpl.
    + destruct (_reset_monitoring (new_tp r) config _) as [[b|e] w3]; done.
    + destruct remap; simpl; [|done].
      destruct (_reset_monitoring (new_tp r) config _) as [[b|e] w3]; done.
Qed.

(** The run that goes through, with the refused connections listed in the
    order of [elements] and the mappings in the order of [map_to_list]. *)
Lemma fullsync_local_gen_returns_listing (config : LocalConfig)
    (coordinator : CoordinatorServer) (asid : string) (timestamp : Z)
    (fullsynced : gmap string SyncStatus) (status : SyncStatus) (w : World)
    (as_obj : ASCredential) (tp : Topology) (r : Reconciled)
    (ms : list (string * Z)) (resp : Response) (reply : gmap string SyncStatus) :
  request_fullsync coordinator asid timestamp = Ok fullsynced →
  fullsynced !! asid = Some status →
  gen_dir w !! asid = Some (as_obj, tp) →
  reconcile config asid tp status (files w) = Ok r →
  (topo_changed_now r || bool_decide (is_Some (files w !! marker_path config)) = true →
   monitoring_mappings (map_to_list (BorderRouters (new_tp r))) = Ok ms ∧
   requests_put (mappings_content ms) = Ok resp) →
  reply_fullsync coordinator {[asid := status_after r]} timestamp = Ok reply →
  fullsync_local_gen config coordinator asid timestamp w
  = (Ok (topo_changed_now r),
     {| files :=
          if topo_changed_now r || bool_decide (is_Some (files w !! marker_path config))
          then delete (marker_path config) (fs_after r) else fs_after r;
        gen_dir :=
          if topo_changed_now r
          then <[asid := (as_obj, new_tp r)]> (gen_dir w) else gen_dir w;
        stdout :=
          stdout w ++ [DebugFullsyncReceived fullsynced] ++ refused_report status r
          ++ (if topo_changed_now r || bool_decide (is_Some (files w !! marker_path config))
              then [Sms2Responded (status_code resp)] else [])
          ++ [InfoProcessed true {[asid := status_after r]}]
          ++ (if bool_decide (reply ≠ ∅)
                 && bool_decide (reply ≠ {[asid := status_after r]})
              then [ErrorCoordinatorDiffers] else [])
          ++ [DebugResponse reply] |}).
Proof.
  intros Hreq Hstatus Hgen Hr Hmon Hreply.
  unfold fullsync_local_gen, mbind at 1 2 3, M_bind at 1 2 3, lift, print, os_path_exists.
  simpl. rewrite Hreq. simpl. fold (marker_path config).
  unfold mbind at 1, M_bind at 1.
  rewrite fullsync_items_of_map, Hstatus.
  rewrite (fullsync_one_run config _ asid status ∅ false _ as_obj tp r) by done.
  rewrite insert_empty. simpl.
  assert (Hack : ∀ w1, acknowledge coordinator {[asid := status_after r]} timestamp w1
    = (Ok (), {| files := files w1; gen_dir := gen_dir w1;
                 stdout := stdout w1
                   ++ [InfoProcessed true {[asid := status_after r]}]
                   ++ (if bool_decide (reply ≠ ∅)
                          && bool_decide (reply ≠ {[asid := status_after r]})
                       then [ErrorCoordinatorDiffers] else [])
                   ++ [DebugResponse reply] |})).
  { intros w1. unfold acknowledge, mbind, M_bind, print, try_, lift, read_local, mret, M_ret.
    rewrite decide_True by apply insert_non_empty.
    rewrite bool_decide_eq_true_2 by apply insert_non_empty.
    rewrite Hreply. simpl.
    destruct (bool_decide (reply ≠ ∅) && bool_decide (reply ≠ {[asid := status_after r]}));
      simpl; by rewrite <-?(assoc_L (++)). }
  destruct (topo_changed_now r || bool_decide (is_Some (files w !! marker_path config)))
    eqn:Hdue.
  - destruct (Hmon eq_refl) as [Hms Hput].
    rewrite (reset_monitoring_on_response os_path_join PROM_PORT_OFFSET requests_put
               (new_tp r) config _ ms resp Hms Hput).
    unfold mbind, M_bind, mret, M_ret. rewrite Hack. simpl.
    by rewrite <-!(assoc_L (++)).
  - unfold mbind, M_bind, mret, M_ret. rewrite Hack. simpl.
    by rewrite <-!(assoc_L (++)).
Qed.

(** The run that raises in the remap, with the refused connections listed
    in the order of [elements]. *)
Lemma fullsync_local_gen_raises_listing (config : LocalConfig)
    (coordinator : CoordinatorServer) (asid : string) (timestamp : Z)
    (fullsynced : gmap string SyncStatus) (status : SyncStatus) (w : World)
    (as_obj : ASCredential) (tp : Topology) (r : Reconciled)
    (name : string) (b : BorderRouter) :
  request_fullsync coordinator asid timestamp = Ok fullsynced →
  fullsynced !! asid = Some status →
  gen_dir w !! asid = Some (as_obj, tp) →
  reconcile config asid tp status (files w) = Ok r →
  topo_changed_now r || bool_decide (is_Some (files w !! marker_path config)) = true →
  BorderRouters (new_tp r) !! name = Some b →
  default ∅ (InternalAddrs b) !! "IPv4" = None →
  ∃ k, k ∈ ["InternalAddrs"; "IPv4"] ∧
    fullsync_local_gen config coordinator asid timestamp w
    = (Raise (KeyError k),
       {| files := <[marker_path config := ""]> (fs_after r);
          gen_dir :=
            if topo_changed_now r
            then <[asid := (as_obj, new_tp r)]> (gen_dir w) else gen_dir w;
          stdout :=
            stdout w ++ [DebugFullsyncReceived fullsynced] ++ refused_report status r |}).
Proof.
  intros Hreq Hstatus Hgen Hr Hdue Hb Hbad.
  destruct (monitoring_mappings_raise (map_to_list (BorderRouters (new_tp r))))
    as (k & Hk & Hraise).
  { exists name, b. split; [by apply elem_of_map_to_list|done]. }
  exists k. split; [done|].
  unfold fullsync_local_gen, mbind at 1 2 3, M_bind at 1 2 3, lift, print, os_path_exists.
  simpl. rewrite Hreq. simpl. fold (marker_path config).
  unfold mbind at 1, M_bind at 1.
  rewrite fullsync_items_of_map, Hstatus.
  rewrite (fullsync_one_run config _ asid status ∅ false _ as_obj tp r) by done.
  simpl. rewrite Hdue.
  unfold _reset_monitoring, mbind, M_bind, open_w_close, lift. simpl.
  rewrite Hraise. simpl. fold (marker_path config).
  by rewrite <-!(assoc_L (++)).
Qed.

Lemma refused_report_reports (status : SyncStatus) (r : Reconciled) :
  reports_refused status r (refused_report status r).
Proof.
  unfold reports_refused, refused_report.
  destruct (decide (skipped_set r = ∅)); [done|]. by eexists.
Qed.

(** X14.  The run that goes through.  The coordinator answers with an
    entry for the AS, the pass over the topology on disk returns, the
    monitoring endpoint answers the PUT of the mappings, in whatever order
    they are listed, when the remap is due (the topology changed or the
    marker file was there), and the coordinator takes the acknowledgment.
    Then the run returns whether the topology changed; the new topology is
    written exactly when it changed; the remap is done exactly when it is
    due, and it clears the marker whatever the status of the answer; the
    refused connections are reported, in some order, when there are any;
    the acknowledgment holds the status object of the pass under the AS;
    and the answer to it is reported as a disagreement exactly when it is
    neither empty nor equal to the acknowledgment. *)
Theorem fullsync_local_gen_returns_verdict (config : LocalConfig)
    (coordinator : CoordinatorServer) (asid : string) (timestamp : Z)
    (fullsynced : gmap string SyncStatus) (status : SyncStatus) (w : World)
    (as_obj : ASCredential) (tp : Topology) (r : Reconciled)
    (ms : list (string * Z)) (resp : Response) (reply : gmap string SyncStatus) :
  request_fullsync coordinator asid timestamp = Ok fullsynced →
  fullsynced !! asid = Some status →
  gen_dir w !! asid = Some (as_obj, tp) →
  reconcile config asid tp status (files w) = Ok r →
  (topo_changed_now r || bool_decide (is_Some (files w !! marker_path config)) = true →
   monitoring_mappings (map_to_list (BorderRouters (new_tp r))) = Ok ms ∧
   ∀ body, carries_mappings ms body → requests_put body = Ok resp) →
  reply_fullsync coordinator {[asid := status_after r]} timestamp = Ok reply →
  ∃ refused,
    reports_refused status r refused ∧
    fullsync_local_gen config coordinator asid timestamp w
    = (Ok (topo_changed_now r),
       {| files :=
            if topo_changed_now r || bool_decide (is_Some (files w !! marker_path config))
            then delete (marker_path config) (fs_after r) else fs_after r;
          gen_dir :=
            if topo_changed_now r
            then <[asid := (as_obj, new_tp r)]> (gen_dir w) else gen_dir w;
          stdout :=
            stdout w ++ [DebugFullsyncReceived fullsynced] ++ refused
            ++ (if topo_changed_now r
                   || bool_decide (is_Some (files w !! marker_path config))
                then [Sms2Responded (status_code resp)] else [])
            ++ [InfoProcessed true {[asid := status_after r]}]
            ++ (if bool_decide (reply ≠ ∅)
                   && bool_decide (reply ≠ {[asid := status_after r]})
                then [ErrorCoordinatorDiffers] else [])
            ++ [DebugResponse reply] |}).
Proof.
  intros Hreq Hstatus Hgen Hr Hmon Hreply.
  exists (refused_report status r). split; [apply refused_report_reports|].
  apply (fullsync_local_gen_returns_listing config coordinator asid timestamp fullsynced
           status w as_obj tp r ms resp reply); try done.
  intros Hdue. destruct (Hmon Hdue) as [Hms Hput]. split; [done|].
  apply Hput. by split.
Qed.

(** X15.  A run that cannot finish the remap.  When the remap is due and a
    router of the new topology has no IPv4 internal address (as the
    infrastructure router that the merge creates when no router is left),
    the run raises [KeyError]: by then the refused connections are
    reported, in some order, the new topology is written if it changed and
    the marker file is in place; the monitoring endpoint has not been
    contacted and no acknowledgment has been sent. *)
Theorem fullsync_local_gen_raises_in_remap (config : LocalConfig)
    (coordinator : CoordinatorServer) (asid : string) (timestamp : Z)
    (fullsynced : gmap string SyncStatus) (status : SyncStatus) (w : World)
    (as_obj : ASCredential) (tp : Topology) (r : Reconciled)
    (name : string) (b : BorderRouter) :
  request_fullsync coordinator asid timestamp = Ok fullsynced →
  fullsynced !! asid = Some status →
  gen_dir w !! asid = Some (as_obj, tp) →
  reconcile config asid tp status (files w) = Ok r →
  topo_changed_now r || bool_decide (is_Some (files w !! marker_path config)) = true →
  BorderRouters (new_tp r) !! name = Some b →
  default ∅ (InternalAddrs b) !! "IPv4" = None →
  ∃ k refused,
    k ∈ ["InternalAddrs"; "IPv4"] ∧
    reports_refused status r refused ∧
    fullsync_local_gen config coordinator asid timestamp w
    = (Raise (KeyError k),
       {| files := <[marker_path config := ""]> (fs_after r);
          gen_dir :=
            if topo_changed_now r
            then <[asid := (as_obj, new_tp r)]> (gen_dir w) else gen_dir w;
          stdout := stdout w ++ [DebugFullsyncReceived fullsynced] ++ refused |}).
Proof.
  intros Hreq Hstatus Hgen Hr Hdue Hb Hbad.
  destruct (fullsync_local_gen_raises_listing config coordinator asid timestamp fullsynced
              status w as_obj tp r name b) as (k & Hk & Hrun); try done.
  exists k, (refused_report status r). split; [done|].
  split; [apply refused_report_reports|done].
Qed.

End RunProperties.

(** ** The HTTP client *)

Lemma reply_fullsync_url_truthy (self : CoordinatorClient) (timestamp : Z) :
  url_truthy (Some (reply_fullsync_url self timestamp)) = true.
Proof.
  unfold url_truthy, reply_fullsync_url. rewrite bool_decide_eq_false_2; [done|].
  by destruct (url self).
Qed.

Section HttpClientProperties.

Variable parse_ISD_AS : string → Z * Z.
Variable os_path_join : string → string → string.
Variable PROM_PORT_OFFSET : Z.
Variable requests_put : MappingsContent → result Response.
Variable requests_get : string → result HttpResponse.
Variable requests_post : string → gmap string SyncStatus → result HttpResponse.
Variable json_loads : string → result (gmap string SyncStatus).
Variable parse_error_message : exn → string → string.

Local Abbreviation fullsync_local_gen :=
  (fullsync_local_gen parse_ISD_AS os_path_join PROM_PORT_OFFSET requests_put).
Local Abbreviation loads_or_raise := (loads_or_raise json_loads parse_error_message).
Local Abbreviation client_request_fullsync :=
  (client_request_fullsync requests_get json_loads parse_error_message).
Local Abbreviation post_loop := (post_loop requests_post).
Local Abbreviation client_reply_fullsync :=
  (client_reply_fullsync requests_post json_loads parse_error_message).
Local Abbreviation redirect_chain := (redirect_chain requests_post).

(** X16.  Only an answer with status 200 is processed.  When the GET of
    [request_fullsync] does not return a response with status 200, the run
    leaves the files and the gen directory as they are; it returns [False]
    exactly when the status is 204, without reading the body, and raises
    otherwise. *)
Theorem only_status_200_is_processed (config : LocalConfig)
    (coordinator : CoordinatorServer) (self : CoordinatorClient) (asid : string)
    (timestamp : Z) (w : World) :
  request_fullsync coordinator asid timestamp
    = (client_request_fullsync self asid timestamp).1 →
  (∀ resp, requests_get (request_fullsync_url self asid timestamp) = Ok resp →
           http_status_code resp ≠ 200%Z) →
  files (fullsync_local_gen config coordinator asid timestamp w).2 = files w ∧
  gen_dir (fullsync_local_gen config coordinator asid timestamp w).2 = gen_dir w ∧
  ((fullsync_local_gen config coordinator asid timestamp w).1 = Ok false ∨
   ∃ ex, (fullsync_local_gen config coordinator asid timestamp w).1 = Raise ex) ∧
  ((fullsync_local_gen config coordinator asid timestamp w).1 = Ok false
   ↔ ∃ resp, requests_get (request_fullsync_url self asid timestamp) = Ok resp ∧
             http_status_code resp = 204%Z).
Proof.
  intros Hlink Hnot200.
  unfold client_request_fullsync, _send_request_and_get_json in Hlink.
  destruct (requests_get (request_fullsync_url self asid timestamp)) as [resp|ex] eqn:Hget.
  - simpl in Hlink. specialize (Hnot200 resp eq_refl).
    destruct (decide (http_status_code resp = 204%Z)) as [H204|H204].
    + rewrite (fullsync_without_entry_lemma parse_ISD_AS os_path_join PROM_PORT_OFFSET
                 requests_put config coordinator asid timestamp ∅ w Hlink)
        by apply lookup_empty.
      simpl. split_and!; [done|done|by left|]. split; [by exists resp|done].
    + rewrite decide_True in Hlink by done.
      unfold fullsync_local_gen, mbind, M_bind, lift. rewrite Hlink. simpl.
      split_and!; [done|done|right; by eexists|].
      split; [done|]. intros (resp' & [= <-] & ?). done.
  - assert (∃ ex', request_fullsync coordinator asid timestamp = Raise ex') as [ex' Hex'].
    { destruct ex; simpl in Hlink; by eexists. }
    unfold fullsync_local_gen, mbind, M_bind, lift. rewrite Hex'. simpl.
    split_and!; [done|done|right; by eexists|].
    split; [done|]. by intros (resp' & [=] & _).
Qed.

Lemma post_loop_chain (ack_message : gmap string SyncStatus) (hops : list string)
    (final : HttpResponse) (fuel : nat) (current : string) (resp0 : option HttpResponse) :
  current ≠ EmptyString →
  redirect_chain ack_message current hops final →
  length hops < fuel →
  post_loop fuel (Some current) resp0 ack_message = Some (Ok (Some final)).
Proof.
  revert fuel current resp0. induction hops as [|next rest IH];
    intros fuel current resp0 Hcur Hchain Hfuel; simpl in Hchain.
  - destruct Hchain as [Hpost Hstop]. destruct fuel as [|fuel]; [simpl in *; lia|].
    simpl. rewrite bool_decide_eq_false_2 by done. simpl. rewrite Hpost.
    destruct fuel; simpl; by rewrite Hstop.
  - destruct Hchain as (resp & Hpost & Hred & Hnext & Hne & Hchain).
    destruct fuel as [|fuel]; [simpl in *; lia|].
    simpl. rewrite bool_decide_eq_false_2 by done. simpl. rewrite Hpost, Hred, Hnext.
    rewrite bool_decide_eq_true_2 by by eexists. simpl.
    apply IH; [done|done|simpl in *; lia].
Qed.

(** X17.  [reply_fullsync] follows redirects and does not look at the
    status.  When the POST is redirected over a chain of URLs to a response
    that does not redirect further, the call posts to each URL of the chain
    in turn and returns what the body of that last response parses to,
    whatever the status code of that response; a body that does not parse
    raises [Exception]. *)
Theorem reply_fullsync_follows_redirects (fuel : nat) (self : CoordinatorClient)
    (ack_message : gmap string SyncStatus) (timestamp : Z) (hops : list string)
    (final : HttpResponse) :
  redirect_chain ack_message (reply_fullsync_url self timestamp) hops final →
  length hops < fuel →
  client_reply_fullsync fuel self ack_message timestamp
  = Some (match json_loads (content final) with
          | Ok resp_dict => Ok resp_dict
          | Raise ex =>
              if is_Exception ex
              then Raise (Exception (parse_error_message ex (content final)))
              else Raise ex
          end).
Proof.
  intros Hchain Hfuel. unfold client_reply_fullsync.
  rewrite (post_loop_chain ack_message hops final); [done| |done|done].
  pose proof (reply_fullsync_url_truthy self timestamp) as H. unfold url_truthy in H.
  intros E. rewrite E in H. done.
Qed.

Lemma post_loop_cycle (ack_message : gmap string SyncStatus) (P : string → Prop)
    (fuel : nat) (current : string) (resp0 : option HttpResponse) :
  (∀ u, P u → u ≠ EmptyString ∧
              ∃ resp next, requests_post u ack_message = Ok resp ∧
                           is_redirect resp = true ∧ next_url resp = Some next ∧ P next) →
  P current →
  post_loop fuel (Some current) resp0 ack_message = None.
Proof.
  intros Hcycle. revert current resp0.
  induction fuel as [|fuel IH]; intros current resp0 Hcur;
    destruct (Hcycle current Hcur) as (Hne & resp & next & Hpost & Hred & Hnext & Hn);
    simpl; rewrite bool_decide_eq_false_2 by done; simpl; [done|].
  rewrite Hpost, Hred, Hnext. rewrite bool_decide_eq_true_2 by by eexists. simpl.
  by apply IH.
Qed.

(** X18.  [reply_fullsync] has no bound on the redirects it follows.  When
    the URL of the POST lies in a set of URLs each of which answers with a
    redirect into the set, the loop is still running after any number of
    turns: the call never returns. *)
Theorem reply_fullsync_never_leaves_a_redirect_cycle (self : CoordinatorClient)
    (ack_message : gmap string SyncStatus) (timestamp : Z) (P : string → Prop) :
  (∀ u, P u → u ≠ EmptyString ∧
              ∃ resp next, requests_post u ack_message = Ok resp ∧
                           is_redirect resp = true ∧ next_url resp = Some next ∧ P next) →
  P (reply_fullsync_url self timestamp) →
  ∀ fuel, client_reply_fullsync fuel self ack_message timestamp = None.
Proof.
  intros Hcycle Hstart fuel. unfold client_reply_fullsync.
  by rewrite (post_loop_cycle ack_message P).
Qed.

End HttpClientProperties.

(** ** The further properties on the sample instances *)

Lemma user_routers_take_twelve_each_witness :
  sample_reconcile empty_topology thirteen_connections = Ok thirteen_result ∧
  BorderRouters (new_tp thirteen_result) !! user_brname sample_asid 1
  = (if decide (1 * MAX_IFACES_IN_BR
                < length (default [] (connections (status_after thirteen_result))))
     then Some (router_for sample_config
                  (take MAX_IFACES_IN_BR
                     (drop (1 * MAX_IFACES_IN_BR)
                        (default [] (connections (status_after thirteen_result))))))
     else None).
Proof.
  assert (H1 : sample_reconcile empty_topology thirteen_connections = Ok thirteen_result)
    by (vm_compute; reflexivity).
  split; [exact H1|].
  pose proof (user_routers_take_twelve_each sample_ISD_AS sample_join sample_config
                sample_asid empty_topology (status_of thirteen_connections) ∅
                thirteen_result) as H.
  specialize (H H1). exact (H 1).
Defined.

Lemma router_count_after_pass_witness :
  sample_reconcile empty_topology thirteen_connections = Ok thirteen_result ∧
  size (BorderRouters (new_tp thirteen_result))
  = 1 + (length (default [] (connections (status_after thirteen_result))) + 11) / 12.
Proof.
  assert (H1 : sample_reconcile empty_topology thirteen_connections = Ok thirteen_result)
    by (vm_compute; reflexivity).
  split; [exact H1|].
  pose proof (router_count_after_pass sample_ISD_AS sample_join sample_config
                sample_asid empty_topology (status_of thirteen_connections) ∅
                thirteen_result) as H.
  specialize (H H1). exact H.
Defined.

Lemma accepted_connection_interface_witness :
  sample_reconcile infra_topology vpn_connections = Ok vpn_result ∧
  default [] (connections (status_after vpn_result)) !! 0
  = Some (vpn_conn 20 "17-ffaa:1:2" "alice@example.org") ∧
  ∃ b ifaces,
    BorderRouters (new_tp vpn_result) !! user_brname sample_asid (0 / 12) = Some b ∧
    Interfaces b = Some ifaces ∧
    ifaces !! str (APBRID (vpn_conn 20 "17-ffaa:1:2" "alice@example.org"))
    = Some {| Overlay := "UDP/IPv4";
              ISD_AS := ASID (vpn_conn 20 "17-ffaa:1:2" "alice@example.org");
              LinkTo := "CHILD"; Bandwidth := 1000; if_MTU := 1472;
              RemoteOverlay :=
                {| Addr := UserIP (vpn_conn 20 "17-ffaa:1:2" "alice@example.org");
                   OverlayPort := UserPort (vpn_conn 20 "17-ffaa:1:2" "alice@example.org") |};
              PublicOverlay :=
                {| Addr := if IsVPN (vpn_conn 20 "17-ffaa:1:2" "alice@example.org")
                           then "10.0.8.1" else interface_ip sample_config;
                   OverlayPort := APPort (vpn_conn 20 "17-ffaa:1:2" "alice@example.org") |} |}.
Proof.
  assert (H1 : sample_reconcile infra_topology vpn_connections = Ok vpn_result)
    by (vm_compute; reflexivity).
  assert (H2 : default [] (connections (status_after vpn_result)) !! 0
               = Some (vpn_conn 20 "17-ffaa:1:2" "alice@example.org"))
    by (vm_compute; reflexivity).
  split; [exact H1|]. split; [exact H2|].
  pose proof (accepted_connection_interface sample_ISD_AS sample_join sample_config
                sample_asid infra_topology (status_of vpn_connections) ∅ vpn_result
                0 (vpn_conn 20 "17-ffaa:1:2" "alice@example.org")) as H.
  specialize (H H1). specialize (H H2). exact H.
Defined.

Lemma user_router_addresses_witness :
  sample_reconcile empty_topology thirteen_connections = Ok thirteen_result ∧
  default [] (connections (status_after thirteen_result)) !! (1 * 12)
  = Some (sample_conn 32 "17-ffaa:1:a") ∧
  ∃ b,
    BorderRouters (new_tp thirteen_result) !! user_brname sample_asid 1 = Some b ∧
    CtrlAddr b
    = Some {[ "IPv4" := {| Public :=
                             {| ctrl_Addr := internal_ip sample_config;
                                L4Port := 30049 + APBRID (sample_conn 32 "17-ffaa:1:a") |} |} ]} ∧
    InternalAddrs b
    = Some {[ "IPv4" := {| ia_PublicOverlay :=
                             {| Addr := internal_ip sample_config;
                                OverlayPort :=
                                  31049 + APBRID (sample_conn 32 "17-ffaa:1:a") |} |} ]}.
Proof.
  assert (H1 : sample_reconcile empty_topology thirteen_connections = Ok thirteen_result)
    by (vm_compute; reflexivity).
  assert (H2 : default [] (connections (status_after thirteen_result)) !! (1 * 12)
               = Some (sample_conn 32 "17-ffaa:1:a"))
    by (vm_compute; reflexivity).
  split; [exact H1|]. split; [exact H2|].
  pose proof (user_router_addresses sample_ISD_AS sample_join sample_config
                sample_asid empty_topology (status_of thirteen_connections) ∅
                thirteen_result 1 (sample_conn 32 "17-ffaa:1:a")) as H.
  specialize (H H1). specialize (H H2). exact H.
Defined.


Lemma infrastructure_links_carried_over_witness :
  sample_reconcile legacy_topology mixed_connections = Ok legacy_result ∧
  ∃ infra ifs,
    BorderRouters (new_tp legacy_result) !! infra_brname sample_asid = Some infra ∧
    Interfaces infra = Some ifs ∧
    (∀ k v, ifs !! k = Some v →
       is_prunable_child sample_ISD_AS v = false ∧
       ∃ name b ifs0, BorderRouters legacy_topology !! name = Some b ∧
                      Interfaces b = Some ifs0 ∧ ifs0 !! k = Some v) ∧
    (∀ name b ifs0 k v,
       BorderRouters legacy_topology !! name = Some b → Interfaces b = Some ifs0 →
       ifs0 !! k = Some v → is_prunable_child sample_ISD_AS v = false →
       is_Some (ifs !! k)) ∧
    (∀ name b ifs0 k v,
       BorderRouters legacy_topology !! name = Some b → Interfaces b = Some ifs0 →
       ifs0 !! k = Some v → is_prunable_child sample_ISD_AS v = false →
       (∀ name' b' ifs' v',
          BorderRouters legacy_topology !! name' = Some b' → Interfaces b' = Some ifs' →
          ifs' !! k = Some v' → is_prunable_child sample_ISD_AS v' = false → v' = v) →
       ifs !! k = Some v).
Proof.
  assert (H1 : sample_reconcile legacy_topology mixed_connections = Ok legacy_result)
    by (vm_compute; reflexivity).
  split; [exact H1|].
  pose proof (infrastructure_links_carried_over sample_ISD_AS sample_join sample_config
                sample_asid legacy_topology (status_of mixed_connections) ∅
                legacy_result) as H.
  specialize (H H1). exact H.
Defined.

Lemma combine_border_routers_idempotent_witness :
  _combine_border_routers legacy_topology (infra_brname sample_asid)
  = Ok (legacy_merged.1, legacy_merged.2) ∧
  _combine_border_routers legacy_merged.1 (infra_brname sample_asid)
  = Ok (legacy_merged.1, legacy_merged.2).
Proof.
  assert (H1 : _combine_border_routers legacy_topology (infra_brname sample_asid)
               = Ok (legacy_merged.1, legacy_merged.2))
    by (vm_compute; reflexivity).
  split; [exact H1|].
  pose proof (combine_border_routers_idempotent legacy_topology legacy_merged.1
                (infra_brname sample_asid) legacy_merged.2) as H.
  specialize (H H1). exact H.
Defined.

Lemma combine_border_routers_keeps_first_witness :
  size (BorderRouters legacy_topology) ≠ 1 ∧
  _combine_border_routers legacy_topology (infra_brname sample_asid)
  = Ok (legacy_merged.1, legacy_merged.2) ∧
  merge_winner Interfaces (BorderRouters legacy_topology) (infra_brname sample_asid)
    "1" "br17-ffaa_0_1107-2" ∧
  default ∅ (Interfaces legacy_merged.2) !! "1"
  = default ∅ (Interfaces (router_of (BorderRouters legacy_topology) "br17-ffaa_0_1107-2"))
    !! "1".
Proof.
  assert (H1 : size (BorderRouters legacy_topology) ≠ 1)
    by (apply (bool_decide_unpack _); vm_compute; exact I).
  assert (H2 : _combine_border_routers legacy_topology (infra_brname sample_asid)
               = Ok (legacy_merged.1, legacy_merged.2))
    by (vm_compute; reflexivity).
  assert (H3 : merge_winner Interfaces (BorderRouters legacy_topology)
                 (infra_brname sample_asid) "1" "br17-ffaa_0_1107-2").
  { assert (HF : map_Forall (λ n' _, n' ≠ infra_brname sample_asid →
                               n' ≠ "br17-ffaa_0_1107-2" →
                               str_le n' "br17-ffaa_0_1107-2" →
                               default ∅ (Interfaces (router_of (BorderRouters legacy_topology)
                                                        n')) !! "1" = None)
                   (BorderRouters legacy_topology))
      by (apply (bool_decide_unpack _); vm_compute; exact I).
    split; [vm_compute; by eexists|]. right. split; [vm_compute; by eexists|].
    split; [vm_compute; reflexivity|].
    intros n' [b Hb] Hn1 Hn2 Hle. exact (HF n' b Hb Hn1 Hn2 Hle). }
  split; [exact H1|]. split; [exact H2|]. split; [exact H3|].
  pose proof (combine_border_routers_keeps_first legacy_topology legacy_merged.1
                (infra_brname sample_asid) legacy_merged.2) as H.
  specialize (H H1). specialize (H H2). exact (proj1 H "1" "br17-ffaa_0_1107-2" H3).
Defined.

Lemma reset_monitoring_needs_internal_address_witness :
  BorderRouters (new_tp one_on_nothing_result) !! infra_brname sample_asid
  = Some empty_router ∧
  default ∅ (InternalAddrs empty_router) !! "IPv4" = None ∧
  ∃ k, k ∈ ["InternalAddrs"; "IPv4"] ∧
       _reset_monitoring sample_join sample_PROM_PORT_OFFSET endpoint_ok
         (new_tp one_on_nothing_result) sample_config bare_world
       = (Raise (KeyError k),
          {| files := <[marker_path sample_join sample_config := ""]> (files bare_world);
             gen_dir := gen_dir bare_world; stdout := stdout bare_world |}).
Proof.
  assert (H1 : BorderRouters (new_tp one_on_nothing_result) !! infra_brname sample_asid
               = Some empty_router) by (vm_compute; reflexivity).
  assert (H2 : default ∅ (InternalAddrs empty_router) !! "IPv4" = None)
    by (vm_compute; reflexivity).
  split; [exact H1|]. split; [exact H2|].
  pose proof (reset_monitoring_needs_internal_address sample_join sample_PROM_PORT_OFFSET
                endpoint_ok (new_tp one_on_nothing_result) sample_config bare_world
                (infra_brname sample_asid) empty_router) as H.
  specialize (H H1). specialize (H H2). exact H.
Defined.

Lemma monitoring_mappings_after_pass_witness :
  sample_reconcile infra_topology thirteen_connections = Ok thirteen_on_infra_result ∧
  monitoring_mappings sample_PROM_PORT_OFFSET
    (map_to_list (BorderRouters (new_tp thirteen_on_infra_result)))
  = Ok thirteen_mappings ∧
  default [] (connections (status_after thirteen_on_infra_result)) !! (1 * 12)
  = Some (sample_conn 32 "17-ffaa:1:a") ∧
  ("/br-" +:+ str (Z.of_nat 1 + 11),
   31049 + APBRID (sample_conn 32 "17-ffaa:1:a") + sample_PROM_PORT_OFFSET)%Z
  ∈ thirteen_mappings.
Proof.
  assert (H1 : sample_reconcile infra_topology thirteen_connections
               = Ok thirteen_on_infra_result) by (vm_compute; reflexivity).
  assert (H2 : monitoring_mappings sample_PROM_PORT_OFFSET
                 (map_to_list (BorderRouters (new_tp thirteen_on_infra_result)))
               = Ok thirteen_mappings) by (vm_compute; reflexivity).
  assert (H3 : default [] (connections (status_after thirteen_on_infra_result)) !! (1 * 12)
               = Some (sample_conn 32 "17-ffaa:1:a")) by (vm_compute; reflexivity).
  split; [exact H1|]. split; [exact H2|]. split; [exact H3|].
  pose proof (monitoring_mappings_after_pass sample_ISD_AS sample_join
                sample_PROM_PORT_OFFSET sample_config sample_asid infra_topology
                (status_of thirteen_connections) ∅ thirteen_on_infra_result
                thirteen_mappings) as H.
  specialize (H H1). specialize (H H2).
  exact (proj1 (proj2 H) 1 (sample_conn 32 "17-ffaa:1:a") H3).
Defined.

Lemma fullsync_without_entry_does_nothing_witness :
  request_fullsync coordinator_silent sample_asid 1700000000 = Ok ∅ ∧
  (∅ : gmap string SyncStatus) !! sample_asid = None ∧
  fullsync_local_gen sample_ISD_AS sample_join sample_PROM_PORT_OFFSET endpoint_ok
    sample_config coordinator_silent sample_asid 1700000000 sample_world
  = (Ok false,
     {| files := files sample_world; gen_dir := gen_dir sample_world;
        stdout := stdout sample_world
                  ++ [DebugFullsyncReceived ∅; InfoProcessed false ∅] |}).
Proof.
  assert (H1 : request_fullsync coordinator_silent sample_asid 1700000000 = Ok ∅)
    by reflexivity.
  assert (H2 : (∅ : gmap string SyncStatus) !! sample_asid = None) by reflexivity.
  split; [exact H1|]. split; [exact H2|].
  pose proof (fullsync_without_entry_does_nothing sample_ISD_AS sample_join
                sample_PROM_PORT_OFFSET endpoint_ok sample_config coordinator_silent
                sample_asid 1700000000 ∅ sample_world) as H.
  specialize (H H1). specialize (H H2). exact H.
Defined.

Lemma fullsync_local_gen_returns_verdict_witness :
  request_fullsync coordinator_echo sample_asid 1700000000
  = Ok {[ sample_asid := status_of one_connection ]} ∧
  ({[ sample_asid := status_of one_connection ]} : gmap string SyncStatus) !! sample_asid
  = Some (status_of one_connection) ∧
  gen_dir sample_world !! sample_asid = Some (sample_credential, infra_topology) ∧
  sample_reconcile infra_topology one_connection = Ok one_on_infra_result ∧
  monitoring_mappings sample_PROM_PORT_OFFSET
    (map_to_list (BorderRouters (new_tp one_on_infra_result)))
  = Ok one_on_infra_mappings ∧
  (∀ body, carries_mappings one_on_infra_mappings body →
           endpoint_ok body = Ok {| ok := true; status_code := 200 |}) ∧
  reply_fullsync coordinator_echo {[ sample_asid := status_after one_on_infra_result ]}
    1700000000
  = Ok {[ sample_asid := status_after one_on_infra_result ]} ∧
  (fullsync_local_gen sample_ISD_AS sample_join sample_PROM_PORT_OFFSET endpoint_ok
     sample_config coordinator_echo sample_asid 1700000000 sample_world).1
  = Ok (topo_changed_now one_on_infra_result).
Proof.
  assert (H1 : request_fullsync coordinator_echo sample_asid 1700000000
               = Ok {[ sample_asid := status_of one_connection ]}) by reflexivity.
  assert (H2 : ({[ sample_asid := status_of one_connection ]} : gmap string SyncStatus)
                 !! sample_asid = Some (status_of one_connection))
    by (vm_compute; reflexivity).
  assert (H3 : gen_dir sample_world !! sample_asid
               = Some (sample_credential, infra_topology)) by (vm_compute; reflexivity).
  assert (H4 : sample_reconcile infra_topology one_connection = Ok one_on_infra_result)
    by (vm_compute; reflexivity).
  assert (H5 : monitoring_mappings sample_PROM_PORT_OFFSET
                 (map_to_list (BorderRouters (new_tp one_on_infra_result)))
               = Ok one_on_infra_mappings) by (vm_compute; reflexivity).
  assert (H6 : ∀ body, carries_mappings one_on_infra_mappings body →
                       endpoint_ok body = Ok {| ok := true; status_code := 200 |})
    by (intros body _; reflexivity).
  assert (H7 : reply_fullsync coordinator_echo
                 {[ sample_asid := status_after one_on_infra_result ]} 1700000000
               = Ok {[ sample_asid := status_after one_on_infra_result ]}) by reflexivity.
  split; [exact H1|]. split; [exact H2|]. split; [exact H3|]. split; [exact H4|].
  split; [exact H5|]. split; [exact H6|]. split; [exact H7|].
  pose proof (fullsync_local_gen_returns_verdict sample_ISD_AS sample_join
                sample_PROM_PORT_OFFSET endpoint_ok sample_config coordinator_echo
                sample_asid 1700000000 {[ sample_asid := status_of one_connection ]}
                (status_of one_connection) sample_world sample_credential infra_topology
                one_on_infra_result one_on_infra_mappings
                {| ok := true; status_code := 200 |}
                {[ sample_asid := status_after one_on_infra_result ]}) as H.
  specialize (H H1). specialize (H H2). specialize (H H3). specialize (H H4).
  specialize (H (λ _, conj H5 H6)). specialize (H H7).
  destruct H as (refused & _ & Hrun). exact (f_equal fst Hrun).
Defined.

Lemma fullsync_local_gen_raises_in_remap_witness :
  request_fullsync coordinator_echo sample_asid 1700000000
  = Ok {[ sample_asid := status_of one_connection ]} ∧
  ({[ sample_asid := status_of one_connection ]} : gmap string SyncStatus) !! sample_asid
  = Some (status_of one_connection) ∧
  gen_dir bare_world !! sample_asid = Some (sample_credential, empty_topology) ∧
  sample_reconcile empty_topology one_connection = Ok one_on_nothing_result ∧
  topo_changed_now one_on_nothing_result
  || bool_decide (is_Some (files bare_world !! marker_path sample_join sample_config))
  = true ∧
  BorderRouters (new_tp one_on_nothing_result) !! infra_brname sample_asid
  = Some empty_router ∧
  default ∅ (InternalAddrs empty_router) !! "IPv4" = None ∧
  ∃ k refused,
    k ∈ ["InternalAddrs"; "IPv4"] ∧
    reports_refused (status_of one_connection) one_on_nothing_result refused ∧
    fullsync_local_gen sample_ISD_AS sample_join sample_PROM_PORT_OFFSET endpoint_ok
      sample_config coordinator_echo sample_asid 1700000000 bare_world
    = (Raise (KeyError k),
       {| files := <[marker_path sample_join sample_config := ""]>
                     (fs_after one_on_nothing_result);
          gen_dir :=
            if topo_changed_now one_on_nothing_result
            then <[sample_asid := (sample_credential, new_tp one_on_nothing_result)]>
                   (gen_dir bare_world)
            else gen_dir bare_world;
          stdout :=
            stdout bare_world
            ++ [DebugFullsyncReceived {[ sample_asid := status_of one_connection ]}]
            ++ refused |}).
Proof.
  assert (H1 : request_fullsync coordinator_echo sample_asid 1700000000
               = Ok {[ sample_asid := status_of one_connection ]}) by reflexivity.
  assert (H2 : ({[ sample_asid := status_of one_connection ]} : gmap string SyncStatus)
                 !! sample_asid = Some (status_of one_connection))
    by (vm_compute; reflexivity).
  assert (H3 : gen_dir bare_world !! sample_asid
               = Some (sample_credential, empty_topology)) by (vm_compute; reflexivity).
  assert (H4 : sample_reconcile empty_topology one_connection = Ok one_on_nothing_result)
    by (vm_compute; reflexivity).
  assert (H5 : topo_changed_now one_on_nothing_result
               || bool_decide (is_Some (files bare_world
                                          !! marker_path sample_join sample_config))
               = true) by (vm_compute; reflexivity).
  assert (H6 : BorderRouters (new_tp one_on_nothing_result) !! infra_brname sample_asid
               = Some empty_router) by (vm_compute; reflexivity).
  assert (H7 : default ∅ (InternalAddrs empty_router) !! "IPv4" = None)
    by (vm_compute; reflexivity).
  split; [exact H1|]. split; [exact H2|]. split; [exact H3|]. split; [exact H4|].
  split; [exact H5|]. split; [exact H6|]. split; [exact H7|].
  pose proof (fullsync_local_gen_raises_in_remap sample_ISD_AS sample_join
                sample_PROM_PORT_OFFSET endpoint_ok sample_config coordinator_echo
                sample_asid 1700000000 {[ sample_asid := status_of one_connection ]}
                (status_of one_connection) bare_world sample_credential empty_topology
                one_on_nothing_result (infra_brname sample_asid) empty_router) as H.
  specialize (H H1). specialize (H H2). specialize (H H3). specialize (H H4).
  specialize (H H5). specialize (H H6). specialize (H H7). exact H.
Defined.

Lemma only_status_200_is_processed_witness :
  request_fullsync coordinator_no_content sample_asid 1700000000
  = (client_request_fullsync get_no_content sample_loads sample_parse_error
       sample_client sample_asid 1700000000).1 ∧
  (∀ resp, get_no_content (request_fullsync_url sample_client sample_asid 1700000000)
           = Ok resp → http_status_code resp ≠ 200%Z) ∧
  files (fullsync_local_gen sample_ISD_AS sample_join sample_PROM_PORT_OFFSET endpoint_ok
           sample_config coordinator_no_content sample_asid 1700000000 sample_world).2
  = files sample_world.
Proof.
  assert (H1 : request_fullsync coordinator_no_content sample_asid 1700000000
               = (client_request_fullsync get_no_content sample_loads sample_parse_error
                    sample_client sample_asid 1700000000).1) by reflexivity.
  assert (H2 : ∀ resp, get_no_content
                         (request_fullsync_url sample_client sample_asid 1700000000)
                       = Ok resp → http_status_code resp ≠ 200%Z).
  { intros resp [= <-]. simpl. lia. }
  split; [exact H1|]. split; [exact H2|].
  pose proof (only_status_200_is_processed sample_ISD_AS sample_join
                sample_PROM_PORT_OFFSET endpoint_ok get_no_content sample_loads
                sample_parse_error sample_config coordinator_no_content sample_client
                sample_asid 1700000000 sample_world) as H.
  specialize (H H1). specialize (H H2). exact (proj1 H).
Defined.

Lemma reply_fullsync_follows_redirects_witness :
  redirect_chain post_moved ∅ (reply_fullsync_url sample_client 1700000000) [moved_to]
    {| http_status_code := 500; content := "{}"; is_redirect := false;
       next_url := None |} ∧
  length [moved_to] < 5 ∧
  client_reply_fullsync post_moved sample_loads sample_parse_error 5 sample_client ∅
    1700000000
  = Some (Ok ∅).
Proof.
  assert (H1 : redirect_chain post_moved ∅ (reply_fullsync_url sample_client 1700000000)
                 [moved_to]
                 {| http_status_code := 500; content := "{}"; is_redirect := false;
                    next_url := None |}).
  { simpl. eexists. split; [vm_compute; reflexivity|]. split; [reflexivity|].
    split; [reflexivity|]. split; [discriminate|]. split; [vm_compute; reflexivity|].
    reflexivity. }
  assert (H2 : length [moved_to] < 5) by (simpl; lia).
  split; [exact H1|]. split; [exact H2|].
  pose proof (reply_fullsync_follows_redirects post_moved sample_loads sample_parse_error
                5 sample_client ∅ 1700000000 [moved_to]
                {| http_status_code := 500; content := "{}"; is_redirect := false;
                   next_url := None |}) as H.
  specialize (H H1). specialize (H H2). exact H.
Defined.

Lemma reply_fullsync_never_leaves_a_redirect_cycle_witness :
  (∀ u, u ≠ EmptyString →
        u ≠ EmptyString ∧
        ∃ resp next, post_cycle u ∅ = Ok resp ∧ is_redirect resp = true ∧
                     next_url resp = Some next ∧ next ≠ EmptyString) ∧
  reply_fullsync_url sample_client 1700000000 ≠ EmptyString ∧
  client_reply_fullsync post_cycle sample_loads sample_parse_error 1000 sample_client ∅
    1700000000
  = None.
Proof.
  assert (H1 : ∀ u, u ≠ EmptyString →
                    u ≠ EmptyString ∧
                    ∃ resp next, post_cycle u ∅ = Ok resp ∧ is_redirect resp = true ∧
                                 next_url resp = Some next ∧ next ≠ EmptyString).
  { intros u Hu. split; [exact Hu|]. eexists _, u. split; [reflexivity|].
    split; [reflexivity|]. split; [reflexivity|exact Hu]. }
  assert (H2 : reply_fullsync_url sample_client 1700000000 ≠ EmptyString)
    by (vm_compute; discriminate).
  split; [exact H1|]. split; [exact H2|].
  pose proof (reply_fullsync_never_leaves_a_redirect_cycle post_cycle sample_loads
                sample_parse_error sample_client ∅ 1700000000
                (λ u, u ≠ EmptyString)) as H.
  specialize (H H1). specialize (H H2). exact (H 1000).
Defined.
